(** * Api_LadisaIA: sequencing optimizer, date calculator and scheduling service

    A shallow embedding of [core/calculators.py], [core/optimizer.py] and the
    sequencing steps of [services/scheduling_service.py], with the properties
    of the specification stated over it.

    Modelling conventions.
    - A Python [float] is an exact rational ([Q]); rounding of the binary
      representation is not modelled.  Equality of rationals is [==].
    - A Python [int] is a [Z].
    - A naive [datetime] is the exact number of minutes elapsed since
      0001-01-01 00:00, which is a Monday; the range limit of [datetime]
      (year 9999) and its microsecond grain are not modelled.
    - Exceptions are values: a computation returns [Ok v], [Raise e], or
      [OutOfFuel] when a [while] loop was cut by the fuel of the model. *)

From Stdlib Require Import ZArith QArith Qcanon Qround Qminmax Lqa Lia List Sorted Permutation String.
From stdpp Require Import gmap strings list.

Local Open Scope Z_scope.
Local Open Scope Q_scope.

(** ** Python values and exceptions *)

Module Py.

Inductive exn : Type :=
| JSONDecodeError
| TypeError
| AttributeError
| ValueError
| ZeroDivisionError
| IndexError
| KeyError.

Inductive res (A : Type) : Type :=
| Ok (a : A)
| Raise (e : exn)
| OutOfFuel.

Arguments Ok {A} a.
Arguments Raise {A} e.
Arguments OutOfFuel {A}.

Definition bind {A B : Type} (c : res A) (k : A -> res B) : res B :=
  match c with
  | Ok a => k a
  | Raise e => Raise e
  | OutOfFuel => OutOfFuel
  end.

(** [try: c except (JSONDecodeError, TypeError): h] *)
Definition try_json_type {A : Type} (c : res A) (h : res A) : res A :=
  match c with
  | Raise JSONDecodeError => h
  | Raise TypeError => h
  | other => other
  end.

(** Comparisons of floats. *)
Definition Qltb (x y : Q) : bool := negb (Qle_bool y x).

(** [max(a, b)]: the first argument unless the second is strictly larger. *)
Definition py_max (a b : Q) : Q := if Qltb a b then b else a.

(** [min(a, b)]: the first argument unless the second is strictly smaller. *)
Definition py_min (a b : Q) : Q := if Qltb b a then b else a.

(** [abs] on integers is [Z.abs]; [x or d] on numbers takes [d] when [x] is zero. *)
Definition or_Q (x d : Q) : Q := if Qeq_bool x 0 then d else x.
Definition or_Z (x d : Z) : Z := if Z.eqb x 0 then d else x.

(** [int(x)] truncates toward zero. *)
Definition py_int (x : Q) : Z := if Qle_bool 0 x then Qfloor x else Qceiling x.

(** [x % m] on floats, for a positive [m]: the result has the sign of [m]. *)
Definition py_fmod (x m : Q) : Q := x - m * inject_Z (Qfloor (x / m)).

(** [a / b] on floats. *)
Definition py_div (a b : Q) : res Q :=
  if Qeq_bool b 0 then Raise ZeroDivisionError else Ok (a / b).

(** [round(x, 2)]: to the nearest hundredth, ties to the even one. *)
Definition round_half_even (x : Q) : Z :=
  let f := Qfloor x in
  let r := x - inject_Z f in
  if Qltb r (1 # 2) then f
  else if Qltb (1 # 2) r then (f + 1)%Z
  else if Z.even f then f else (f + 1)%Z.

Definition py_round2 (x : Q) : Q := inject_Z (round_half_even (x * 100)) / 100.

End Py.

Import Py.

#[global] Instance res_ret : MRet Py.res := @Py.Ok.
#[global] Instance res_bind : MBind Py.res := fun A B k c => Py.bind c k.

(** ** The [datetime] operations the code uses *)

Module Datetime.

Abbreviation datetime := Q (only parsing).

(** Day [d] (0 = 0001-01-01) at [h]:[m]. *)
Definition at_day (d h m : Z) : datetime := inject_Z (1440 * d + 60 * h + m).

Definition day_of (t : datetime) : Z := Qfloor (t / 1440).

(** [t.weekday()]: 0 = Monday, 6 = Sunday. *)
Definition weekday (t : datetime) : Z := (day_of t mod 7)%Z.

(** Seconds and microseconds of [t], as a fraction of a minute. *)
Definition subminute (t : datetime) : Q := t - inject_Z (Qfloor t).

(** [t.replace(hour=h, minute=m)]: date, second and microsecond are kept. *)
Definition replace_hour_minute (t : datetime) (h m : Z) : res datetime :=
  if (0 <=? h)%Z && (h <=? 23)%Z && (0 <=? m)%Z && (m <=? 59)%Z
  then Ok (inject_Z (1440 * day_of t + 60 * h + m) + subminute t)
  else Raise ValueError.

(** The microseconds of [t], as a fraction of a minute. *)
Definition microsecond_part (t : datetime) : Q :=
  subminute t - inject_Z (Qfloor (subminute t * 60)) / 60.

(** [t.replace(hour=h, minute=m, second=s)]: date and microsecond are kept. *)
Definition replace_hour_minute_second (t : datetime) (h m s : Z) : res datetime :=
  if (0 <=? h)%Z && (h <=? 23)%Z && (0 <=? m)%Z && (m <=? 59)%Z
     && (0 <=? s)%Z && (s <=? 59)%Z
  then Ok (inject_Z (1440 * day_of t + 60 * h + m) + inject_Z s / 60 + microsecond_part t)
  else Raise ValueError.

(** [t + timedelta(days=1)], as an exact sum.  Python raises
    [OverflowError] when the result leaves the years 1 to 9999; that range
    is stated apart, as a condition on the dates. *)
Definition plus_one_day (t : datetime) : datetime := t + 1440.

(** [t + timedelta(minutes=q)], with the same proviso. *)
Definition plus_minutes (t : datetime) (q : Q) : datetime := t + q.

(** [(a - b).total_seconds() / 60] *)
Definition minutes_between (a b : datetime) : Q := a - b.

End Datetime.

Import Datetime.

(** ** JSON values and the text fields that carry them *)

Module Json.

(** What [json.loads] builds.  [true] and [false] are the numbers 1 and 0,
    which is how Python's [==], [hash] and truth test see them; numbers are
    exact; an object is its members in insertion order, keys distinct. *)
#[warnings="-register-all"] Inductive json : Type :=
| JNull
| JNum (q : Qc)
| JStr (s : string)
| JArr (items : list json)
| JObj (members : list (string * json)).

(** A Python [str] field, seen through the three things the code asks of
    it: whether it is empty, whether it is the text [null], and what
    [json.loads] makes of it ([None]: it raises [JSONDecodeError]). *)
Inductive json_text : Type :=
| Blank
| NullLiteral
| Text (decoded : option json).

(** [bool(s)] *)
Definition truthy_text (s : json_text) : bool :=
  match s with Blank => false | _ => true end.

(** [s != 'null'] *)
Definition is_not_null_literal (s : json_text) : bool :=
  match s with NullLiteral => false | _ => true end.

(** [json.loads(s)] *)
Definition loads (s : json_text) : res json :=
  match s with
  | Blank => Raise JSONDecodeError
  | NullLiteral => Ok JNull
  | Text (Some v) => Ok v
  | Text None => Raise JSONDecodeError
  end.

(** The hashable values: the elements a [set] can hold. *)
Inductive token : Type :=
| TNull
| TNum (q : Qc)
| TStr (s : string).

#[global] Instance token_eq_dec : EqDecision token.
Proof. solve_decision. Defined.

#[global] Instance token_countable : Countable token.
Proof.
  refine (inj_countable'
    (fun t => match t with
              | TNull => inl ()
              | TNum q => inr (inl q)
              | TStr s => inr (inr s)
              end)
    (fun s => match s with
              | inl _ => TNull
              | inr (inl q) => TNum q
              | inr (inr s) => TStr s
              end) _).
  intros []; reflexivity.
Defined.

(** [hash(v)] fails with [TypeError] on lists and dicts. *)
Definition hashable (v : json) : res token :=
  match v with
  | JNull => Ok TNull
  | JNum q => Ok (TNum q)
  | JStr s => Ok (TStr s)
  | JArr _ => Raise TypeError
  | JObj _ => Raise TypeError
  end.

Fixpoint set_of_items (items : list json) : res (gset token) :=
  match items with
  | [] => Ok ∅
  | v :: rest =>
      t ← hashable v;
      s ← set_of_items rest;
      Ok ({[ t ]} ∪ s)
  end.

Fixpoint chars (s : string) : list string :=
  match s with
  | EmptyString => []
  | String c rest => String c EmptyString :: chars rest
  end.

(** [set(v)]: the elements of a list, the keys of a dict, the characters
    of a string; [TypeError] on what is not iterable. *)
Definition set_of (v : json) : res (gset token) :=
  match v with
  | JNull => Raise TypeError
  | JNum _ => Raise TypeError
  | JStr s => Ok (list_to_set (TStr <$> chars s))
  | JArr items => set_of_items items
  | JObj members => Ok (list_to_set (TStr <$> (fst <$> members)))
  end.

Fixpoint assoc (k : string) (members : list (string * json)) : option json :=
  match members with
  | [] => None
  | (k', v) :: rest => if String.eqb k k' then Some v else assoc k rest
  end.

(** [v.get(k)]: Python's [None] is [JNull]; [AttributeError] on what is
    not a dict. *)
Definition get (v : json) (k : string) : res json :=
  match v with
  | JObj members => Ok (default JNull (assoc k members))
  | _ => Raise AttributeError
  end.

(** [bool(v)] *)
Definition truthy (v : json) : bool :=
  match v with
  | JNull => false
  | JNum q => negb (Qeq_bool q 0)
  | JStr s => negb (String.eqb s EmptyString)
  | JArr items => negb (Nat.eqb (length items) 0)
  | JObj members => negb (Nat.eqb (length members) 0)
  end.

(** [a == b] *)
Fixpoint eqb (a b : json) {struct a} : bool :=
  match a, b with
  | JNull, JNull => true
  | JNum p, JNum q => Qeq_bool p q
  | JStr s, JStr t => String.eqb s t
  | JArr xs, JArr ys =>
      (fix all2 (xs ys : list json) : bool :=
         match xs, ys with
         | [], [] => true
         | x :: xs', y :: ys' => eqb x y && all2 xs' ys'
         | _, _ => false
         end) xs ys
  | JObj ms, JObj ns =>
      Nat.eqb (length ms) (length ns) &&
      (fix each (ms : list (string * json)) : bool :=
         match ms with
         | [] => true
         | (k, v) :: ms' =>
             match assoc k ns with
             | Some w => eqb v w
             | None => false
             end && each ms'
         end) ms
  | _, _ => false
  end.

End Json.

Import Json.

(** ** [schemas/db_models.py] *)

Module Models.

Record MachineModel : Type := {
  machine_id : Z;
  inks : Z;
  functional_inks : Z;
  time_change_units : Q;
  avg_velocity : Q;
  estatus : string
}.

(** [SchedulableOrderModel]; the fields the planner reads. *)
Record SchedulableOrderModel : Type := {
  id : Z;
  datos : json_text;
  fecha_forzosa_entrega : option datetime;
  dias_restantes : option Z;
  colores : option json_text;
  num_colores : Z;
  materiales : json_text;
  total_metros_impresion : Q;
  num_etiquetas : Z
}.

End Models.

Import Models.

(** ** [core/calculators.py] *)

Module Calculators.

(** [PlannerConfig], after its validator has run: [dias_laborales] is a list. *)
Record PlannerConfig : Type := {
  turnos_dia_semana : Z;
  horas_por_turno_semana : Z;
  turnos_sabado : Z;
  dias_laborales : list Z;
  horas_por_turno_sabado : Z;
  hora_inicio_turno1 : Z;
  eficiencia_maquina : Q;
  buffer_seguridad_pct : Q;
  costo_cambio_tinta_min : Q;
  factor_cambio_material_completo : Q;
  factor_cambio_material_parcial : Q;
  bonificacion_mismo_cliente_pct : Q
}.

(** The validator: [None] stands for Monday to Saturday. *)
Definition set_default_dias_laborales (dias : option (list Z)) : list Z :=
  match dias with
  | None => [0; 1; 2; 3; 4; 5]%Z
  | Some l => l
  end.

(** [PlannerConfig()] with every field at its default. *)
Definition PlannerConfig_default : PlannerConfig := {|
  turnos_dia_semana := 1;
  horas_por_turno_semana := 10;
  turnos_sabado := 2;
  dias_laborales := set_default_dias_laborales None;
  horas_por_turno_sabado := 8;
  hora_inicio_turno1 := 7;
  eficiencia_maquina := 85 # 100;
  buffer_seguridad_pct := 1 # 100;
  costo_cambio_tinta_min := 5;
  factor_cambio_material_completo := 1;
  factor_cambio_material_parcial := 1 # 2;
  bonificacion_mismo_cliente_pct := 7 # 10
|}.

Section DateCalculator.

Variable config : PlannerConfig.

(** [DateCalculator.__init__]: working minutes of each weekday. *)
Definition minutos_laborables_por_dia : gmap Z Z :=
  let minutos_semana := (horas_por_turno_semana config * 60 * turnos_dia_semana config)%Z in
  let minutos_sabado := (horas_por_turno_sabado config * 60 * turnos_sabado config)%Z in
  foldl
    (fun tabla dia =>
       if bool_decide (dia ∈ dias_laborales config) then
         if (dia =? 5)%Z then <[dia := minutos_sabado]> tabla
         else <[dia := minutos_semana]> tabla
       else <[dia := 0%Z]> tabla)
    ∅ (seqZ 0 7).

(** [self.minutos_laborables_por_dia.get(d, 0)] *)
Definition minutos_get (d : Z) : Z := default 0%Z (minutos_laborables_por_dia !! d).

(** [all(self.minutos_laborables_por_dia.get(d, 0) == 1440 for d in range(7))] *)
Definition trabaja_24_7 : bool :=
  forallb (fun d => (minutos_get d =? 1440)%Z) (seqZ 0 7).

(** [(fecha + timedelta(days=1)).replace(hour=hora_inicio_turno1, minute=0)] *)
Definition inicio_dia_siguiente (fecha : datetime) : res datetime :=
  replace_hour_minute (plus_one_day fecha) (hora_inicio_turno1 config) 0.

(** The [while] loop of [_siguiente_dia_laboral]; each iteration spends one
    unit of fuel. *)
Fixpoint saltar_no_laborales (fuel : nat) (fecha_siguiente : datetime) : res datetime :=
  if bool_decide (weekday fecha_siguiente ∈ dias_laborales config) then Ok fecha_siguiente
  else
    match fuel with
    | O => OutOfFuel
    | S fuel => saltar_no_laborales fuel (plus_one_day fecha_siguiente)
    end.

Definition _siguiente_dia_laboral (fuel : nat) (fecha : datetime) : res datetime :=
  fecha_siguiente ←
    replace_hour_minute_second (plus_one_day fecha) (hora_inicio_turno1 config) 0 0;
  saltar_no_laborales fuel fecha_siguiente.

(** The [while minutos_restantes > 0] loop of [_ajustar_horario_laboral];
    each iteration spends one unit of fuel. *)
Fixpoint consumir_minutos (fuel : nat) (fecha_actual : datetime) (minutos_restantes : Q)
  : res datetime :=
  if Qltb 0 minutos_restantes then
    match fuel with
    | O => OutOfFuel
    | S fuel =>
        let dia_semana := weekday fecha_actual in
        let minutos_laborables_hoy := minutos_get dia_semana in
        if (minutos_laborables_hoy =? 0)%Z then
          fecha_actual ← inicio_dia_siguiente fecha_actual;
          consumir_minutos fuel fecha_actual minutos_restantes
        else
          let hora_fin :=
            inject_Z (hora_inicio_turno1 config) + inject_Z minutos_laborables_hoy / 60 in
          fin_jornada_hoy ←
            replace_hour_minute fecha_actual (py_int hora_fin) (py_int (py_fmod (hora_fin * 60) 60));
          let minutos_disponibles_hoy := minutes_between fin_jornada_hoy fecha_actual in
          let minutos_disponibles_hoy := py_max 0 minutos_disponibles_hoy in
          if Qle_bool minutos_restantes minutos_disponibles_hoy then
            consumir_minutos fuel (plus_minutes fecha_actual minutos_restantes) 0
          else
            let minutos_restantes := minutos_restantes - minutos_disponibles_hoy in
            fecha_actual ← inicio_dia_siguiente fecha_actual;
            consumir_minutos fuel fecha_actual minutos_restantes
    end
  else Ok fecha_actual.

Definition _ajustar_horario_laboral (fuel : nat) (fecha_inicio : datetime) (minutos_a_sumar : Q)
  : res datetime :=
  let fecha_actual := fecha_inicio in
  let minutos_restantes := minutos_a_sumar in
  if trabaja_24_7 then Ok (plus_minutes fecha_actual minutos_restantes)
  else consumir_minutos fuel fecha_actual minutos_restantes.

(** [set(json.loads(s)) if s else set()] *)
Definition conjunto_materiales (s : json_text) : res (gset token) :=
  if truthy_text s then v ← loads s; set_of v else Ok ∅.

Definition _calcular_tiempo_cambio
  (orden_anterior orden_actual : SchedulableOrderModel) (machine : MachineModel) : res Q :=
  let tiempo_base := or_Q (time_change_units machine) 15 in
  try_json_type
    (materiales_ant ← conjunto_materiales (materiales orden_anterior);
     materiales_act ← conjunto_materiales (materiales orden_actual);
     let costo :=
       if bool_decide (materiales_ant ≠ materiales_act)
       then tiempo_base * factor_cambio_material_completo config
       else tiempo_base * factor_cambio_material_parcial config in
     let costo :=
       costo + inject_Z (Z.abs (or_Z (num_colores orden_anterior) 0
                                - or_Z (num_colores orden_actual) 0))
               * costo_cambio_tinta_min config in
     datos_ant ← loads (datos orden_anterior);
     datos_act ← loads (datos orden_actual);
     cliente_ant ← get datos_ant "id_cliente";
     cliente_act ← get datos_act "id_cliente";
     Ok (if eqb cliente_ant cliente_act
         then costo * bonificacion_mismo_cliente_pct config
         else costo))
    (Ok tiempo_base).

(** The dict appended to [ordenes_con_fechas]: the order's own fields
    ([model_dump]) and the computed ones. *)
Record orden_con_fecha : Type := {
  orden : SchedulableOrderModel;
  probable_fecha_entrega : datetime;
  tiempo_setup_min : Q;
  tiempo_cambios_internos_min : Q;
  tiempo_impresion_min : Q;
  tiempo_buffer_min : Q;
  tiempo_total_min : Q;
  debug_num_etiquetas : Z
}.

(** Step 1.3 of the loop of [calcular_fechas_probables], before the
    efficiency is applied. *)
Definition tiempo_impresion_teorico (machine : MachineModel) (orden : SchedulableOrderModel)
  : res Q :=
  let velocidad_m_hora := or_Q (avg_velocity machine) 150 in
  let velocidad_m_min := velocidad_m_hora / 60 in
  let metros_totales := or_Q (total_metros_impresion orden) 0 in
  if Qltb 0 velocidad_m_min then py_div metros_totales velocidad_m_min else Ok 0.

(** Step 1.3 with the efficiency applied. *)
Definition tiempo_impresion_real (machine : MachineModel) (orden : SchedulableOrderModel)
  : res Q :=
  tiempo_impresion_teorico ← tiempo_impresion_teorico machine orden;
  py_div tiempo_impresion_teorico (eficiencia_maquina config).

(** One iteration of the loop of [calcular_fechas_probables]: the record of
    order [i] and the new [fecha_acumulada]. *)
Definition calcular_orden (fuel : nat) (ordenes_secuenciadas : list SchedulableOrderModel)
  (machine : MachineModel) (i : nat) (orden : SchedulableOrderModel)
  (fecha_acumulada : datetime) : res (orden_con_fecha * datetime) :=
  let duracion_orden_minutos := 0 in
  tiempo_setup ←
    (if (0 <? i)%nat then
       match ordenes_secuenciadas !! (i - 1)%nat with
       | Some anterior => _calcular_tiempo_cambio anterior orden machine
       | None => Raise IndexError
       end
     else Ok 0);
  let num_etiquetas := or_Z (num_etiquetas orden) 1 in
  let tiempo_cambios_internos :=
    inject_Z (num_etiquetas - 1) * or_Q (time_change_units machine) 15 in
  tiempo_impresion_real ← tiempo_impresion_real machine orden;
  let duracion_orden_minutos := duracion_orden_minutos + tiempo_impresion_real in
  let duracion_total_orden := tiempo_setup + tiempo_cambios_internos + tiempo_impresion_real in
  let tiempo_buffer := duracion_orden_minutos * buffer_seguridad_pct config in
  let duracion_total_orden := duracion_orden_minutos + tiempo_buffer in
  fecha_fin_orden ← _ajustar_horario_laboral fuel fecha_acumulada duracion_total_orden;
  Ok ({| orden := orden;
         probable_fecha_entrega := fecha_fin_orden;
         tiempo_setup_min := py_round2 tiempo_setup;
         tiempo_cambios_internos_min := py_round2 tiempo_cambios_internos;
         tiempo_impresion_min := py_round2 tiempo_impresion_real;
         tiempo_buffer_min := py_round2 tiempo_buffer;
         tiempo_total_min := py_round2 duracion_total_orden;
         debug_num_etiquetas := num_etiquetas |},
      fecha_fin_orden).

(** [for i, orden in enumerate(ordenes_secuenciadas)], from position [i] on. *)
Fixpoint recorrer_ordenes (fuel : nat) (ordenes_secuenciadas : list SchedulableOrderModel)
  (machine : MachineModel) (i : nat) (pendientes : list SchedulableOrderModel)
  (fecha_acumulada : datetime) : res (list orden_con_fecha) :=
  match pendientes with
  | [] => Ok []
  | orden :: pendientes =>
      paso ← calcular_orden fuel ordenes_secuenciadas machine i orden fecha_acumulada;
      resto ← recorrer_ordenes fuel ordenes_secuenciadas machine (S i) pendientes paso.2;
      Ok (paso.1 :: resto)
  end.

Definition calcular_fechas_probables (fuel : nat)
  (ordenes_secuenciadas : list SchedulableOrderModel) (fecha_inicio : datetime)
  (machine : MachineModel) : res (list orden_con_fecha) :=
  recorrer_ordenes fuel ordenes_secuenciadas machine 0 ordenes_secuenciadas fecha_inicio.

End DateCalculator.

End Calculators.

(** ** [core/optimizer.py] *)

Module OptimizerConfig.

Definition SETUP_COST_WEIGHT : Q := 100.
Definition DELAY_PENALTY_WEIGHT : Q := 10.
Definition INK_OVERCAPACITY_PENALTY : Q := 1000.
Definition MATERIAL_CHANGE_FACTOR : Q := 2.
Definition MATERIAL_SAME_FACTOR : Q := 1 # 2.
Definition INK_CLEAN_COST : Q := 5.
Definition INK_ADD_COST : Q := 25.
Definition SAME_CLIENT_BONUS_FACTOR : Q := 8 # 10.
Definition HIGH_INK_PRIORITY_WEIGHT : Q := 50000.
Definition COLOR_REUSE_BONUS : Q := 15.

End OptimizerConfig.

Module EnrichedOrder.

(** [id_cliente] is whatever [datos] holds under that key; Python's [None]
    is [JNull]. *)
Record t : Type := {
  original : SchedulableOrderModel;
  id : Z;
  colores : gset token;
  materiales : gset token;
  id_cliente : json
}.

(** [set(json.loads(s)) if s and s != 'null' else set()] *)
Definition conjunto (s : option json_text) : res (gset token) :=
  match s with
  | Some s =>
      if truthy_text s && is_not_null_literal s then v ← loads s; set_of v else Ok ∅
  | None => Ok ∅
  end.

(** [EnrichedOrder.__init__] *)
Definition __init__ (order : SchedulableOrderModel) : res t :=
  try_json_type
    (colores ← conjunto (Models.colores order);
     materiales ← conjunto (Some (Models.materiales order));
     datos_dict ←
       (if truthy_text (Models.datos order) then loads (Models.datos order) else Ok (JObj []));
     id_cliente ← get datos_dict "id_cliente";
     Ok {| original := order; id := Models.id order; colores := colores;
           materiales := materiales; id_cliente := id_cliente |})
    (Ok {| original := order; id := Models.id order; colores := ∅;
           materiales := ∅; id_cliente := JNull |}).

End EnrichedOrder.

Module Optimizer.

Import OptimizerConfig.

Inductive urgencia : Type :=
| CRITICA_ATRASADA
| ATRASADA
| URGENTE
| PROXIMA
| NORMAL.

Definition clasificar_urgencia (orden : SchedulableOrderModel) : urgencia :=
  let dias := match dias_restantes orden with Some d => d | None => 999%Z end in
  if (dias <? -30)%Z then CRITICA_ATRASADA
  else if (dias <? 0)%Z then ATRASADA
  else if (dias <=? 3)%Z then URGENTE
  else if (dias <=? 7)%Z then PROXIMA
  else NORMAL.

Record AlgoritmoGeneticoFlexo : Type := {
  ordenes_dict : gmap Z EnrichedOrder.t;
  idx_to_order_id : list Z;
  maquina : MachineModel
}.

(** [{o.id: EnrichedOrder(o) for o in ordenes}] *)
Fixpoint enriquecer (ordenes : list SchedulableOrderModel) (dict : gmap Z EnrichedOrder.t)
  : res (gmap Z EnrichedOrder.t) :=
  match ordenes with
  | [] => Ok dict
  | o :: ordenes =>
      e ← EnrichedOrder.__init__ o;
      enriquecer ordenes (<[Models.id o := e]> dict)
  end.

(** [AlgoritmoGeneticoFlexo.__init__], without the registration of the
    operators in the toolbox. *)
Definition __init__ (ordenes : list SchedulableOrderModel) (maquina_info : MachineModel)
  : res AlgoritmoGeneticoFlexo :=
  dict ← enriquecer ordenes ∅;
  Ok {| ordenes_dict := dict;
        idx_to_order_id := Models.id <$> ordenes;
        maquina := maquina_info |}.

Section Fitness.

Variable self : AlgoritmoGeneticoFlexo.

(** [_calcular_costo_cambio].  Its [try] guards operations on sets and
    numbers only, none of which raises: the handler is never entered. *)
Definition _calcular_costo_cambio (orden_anterior orden_actual : EnrichedOrder.t) : Q :=
  let costo_total := 0 in
  let tiempo_base := or_Q (time_change_units (maquina self)) 15 in
  let costo_total :=
    if bool_decide (EnrichedOrder.materiales orden_anterior ≠ EnrichedOrder.materiales orden_actual)
    then costo_total + tiempo_base * MATERIAL_CHANGE_FACTOR
    else costo_total + tiempo_base * MATERIAL_SAME_FACTOR in
  let tintas_a_quitar := EnrichedOrder.colores orden_anterior ∖ EnrichedOrder.colores orden_actual in
  let tintas_a_anadir := EnrichedOrder.colores orden_actual ∖ EnrichedOrder.colores orden_anterior in
  let tintas_reutilizadas := EnrichedOrder.colores orden_anterior ∩ EnrichedOrder.colores orden_actual in
  let costo_total := costo_total + inject_Z (Z.of_nat (size tintas_a_anadir)) * INK_ADD_COST in
  let costo_total := costo_total + inject_Z (Z.of_nat (size tintas_a_quitar)) * INK_CLEAN_COST in
  let costo_total := costo_total - inject_Z (Z.of_nat (size tintas_reutilizadas)) * COLOR_REUSE_BONUS in
  let costo_total :=
    if truthy (EnrichedOrder.id_cliente orden_anterior)
       && eqb (EnrichedOrder.id_cliente orden_anterior) (EnrichedOrder.id_cliente orden_actual)
    then costo_total * SAME_CLIENT_BONUS_FACTOR
    else costo_total in
  py_max 0 costo_total.

Definition _estimar_tiempo_produccion (orden : SchedulableOrderModel) : Q :=
  if Qeq_bool (total_metros_impresion orden) 0
     || Qeq_bool (avg_velocity (maquina self)) 0
     || Qeq_bool (avg_velocity (maquina self)) 0
  then 0
  else
    let velocidad_metros_por_hora := avg_velocity (maquina self) in
    let velocidad_metros_por_minuto := velocidad_metros_por_hora / 60 in
    total_metros_impresion orden / velocidad_metros_por_minuto.

(** [self.ordenes_dict[self.idx_to_order_id[idx]]] *)
Definition orden_de_indice (idx : nat) : res EnrichedOrder.t :=
  match idx_to_order_id self !! idx with
  | None => Raise IndexError
  | Some order_id =>
      match ordenes_dict self !! order_id with
      | None => Raise KeyError
      | Some o => Ok o
      end
  end.

(** The block of [_evaluate_fitness] under [if dias_entrega is not None]:
    what it adds to [score]. *)
Definition penalizacion_por_retraso (orden : SchedulableOrderModel)
  (tiempo_acumulado_minutos : Q) : Q :=
  match dias_restantes orden with
  | Some dias_entrega =>
      let plazo_minutos := inject_Z (dias_entrega * 1440) in
      if Qltb plazo_minutos tiempo_acumulado_minutos then
        let retraso_minutos := tiempo_acumulado_minutos - plazo_minutos in
        let peso_penalizacion :=
          match clasificar_urgencia orden with
          | CRITICA_ATRASADA | ATRASADA => 50
          | URGENTE => 20
          | _ => DELAY_PENALTY_WEIGHT
          end in
        py_min (retraso_minutos * peso_penalizacion) 500000
      else 0
  | None => 0
  end.

(** The body of the loop of [_evaluate_fitness] at position [i], from the
    pair [(score, tiempo_acumulado_minutos)] to the next one.  The test
    [if not current_order: continue] never fires: an [EnrichedOrder]
    object is always true. *)
Definition evaluar_posicion (individual_indices : list nat)
  (estado : Q * Q) (i : nat) (current_idx : nat) : res (Q * Q) :=
  let score := estado.1 in
  let tiempo_acumulado_minutos := estado.2 in
  current_order ← orden_de_indice current_idx;
  let num_colores_orden := Z.of_nat (size (EnrichedOrder.colores current_order)) in
  let posicion_normalizada :=
    inject_Z (Z.of_nat i) / inject_Z (Z.of_nat (length individual_indices)) in
  let score :=
    if (5 <=? num_colores_orden)%Z then
      score - (1 - posicion_normalizada) ^ 2 * inject_Z num_colores_orden
              * HIGH_INK_PRIORITY_WEIGHT
    else if (3 <=? num_colores_orden)%Z then
      score - (1 - posicion_normalizada) * inject_Z num_colores_orden
              * (HIGH_INK_PRIORITY_WEIGHT * (2 # 10))
    else
      score + (1 - posicion_normalizada) * inject_Z (3 - num_colores_orden)
              * (HIGH_INK_PRIORITY_WEIGHT * (5 # 10)) in
  estado ←
    (if (0 <? i)%nat then
       match individual_indices !! (i - 1)%nat with
       | None => Raise IndexError
       | Some previous_idx =>
           previous_order ← orden_de_indice previous_idx;
           let costo_cambio := _calcular_costo_cambio previous_order current_order in
           Ok (score + costo_cambio * SETUP_COST_WEIGHT,
               tiempo_acumulado_minutos + costo_cambio)
       end
     else Ok (score, tiempo_acumulado_minutos));
  let score := estado.1 in
  let tiempo_acumulado_minutos := estado.2 in
  let tiempo_prod := _estimar_tiempo_produccion (EnrichedOrder.original current_order) in
  let tiempo_acumulado_minutos := tiempo_acumulado_minutos + tiempo_prod in
  let functional_inks := or_Z (functional_inks (maquina self)) (inks (maquina self)) in
  let score :=
    if (functional_inks <? num_colores_orden)%Z
    then score + inject_Z (num_colores_orden - functional_inks) * INK_OVERCAPACITY_PENALTY
    else score in
  let score :=
    score + penalizacion_por_retraso (EnrichedOrder.original current_order)
              tiempo_acumulado_minutos in
  Ok (score, tiempo_acumulado_minutos).

(** [for i, current_idx in enumerate(individual_indices)], from position [i]. *)
Fixpoint evaluar_desde (individual_indices : list nat) (i : nat) (pendientes : list nat)
  (estado : Q * Q) : res (Q * Q) :=
  match pendientes with
  | [] => Ok estado
  | current_idx :: pendientes =>
      estado ← evaluar_posicion individual_indices estado i current_idx;
      evaluar_desde individual_indices (S i) pendientes estado
  end.

Definition _evaluate_fitness (individual_indices : list nat) : res Q :=
  estado ← evaluar_desde individual_indices 0 individual_indices (0, 0);
  Ok estado.1.

End Fitness.

Section Optimizar.

(** The individual that [algorithms.eaSimple] of the DEAP library leaves in
    [HallOfFame(1)], for a population size and a number of generations.
    The library is not part of the repository; its run is a parameter. *)
Variable hall_of_fame : AlgoritmoGeneticoFlexo -> nat -> nat -> list nat.

Fixpoint traducir_indices (self : AlgoritmoGeneticoFlexo) (indices : list nat) : res (list Z) :=
  match indices with
  | [] => Ok []
  | idx :: indices =>
      match idx_to_order_id self !! idx with
      | None => Raise IndexError
      | Some order_id =>
          ids ← traducir_indices self indices;
          Ok (order_id :: ids)
      end
  end.

Definition optimizar (self : AlgoritmoGeneticoFlexo) (poblacion_size generaciones : nat)
  : res (list Z) :=
  if bool_decide (ordenes_dict self = ∅) then Ok []
  else
    let best_sequence_indices := hall_of_fame self poblacion_size generaciones in
    traducir_indices self best_sequence_indices.

End Optimizar.

End Optimizer.

Module GestorPrioridades.

Import Optimizer.

Inductive bloqueo : Type :=
| FORZADA
| ALTA.

Record t : Type := {
  secuencia : list Z;
  ordenes_dict : gmap Z SchedulableOrderModel;
  maquina_info : MachineModel;
  bloqueos : gmap Z bloqueo
}.

(** [l.remove(x)]: the first occurrence goes; [ValueError] when there is none. *)
Fixpoint py_remove (x : Z) (l : list Z) : res (list Z) :=
  match l with
  | [] => Raise ValueError
  | y :: l' =>
      if (y =? x)%Z then Ok l'
      else l'' ← py_remove x l'; Ok (y :: l'')
  end.

Definition _validar_consistencia_inicial (self : t) : t :=
  let ordenes_invalidas :=
    filter (fun o_id => ordenes_dict self !! o_id = None) (secuencia self) in
  if bool_decide (ordenes_invalidas ≠ []) then
    {| secuencia := filter (fun o_id => is_Some (ordenes_dict self !! o_id)) (secuencia self);
       ordenes_dict := ordenes_dict self;
       maquina_info := maquina_info self;
       bloqueos := bloqueos self |}
  else self.

Definition __init__ (secuencia_inicial : list Z)
  (ordenes_dict : gmap Z SchedulableOrderModel) (maquina_info : MachineModel) : t :=
  _validar_consistencia_inicial
    {| secuencia := secuencia_inicial; ordenes_dict := ordenes_dict;
       maquina_info := maquina_info; bloqueos := ∅ |}.

Definition priorizar_sin_reprogramar (self : t) (orden_id : Z) : res t :=
  if bool_decide (orden_id ∉ secuencia self) then Ok self
  else if bool_decide (ordenes_dict self !! orden_id = None) then
    secuencia ← py_remove orden_id (secuencia self);
    Ok {| secuencia := secuencia; ordenes_dict := ordenes_dict self;
          maquina_info := maquina_info self; bloqueos := bloqueos self |}
  else
    secuencia ← py_remove orden_id (secuencia self);
    let secuencia := orden_id :: secuencia in
    Ok {| secuencia := secuencia; ordenes_dict := ordenes_dict self;
          maquina_info := maquina_info self;
          bloqueos := <[orden_id := FORZADA]> (bloqueos self) |}.

(** The loop of [priorizar_con_reoptimizacion] over the free ids: the
    state is [(ordenes_libres_ids_validas, ordenes_removidas, secuencia)]. *)
Fixpoint separar_validas (dict : gmap Z SchedulableOrderModel) (ordenes_libres_ids : list Z)
  (estado : list Z * list Z * list Z) : res (list Z * list Z * list Z) :=
  match ordenes_libres_ids with
  | [] => Ok estado
  | o_id :: ordenes_libres_ids =>
      let validas := estado.1.1 in
      let removidas := estado.1.2 in
      let secuencia := estado.2 in
      if bool_decide (is_Some (dict !! o_id)) then
        separar_validas dict ordenes_libres_ids (validas ++ [o_id], removidas, secuencia)
      else
        secuencia ←
          (if bool_decide (o_id ∈ secuencia) then py_remove o_id secuencia else Ok secuencia);
        separar_validas dict ordenes_libres_ids (validas, removidas ++ [o_id], secuencia)
  end.

(** [[self.ordenes_dict[o_id] for o_id in ids]] *)
Fixpoint ordenes_de (dict : gmap Z SchedulableOrderModel) (ids : list Z)
  : res (list SchedulableOrderModel) :=
  match ids with
  | [] => Ok []
  | o_id :: ids =>
      match dict !! o_id with
      | None => Raise KeyError
      | Some o => objs ← ordenes_de dict ids; Ok (o :: objs)
      end
  end.

Section Reoptimizar.

Variable hall_of_fame : AlgoritmoGeneticoFlexo -> nat -> nat -> list nat.

(** [ag.optimizar(poblacion_size=100, generaciones=200)] as this method
    calls it: no test keeps a list of one order off the search.  With one
    order an individual has a single position, and the ordered crossover
    registered as [mate] draws two distinct positions with
    [random.sample(range(1), 2)]: the first pair that is mated ends the
    run in [ValueError]. *)
Definition optimizar_libres (ag : AlgoritmoGeneticoFlexo) : res (list Z) :=
  if (length (idx_to_order_id ag) =? 1)%nat then Raise ValueError
  else optimizar hall_of_fame ag 100 200.

Definition priorizar_con_reoptimizacion (self : t) (orden_id : Z) : res t :=
  if bool_decide (orden_id ∉ secuencia self) then Ok self
  else if bool_decide (ordenes_dict self !! orden_id = None) then
    secuencia ← py_remove orden_id (secuencia self);
    Ok {| secuencia := secuencia; ordenes_dict := ordenes_dict self;
          maquina_info := maquina_info self; bloqueos := bloqueos self |}
  else
    secuencia ← py_remove orden_id (secuencia self);
    let ordenes_libres_ids := filter (fun o_id => bloqueos self !! o_id = None) secuencia in
    estado ← separar_validas (ordenes_dict self) ordenes_libres_ids ([], [], secuencia);
    let ordenes_libres_ids_validas := estado.1.1 in
    let secuencia := estado.2 in
    secuencia_nueva_optimizada ←
      (if bool_decide (ordenes_libres_ids_validas ≠ []) then
         ordenes_libres_obj ← ordenes_de (ordenes_dict self) ordenes_libres_ids_validas;
         ag ← Optimizer.__init__ ordenes_libres_obj (maquina_info self);
         optimizar_libres ag
       else Ok []);
    let ordenes_bloqueadas :=
      filter (fun o_id => is_Some (bloqueos self !! o_id) /\ o_id ≠ orden_id) secuencia in
    Ok {| secuencia := ordenes_bloqueadas ++ [orden_id] ++ secuencia_nueva_optimizada;
          ordenes_dict := ordenes_dict self;
          maquina_info := maquina_info self;
          bloqueos := <[orden_id := ALTA]> (bloqueos self) |}.

End Reoptimizar.

End GestorPrioridades.

(** ** [core/optimizer.py]: the compatibility graph of the machines *)

Module OptimizadorTotal.

(** [try: c except (json.JSONDecodeError, ValueError): h] *)
Definition try_json_value {A : Type} (c : res A) (h : res A) : res A :=
  match c with
  | Raise JSONDecodeError => h
  | Raise ValueError => h
  | other => other
  end.

(** [for cid in v]: the items of a list, the keys of a dict, the characters
    of a string; [TypeError] on what is not iterable. *)
Definition iterar (v : json) : res (list json) :=
  match v with
  | JNull => Raise TypeError
  | JNum _ => Raise TypeError
  | JStr s => Ok (JStr <$> chars s)
  | JArr items => Ok items
  | JObj members => Ok (JStr <$> (fst <$> members))
  end.

Section Grafo.

(** Python's [int] on a [str]: [None] stands for [ValueError]. *)
Variable int_of_str : string -> option Z.

(** [int(cid)].  A number of [json] is a finite rational: the floats
    [inf] and [nan], to which [json.loads] decodes [Infinity], [NaN] and a
    literal such as [1e999] and on which [int] raises [OverflowError] or
    [ValueError], are not covered. *)
Definition int_of_json (cid : json) : res Z :=
  match cid with
  | JNull => Raise TypeError
  | JNum q => Ok (py_int q)
  | JStr s => match int_of_str s with Some z => Ok z | None => Raise ValueError end
  | JArr _ => Raise TypeError
  | JObj _ => Raise TypeError
  end.

(** [{int(cid) for cid in cids}] *)
Fixpoint enteros (cids : list json) : res (gset Z) :=
  match cids with
  | [] => Ok ∅
  | cid :: cids =>
      z ← int_of_json cid;
      s ← enteros cids;
      Ok ({[ z ]} ∪ s)
  end.

(** [if comp_id in graph: graph[comp_id].add(m_id)] *)
Definition conectar_vuelta (m_id : Z) (graph : gmap Z (gset Z)) (comp_id : Z)
  : gmap Z (gset Z) :=
  match graph !! comp_id with
  | Some s => <[comp_id := s ∪ {[ m_id ]}]> graph
  | None => graph
  end.

(** [graph[m_id].update(compatible_ids)] and the loop that adds the
    connections back. *)
Definition conectar (graph : gmap Z (gset Z)) (m_id : Z) (compatible_ids : gset Z)
  : res (gmap Z (gset Z)) :=
  match graph !! m_id with
  | None => Raise KeyError
  | Some s =>
      let graph := <[m_id := s ∪ compatible_ids]> graph in
      Ok (foldl (conectar_vuelta m_id) graph (elements compatible_ids))
  end.

(** The ids that the column [share_rolls] of a machine decodes to. *)
Definition compatible_ids (share_rolls : json_text) : res (gset Z) :=
  compatible_ids_str ← loads share_rolls;
  cids ← iterar compatible_ids_str;
  enteros cids.

(** The body of the loop over the machines; a machine comes with its column
    [share_rolls]. *)
Definition conectar_maquina (graph : gmap Z (gset Z)) (machine : MachineModel * option json_text)
  : res (gmap Z (gset Z)) :=
  match machine.2 with
  | None => Ok graph
  | Some share_rolls =>
      if truthy_text share_rolls then
        try_json_value
          (compatible_ids ← compatible_ids share_rolls;
           conectar graph (machine_id machine.1) compatible_ids)
          (Ok graph)
      else Ok graph
  end.

Fixpoint conectar_maquinas (graph : gmap Z (gset Z))
  (machines : list (MachineModel * option json_text)) : res (gmap Z (gset Z)) :=
  match machines with
  | [] => Ok graph
  | machine :: machines =>
      graph ← conectar_maquina graph machine;
      conectar_maquinas graph machines
  end.

(** [{m.id: set() for m in machines}] *)
Definition grafo_vacio (machines : list (MachineModel * option json_text)) : gmap Z (gset Z) :=
  foldl (fun graph m => <[machine_id m.1 := ∅]> graph) ∅ machines.

(** [for machine_id, connections in graph.items(): connections.discard(machine_id)] *)
Definition descartar_propia (graph : gmap Z (gset Z)) : gmap Z (gset Z) :=
  map_imap (fun machine_id connections => Some (connections ∖ {[ machine_id ]})) graph.

Definition _build_machine_compatibility_graph
  (machines : list (MachineModel * option json_text)) : res (gmap Z (gset Z)) :=
  let graph := grafo_vacio machines in
  graph ← conectar_maquinas graph machines;
  Ok (descartar_propia graph).

End Grafo.

(** *** [_reasignar_ordenes_inteligente] *)

(** The reason of a reassignment: the values that the two f-strings of the
    code print. *)
Inductive razon : Type :=
| Requiere (num_colores actual nueva : Z)
| Balanceo (de a : Z).

(** [reasignaciones], [ordenes_ya_reasignadas] and [machine_loads]; the
    loads are a dict, kept in insertion order. *)
Record estado : Type := {
  reasignaciones : list (Z * Z * razon);
  ordenes_ya_reasignadas : gset Z;
  machine_loads : list (Z * Z)
}.

(** [machines_dict.get(m_id)] for [machines_dict = {m.id: m for m in machines}] *)
Fixpoint machines_dict_get (machines : list MachineModel) (m_id : Z) : option MachineModel :=
  match machines with
  | [] => None
  | m :: machines =>
      match machines_dict_get machines m_id with
      | Some m' => Some m'
      | None => if (machine_id m =? m_id)%Z then Some m else None
      end
  end.

(** [machine_loads.get(m_id)] *)
Fixpoint loads_get (machine_loads : list (Z * Z)) (m_id : Z) : option Z :=
  match machine_loads with
  | [] => None
  | (k, carga) :: resto => if (k =? m_id)%Z then Some carga else loads_get resto m_id
  end.

(** [machine_loads[m_id] = carga]: in place for a key of the dict, at the
    end for a new key. *)
Fixpoint loads_set (machine_loads : list (Z * Z)) (m_id carga : Z) : list (Z * Z) :=
  match machine_loads with
  | [] => [(m_id, carga)]
  | (k, c) :: resto =>
      if (k =? m_id)%Z then (k, carga) :: resto else (k, c) :: loads_set resto m_id carga
  end.

(** [orders_by_machine.get(m_id, [])] *)
Fixpoint ordenes_de_maquina (orders_by_machine : list (Z * list SchedulableOrderModel))
  (m_id : Z) : list SchedulableOrderModel :=
  match orders_by_machine with
  | [] => []
  | (k, ordenes) :: resto =>
      if (k =? m_id)%Z then ordenes else ordenes_de_maquina resto m_id
  end.

(** [len(v)] *)
Definition py_len (v : json) : res Z :=
  match v with
  | JNull => Raise TypeError
  | JNum _ => Raise TypeError
  | JStr s => Ok (Z.of_nat (String.length s))
  | JArr items => Ok (Z.of_nat (length items))
  | JObj members => Ok (Z.of_nat (length members))
  end.

(** [len(json.loads(orden.colores)) if orden.colores and orden.colores != 'null' else 0],
    0 on [JSONDecodeError] and [TypeError]. *)
Definition num_colores_json (orden : SchedulableOrderModel) : res Z :=
  try_json_type
    (match colores orden with
     | Some c =>
         if truthy_text c && is_not_null_literal c then v ← loads c; py_len v else Ok 0%Z
     | None => Ok 0%Z
     end)
    (Ok 0%Z).

(** [m.functional_inks or m.inks] *)
Definition tintas (m : MachineModel) : Z := or_Z (functional_inks m) (inks m).

(** [sorted(machine_loads.keys(), key=lambda x: machine_loads[x], reverse=True)]:
    a stable sort, largest load first. *)
Fixpoint insertar_desc (x : Z * Z) (l : list (Z * Z)) : list (Z * Z) :=
  match l with
  | [] => [x]
  | y :: l' => if (y.2 <? x.2)%Z then x :: y :: l' else y :: insertar_desc x l'
  end.

Definition claves_por_carga (machine_loads : list (Z * Z)) : list Z :=
  fst <$> foldl (fun acc x => insertar_desc x acc) [] machine_loads.

Section Reasignar.

(** The order in which Python iterates a set of ids. *)
Variable iterar : gset Z -> list Z.

Variable machines : list MachineModel.
Variable machine_graph : gmap Z (gset Z).

(** Phase 1, the loop over the compatible machines: the state is
    [(mejor_maquina, mejor_capacidad)]. *)
Fixpoint mejor_por_capacidad (machine_loads : list (Z * Z)) (num_colores : Z)
  (compatible_machines : list Z) (mejor : option Z * Z) : option Z * Z :=
  match compatible_machines with
  | [] => mejor
  | comp_id :: resto =>
      match machines_dict_get machines comp_id with
      | None => mejor_por_capacidad machine_loads num_colores resto mejor
      | Some comp_machine =>
          let comp_inks := tintas comp_machine in
          if (num_colores <=? comp_inks)%Z && (mejor.2 <? comp_inks)%Z then
            let carga_comp := default 0%Z (loads_get machine_loads comp_id) in
            if (carga_comp <? 50)%Z then
              mejor_por_capacidad machine_loads num_colores resto (Some comp_id, comp_inks)
            else mejor_por_capacidad machine_loads num_colores resto mejor
          else mejor_por_capacidad machine_loads num_colores resto mejor
      end
  end.

(** Phase 1, the body of the loop over the orders of a machine. *)
Definition revisar_capacidad (current_machine_id functional_inks_current : Z)
  (compatible_machines : gset Z) (st : estado) (orden : SchedulableOrderModel) : res estado :=
  if bool_decide (id orden ∈ ordenes_ya_reasignadas st) then Ok st
  else
    num_colores ← num_colores_json orden;
    if (functional_inks_current <? num_colores)%Z then
      let mejor :=
        mejor_por_capacidad (machine_loads st) num_colores (iterar compatible_machines)
          (None, functional_inks_current) in
      match mejor.1 with
      | Some mejor_maquina =>
          if (mejor_maquina =? 0)%Z then Ok st
          else
            let loads := machine_loads st in
            let loads :=
              loads_set loads current_machine_id
                (default 0%Z (loads_get loads current_machine_id) - 1) in
            let loads :=
              loads_set loads mejor_maquina (default 0%Z (loads_get loads mejor_maquina) + 1) in
            Ok {| reasignaciones :=
                    reasignaciones st
                    ++ [(id orden, mejor_maquina,
                         Requiere num_colores functional_inks_current mejor.2)];
                  ordenes_ya_reasignadas := {[ id orden ]} ∪ ordenes_ya_reasignadas st;
                  machine_loads := loads |}
      | None => Ok st
      end
    else Ok st.

Fixpoint revisar_ordenes (current_machine_id functional_inks_current : Z)
  (compatible_machines : gset Z) (ordenes : list SchedulableOrderModel) (st : estado)
  : res estado :=
  match ordenes with
  | [] => Ok st
  | orden :: ordenes =>
      st ← revisar_capacidad current_machine_id functional_inks_current compatible_machines
             st orden;
      revisar_ordenes current_machine_id functional_inks_current compatible_machines ordenes st
  end.

(** Phase 1, the loop over [orders_by_machine.items()]. *)
Fixpoint fase_capacidad (items : list (Z * list SchedulableOrderModel)) (st : estado)
  : res estado :=
  match items with
  | [] => Ok st
  | (current_machine_id, ordenes) :: items =>
      match machines_dict_get machines current_machine_id with
      | None => fase_capacidad items st
      | Some current_machine =>
          let compatible_machines := default ∅ (machine_graph !! current_machine_id) in
          if bool_decide (compatible_machines = ∅) then fase_capacidad items st
          else
            let functional_inks_current := tintas current_machine in
            st ← revisar_ordenes current_machine_id functional_inks_current
                   compatible_machines ordenes st;
            fase_capacidad items st
      end
  end.

(** Phase 2, the loop over the compatible machines: the state is
    [(mejor_target, min_load)]. *)
Fixpoint mejor_por_carga (machine_loads : list (Z * Z)) (num_colores carga_actual : Z)
  (compatible_machines : list Z) (mejor : option Z * Z) : option Z * Z :=
  match compatible_machines with
  | [] => mejor
  | comp_id :: resto =>
      match machines_dict_get machines comp_id with
      | None => mejor_por_carga machine_loads num_colores carga_actual resto mejor
      | Some comp_machine =>
          let comp_load := default 0%Z (loads_get machine_loads comp_id) in
          let comp_inks := tintas comp_machine in
          if (num_colores <=? comp_inks)%Z && (comp_load <? mejor.2)%Z
             && (5 <=? carga_actual - comp_load)%Z then
            mejor_por_carga machine_loads num_colores carga_actual resto (Some comp_id, comp_load)
          else mejor_por_carga machine_loads num_colores carga_actual resto mejor
      end
  end.

(** Phase 2, the loop over the orders of a machine, with the local
    [carga_actual] and [ordenes_movidas_de_esta_maquina]. *)
Fixpoint balancear_ordenes (current_machine_id max_ordenes_a_mover : Z)
  (compatible_machines : gset Z) (ordenes : list SchedulableOrderModel) (st : estado)
  (carga_actual ordenes_movidas : Z) : res estado :=
  match ordenes with
  | [] => Ok st
  | orden :: ordenes =>
      if bool_decide (id orden ∈ ordenes_ya_reasignadas st) then
        balancear_ordenes current_machine_id max_ordenes_a_mover compatible_machines ordenes st
          carga_actual ordenes_movidas
      else if (max_ordenes_a_mover <=? ordenes_movidas)%Z then Ok st
      else
        num_colores ← num_colores_json orden;
        let mejor :=
          mejor_por_carga (machine_loads st) num_colores carga_actual
            (iterar compatible_machines) (None, carga_actual) in
        match mejor.1 with
        | Some mejor_target =>
            if (mejor_target =? 0)%Z then
              balancear_ordenes current_machine_id max_ordenes_a_mover compatible_machines
                ordenes st carga_actual ordenes_movidas
            else
              match loads_get (machine_loads st) current_machine_id with
              | None => Raise KeyError
              | Some carga =>
                  let loads := loads_set (machine_loads st) current_machine_id (carga - 1) in
                  let loads :=
                    loads_set loads mejor_target
                      (default 0%Z (loads_get loads mejor_target) + 1) in
                  balancear_ordenes current_machine_id max_ordenes_a_mover compatible_machines
                    ordenes
                    {| reasignaciones :=
                         reasignaciones st
                         ++ [(id orden, mejor_target, Balanceo carga_actual mejor.2)];
                       ordenes_ya_reasignadas := {[ id orden ]} ∪ ordenes_ya_reasignadas st;
                       machine_loads := loads |}
                    (carga_actual - 1) (ordenes_movidas + 1)
              end
        | None =>
            balancear_ordenes current_machine_id max_ordenes_a_mover compatible_machines
              ordenes st carga_actual ordenes_movidas
        end
  end.

(** Phase 2, the loop over the machines, largest load first. *)
Fixpoint fase_balanceo (orders_by_machine : list (Z * list SchedulableOrderModel))
  (claves : list Z) (st : estado) : res estado :=
  match claves with
  | [] => Ok st
  | current_machine_id :: claves =>
      let carga_actual := default 0%Z (loads_get (machine_loads st) current_machine_id) in
      if (carga_actual <=? 20)%Z then fase_balanceo orders_by_machine claves st
      else
        match machines_dict_get machines current_machine_id with
        | None => fase_balanceo orders_by_machine claves st
        | Some current_machine =>
            let compatible_machines := default ∅ (machine_graph !! current_machine_id) in
            if bool_decide (compatible_machines = ∅) then
              fase_balanceo orders_by_machine claves st
            else
              let ordenes := ordenes_de_maquina orders_by_machine current_machine_id in
              let max_ordenes_a_mover :=
                Z.min (py_int (inject_Z carga_actual * (3 # 10))) (carga_actual - 15) in
              st ← balancear_ordenes current_machine_id max_ordenes_a_mover
                     compatible_machines ordenes st carga_actual 0;
              fase_balanceo orders_by_machine claves st
        end
  end.

(** [orders_by_machine] is a dict: its items, in insertion order. *)
Definition _reasignar_ordenes_inteligente
  (orders_by_machine : list (Z * list SchedulableOrderModel)) : res (list (Z * Z * razon)) :=
  let st :=
    {| reasignaciones := [];
       ordenes_ya_reasignadas := ∅;
       machine_loads := (fun item => (item.1, Z.of_nat (length item.2))) <$> orders_by_machine |} in
  st ← fase_capacidad orders_by_machine st;
  st ← fase_balanceo orders_by_machine (claves_por_carga (machine_loads st)) st;
  Ok (reasignaciones st).

End Reasignar.

End OptimizadorTotal.

(** [OrderModelforOrder]: a row of the production queue. *)
Module QueueItem.

Record t : Type := {
  id : Z;
  order_id : Z;
  machine_id : Z;
  order_production : Z
}.

End QueueItem.

(** ** [services/scheduling_service.py]: the sequencing steps *)

Module SchedulingService.

Import Calculators Optimizer.

(** [sorted(l, key=...)] on decorated pairs: a stable insertion sort.
    Python's sort is stable, so any stable sort returns the same list. *)
Fixpoint insertar {A : Type} (x : datetime * A) (l : list (datetime * A)) : list (datetime * A) :=
  match l with
  | [] => [x]
  | y :: l' => if Qle_bool x.1 y.1 then x :: y :: l' else y :: insertar x l'
  end.

Definition sorted_by_key {A : Type} (l : list (datetime * A)) : list (datetime * A) :=
  foldr insertar [] l.

(** [[o for o in orders if o.fecha_forzosa_entrega is not None]], each with
    its sort key. *)
Definition con_fecha_forzosa (orders : list SchedulableOrderModel)
  : list (datetime * SchedulableOrderModel) :=
  omap (fun o => match fecha_forzosa_entrega o with
                 | Some fecha => Some (fecha, o)
                 | None => None
                 end) orders.

Definition ordenes_forzosas (orders : list SchedulableOrderModel) : list SchedulableOrderModel :=
  snd <$> sorted_by_key (con_fecha_forzosa orders).

Definition ordenes_optimizables (orders : list SchedulableOrderModel) : list SchedulableOrderModel :=
  filter (fun o => fecha_forzosa_entrega o = None) orders.

(** [{o.id: o for o in orders}] *)
Definition orders_dict (orders : list SchedulableOrderModel) : gmap Z SchedulableOrderModel :=
  foldl (fun dict o => <[Models.id o := o]> dict) ∅ orders.

(** [[orders_dict[oid] for oid, razon in secuencia]] *)
Fixpoint buscar_ordenes (dict : gmap Z SchedulableOrderModel) (secuencia : list (Z * string))
  : res (list SchedulableOrderModel) :=
  match secuencia with
  | [] => Ok []
  | (oid, _) :: secuencia =>
      match dict !! oid with
      | None => Raise KeyError
      | Some o => objs ← buscar_ordenes dict secuencia; Ok (o :: objs)
      end
  end.

(** [next((r for pid, r in secuencia if pid == oid), "N/A")] *)
Fixpoint razon_de (secuencia : list (Z * string)) (oid : Z) : string :=
  match secuencia with
  | [] => "N/A"
  | (pid, r) :: secuencia => if (pid =? oid)%Z then r else razon_de secuencia oid
  end.

(** The [PlannerConfig(...)] the service builds. *)
Definition planner_config : PlannerConfig := {|
  turnos_dia_semana := 2;
  horas_por_turno_semana := 12;
  turnos_sabado := 2;
  dias_laborales := set_default_dias_laborales (Some (seqZ 0 7));
  horas_por_turno_sabado := 12;
  hora_inicio_turno1 := 8;
  eficiencia_maquina := 95 # 100;
  buffer_seguridad_pct := 1 # 100;
  costo_cambio_tinta_min := 5;
  factor_cambio_material_completo := 1;
  factor_cambio_material_parcial := 1 # 2;
  bonificacion_mismo_cliente_pct := 7 # 10
|}.

(** A row handed to [overwrite_machine_schedule]. *)
Record fila : Type := {
  order_id : Z;
  fila_machine_id : Z;
  order_production : Z;
  reason : string;
  probable_delivery_date : datetime;
  fila_tiempo_setup_min : Q;
  fila_tiempo_cambios_internos_min : Q;
  fila_tiempo_impresion_min : Q;
  fila_tiempo_buffer_min : Q;
  fila_tiempo_total_min : Q
}.

(** [for i, orden_calculada in enumerate(ordenes_con_fechas, start=i)] *)
Fixpoint filas_desde (machine_id : Z) (secuencia : list (Z * string)) (i : Z)
  (ordenes_con_fechas : list orden_con_fecha) : list fila :=
  match ordenes_con_fechas with
  | [] => []
  | orden_calculada :: resto =>
      {| order_id := Models.id (orden orden_calculada);
         fila_machine_id := machine_id;
         order_production := i;
         reason := razon_de secuencia (Models.id (orden orden_calculada));
         probable_delivery_date := probable_fecha_entrega orden_calculada;
         fila_tiempo_setup_min := tiempo_setup_min orden_calculada;
         fila_tiempo_cambios_internos_min := tiempo_cambios_internos_min orden_calculada;
         fila_tiempo_impresion_min := tiempo_impresion_min orden_calculada;
         fila_tiempo_buffer_min := tiempo_buffer_min orden_calculada;
         fila_tiempo_total_min := tiempo_total_min orden_calculada |}
      :: filas_desde machine_id secuencia (i + 1)%Z resto
  end.

Section Servicio.

Variable hall_of_fame : AlgoritmoGeneticoFlexo -> nat -> nat -> list nat.

(** Fuel given to every run of the calendar loop. *)
Variable fuel : nat.

(** The orders on which the genetic algorithm is run, if it is run. *)
Definition entrada_del_genetico (orders : list SchedulableOrderModel)
  : option (list SchedulableOrderModel) :=
  let optimizables := ordenes_optimizables orders in
  if (2 <=? length optimizables)%nat then Some optimizables else None.

(** Step 3: [secuencia_optimizada_ids]. *)
Definition secuencia_optimizada_ids (orders : list SchedulableOrderModel)
  (machine_info : MachineModel) : res (list Z) :=
  match entrada_del_genetico orders with
  | None => Ok (Models.id <$> ordenes_optimizables orders)
  | Some optimizables =>
      ag ← Optimizer.__init__ optimizables machine_info;
      optimizar hall_of_fame ag 100 200
  end.

(** Step 4.1 and 4.2: [secuencia_final_con_razon]. *)
Definition secuencia_final_con_razon (razon_optimizada : string)
  (orders : list SchedulableOrderModel) (machine_info : MachineModel)
  : res (list (Z * string)) :=
  ids ← secuencia_optimizada_ids orders machine_info;
  let razon_forzosa := "Prioridad absoluta por fecha forzosa." in
  Ok (((fun o => (Models.id o, razon_forzosa)) <$> ordenes_forzosas orders)
      ++ ((fun oid => (oid, razon_optimizada)) <$> ids)).

(** [secuencia_ordenada_obj] *)
Definition secuencia_ordenada_obj (razon_optimizada : string)
  (orders : list SchedulableOrderModel) (machine_info : MachineModel)
  : res (list SchedulableOrderModel) :=
  secuencia ← secuencia_final_con_razon razon_optimizada orders machine_info;
  buscar_ordenes (orders_dict orders) secuencia.

(** Steps 2 to 5 for one machine: the rows of its new schedule. *)
Definition planificar (razon_optimizada : string) (machine_id : Z)
  (orders : list SchedulableOrderModel) (machine_info : MachineModel) (now : datetime)
  : res (list fila) :=
  secuencia ← secuencia_final_con_razon razon_optimizada orders machine_info;
  objs ← buscar_ordenes (orders_dict orders) secuencia;
  ordenes_con_fechas ← calcular_fechas_probables planner_config fuel objs now machine_info;
  Ok (filas_desde machine_id secuencia 1 ordenes_con_fechas).

(** [generate_optimal_schedule], from the answers of the store: the rows
    written with [overwrite_machine_schedule], or [None] when nothing is
    written (machine missing or not active, no order, or an exception,
    which the service turns into a failure response). *)
Definition generate_optimal_schedule (machine_info : option MachineModel)
  (orders : list SchedulableOrderModel) (now : datetime) : option (list fila) :=
  match machine_info with
  | None => None
  | Some machine_info =>
      if bool_decide (estatus machine_info ≠ "activa") then None
      else if bool_decide (orders = []) then None
      else
        match planificar "Posición calculada por optimizador genético."
                (machine_id machine_info) orders machine_info now with
        | Ok filas => Some filas
        | _ => None
        end
  end.

(** What [prioritize_pedido] does to the store: it refuses and writes
    nothing, it reports that the order is already first and writes nothing,
    or it hands the pairs [(queue row id, new rank)] to
    [update_production_queue]. *)
Inductive prioridad : Type :=
| Rechazado
| YaPrimero
| Actualizado (updates_for_db : list (Z * Z)).

(** [next((item for item in current_queue_items if item.order_id == p_id), None)] *)
Fixpoint queue_item_de (current_queue_items : list QueueItem.t) (p_id : Z)
  : option QueueItem.t :=
  match current_queue_items with
  | [] => None
  | item :: resto =>
      if (QueueItem.order_id item =? p_id)%Z then Some item else queue_item_de resto p_id
  end.

(** [for i, p_id in enumerate(new_sequence, start=i)]: the updates of the
    ids that have a row in the queue. *)
Fixpoint updates_desde (current_queue_items : list QueueItem.t) (i : Z)
  (new_sequence : list Z) : list (Z * Z) :=
  match new_sequence with
  | [] => []
  | p_id :: resto =>
      match queue_item_de current_queue_items p_id with
      | Some queue_item =>
          (QueueItem.id queue_item, i) :: updates_desde current_queue_items (i + 1)%Z resto
      | None => updates_desde current_queue_items (i + 1)%Z resto
      end
  end.

(** [prioritize_pedido], from the answers of the store: the queue row of
    the order, the machine of that row, the queue of the machine and its
    schedulable orders.  An exception becomes a refusal. *)
Definition prioritize_pedido (item_to_prioritize : option QueueItem.t)
  (machine_info : option MachineModel) (current_queue_items : list QueueItem.t)
  (schedulable_orders : list SchedulableOrderModel) (pedido_id : Z) (reoptimize : bool)
  : prioridad :=
  match item_to_prioritize with
  | None => Rechazado
  | Some item_to_prioritize =>
      if (QueueItem.order_production item_to_prioritize =? 1)%Z then YaPrimero
      else
        match machine_info with
        | None => Rechazado
        | Some machine_info =>
            if bool_decide (estatus machine_info ≠ "activa") then Rechazado
            else if negb (existsb (fun order => (Models.id order =? pedido_id)%Z)
                            schedulable_orders) then Rechazado
            else
              let orders_dict := orders_dict schedulable_orders in
              let current_sequence_ids := QueueItem.order_id <$> current_queue_items in
              let gestor :=
                GestorPrioridades.__init__ current_sequence_ids orders_dict machine_info in
              match (if reoptimize
                     then GestorPrioridades.priorizar_con_reoptimizacion hall_of_fame
                            gestor pedido_id
                     else GestorPrioridades.priorizar_sin_reprogramar gestor pedido_id) with
              | Ok gestor =>
                  let new_sequence := GestorPrioridades.secuencia gestor in
                  if bool_decide (pedido_id ∉ new_sequence) then Rechazado
                  else
                    let updates_for_db := updates_desde current_queue_items 1 new_sequence in
                    if bool_decide (updates_for_db = []) then Rechazado
                    else Actualizado updates_for_db
              | _ => Rechazado
              end
        end
  end.

(** [machines_dict.get(machine_id)] *)
Fixpoint machines_dict_get (machines : list MachineModel) (m_id : Z) : option MachineModel :=
  match machines with
  | [] => None
  | m :: machines =>
      match machines_dict_get machines m_id with
      | Some m' => Some m'
      | None => if (machine_id m =? m_id)%Z then Some m else None
      end
  end.

(** Step 6 of [generate_optimal_schedule_all_machines] for one entry of
    [orders_by_machine]: the rows it appends to [all_schedules]. *)
Definition planificar_maquina (active_machines : list MachineModel)
  (machine_id : Z) (ordenes : list SchedulableOrderModel) (now : datetime)
  : res (list fila) :=
  if bool_decide (ordenes = []) then Ok []
  else
    match machines_dict_get active_machines machine_id with
    | None => Ok []
    | Some machine_info =>
        planificar "Posición calculada por optimizador genético global."
          machine_id ordenes machine_info now
    end.

(** Step 6: [all_schedules], over the entries of [orders_by_machine] once
    the reassignments are applied. *)
Fixpoint all_schedules (active_machines : list MachineModel)
  (orders_by_machine : list (Z * list SchedulableOrderModel)) (now : datetime)
  : res (list fila) :=
  match orders_by_machine with
  | [] => Ok []
  | (machine_id, ordenes) :: resto =>
      filas ← planificar_maquina active_machines machine_id ordenes now;
      siguientes ← all_schedules active_machines resto now;
      Ok (filas ++ siguientes)
  end.

End Servicio.

End SchedulingService.

(** ** The terms of the specification *)

Module Spec.

Import OptimizerConfig.

(** Section 4.E, transition cost between a predecessor [P] and a successor
    [S], in the words of the specification: material term on the base,
    ink churn over the colour sets, same-customer bonus, clamp. *)
Definition transition_cost (base : Q) (P_materials S_materials P_colors S_colors : gset token)
  (same_customer : bool) : Q :=
  let material :=
    if bool_decide (P_materials = S_materials)
    then base * MATERIAL_SAME_FACTOR else base * MATERIAL_CHANGE_FACTOR in
  let to_remove := P_colors ∖ S_colors in
  let to_add := S_colors ∖ P_colors in
  let reused := P_colors ∩ S_colors in
  let cost :=
    material
    + inject_Z (Z.of_nat (size to_remove)) * INK_CLEAN_COST
    + inject_Z (Z.of_nat (size to_add)) * INK_ADD_COST
    - inject_Z (Z.of_nat (size reused)) * COLOR_REUSE_BONUS in
  let cost := if same_customer then cost * SAME_CLIENT_BONUS_FACTOR else cost in
  Qmax 0 cost.

(** Section 4.F, step 1: complexity-by-position shaping. *)
Definition shaping (i N : nat) (c : Z) : Q :=
  let pos_norm := inject_Z (Z.of_nat i) / inject_Z (Z.of_nat N) in
  if (5 <=? c)%Z then
    - ((1 - pos_norm) ^ 2 * inject_Z c * HIGH_INK_PRIORITY_WEIGHT)
  else if (3 <=? c)%Z then
    - ((1 - pos_norm) * inject_Z c * (2 # 10) * HIGH_INK_PRIORITY_WEIGHT)
  else
    (1 - pos_norm) * inject_Z (3 - c) * (5 # 10) * HIGH_INK_PRIORITY_WEIGHT.

(** Section 4.F, step 4: ink over-capacity penalty. *)
Definition overcapacity (c fi : Z) : Q :=
  if (fi <? c)%Z then inject_Z (c - fi) * INK_OVERCAPACITY_PENALTY else 0.

(** Section 4.F, step 5: the weight of the lateness penalty. *)
Definition lateness_weight (days_remaining : Z) : Q :=
  if (days_remaining <? 0)%Z then 50
  else if (days_remaining <=? 3)%Z then 20
  else 10.

(** Section 4.F, step 5: the lateness term of an order with
    [days_remaining] whose accumulated running time is [running_time]:
    nothing up to the deadline [days_remaining * 1440] and for an order
    without days-remaining, [min (overshoot * weight) 500000] past it. *)
Definition lateness (days_remaining : option Z) (running_time : Q) : Q :=
  match days_remaining with
  | Some d =>
      let deadline := inject_Z (d * 1440) in
      if Qle_bool running_time deadline then 0
      else Qmin ((running_time - deadline) * lateness_weight d) 500000
  | None => 0
  end.

Section Fitness.

Variable self : Optimizer.AlgoritmoGeneticoFlexo.

(** The setup transition into [o]: none at the first position, the
    transition cost from the order before it at the others. *)
Definition setup_transition (prev : option EnrichedOrder.t) (o : EnrichedOrder.t) : Q :=
  match prev with
  | Some p => Optimizer._calcular_costo_cambio self p o
  | None => 0
  end.

(** The accumulated running time once [o] is printed: the time [t]
    accumulated before it, the setup transition into it and its raw
    print time. *)
Definition running_time (prev : option EnrichedOrder.t) (t : Q) (o : EnrichedOrder.t) : Q :=
  match prev with
  | Some p =>
      t + Optimizer._calcular_costo_cambio self p o
      + Optimizer._estimar_tiempo_produccion self (EnrichedOrder.original o)
  | None => t + Optimizer._estimar_tiempo_produccion self (EnrichedOrder.original o)
  end.

(** Section 4.F: the sum, over the orders [os] placed at the positions
    [i], [i + 1], ... of a sequence of [N] orders, of the terms of the
    fitness: shaping, weighted setup transition, ink over-capacity and
    lateness.  [prev] is the order at position [i - 1] and [t] the running
    time accumulated up to it. *)
Fixpoint fitness_terms (N i : nat) (prev : option EnrichedOrder.t) (t : Q)
  (os : list EnrichedOrder.t) : Q :=
  match os with
  | [] => 0
  | o :: os =>
      let c := Z.of_nat (size (EnrichedOrder.colores o)) in
      let fi := or_Z (functional_inks (Optimizer.maquina self))
                  (inks (Optimizer.maquina self)) in
      shaping i N c
      + setup_transition prev o * SETUP_COST_WEIGHT
      + overcapacity c fi
      + lateness (dias_restantes (EnrichedOrder.original o)) (running_time prev t o)
      + fitness_terms N (S i) (Some o) (running_time prev t o) os
  end.

End Fitness.

(** A field whose text is handed to [json.loads] and does not decode. *)
Definition malformed (s : json_text) : Prop :=
  truthy_text s = true /\ loads s = Raise JSONDecodeError.

(** The enriched order whose three parsed fields are empty. *)
Definition vacia (order : SchedulableOrderModel) : EnrichedOrder.t :=
  {| EnrichedOrder.original := order; EnrichedOrder.id := id order;
     EnrichedOrder.colores := ∅; EnrichedOrder.materiales := ∅;
     EnrichedOrder.id_cliente := JNull |}.

(** All the orders of the input with a forced date come first, each once,
    in ascending order of their date; then come orders of the input
    without a forced date.  [filas] lists [objs] by rank. *)
Definition forced_first (orders objs : list SchedulableOrderModel) : Prop :=
  exists forzosas libres : list SchedulableOrderModel,
    objs = forzosas ++ libres /\
    forzosas ≡ₚ filter (fun o => is_Some (fecha_forzosa_entrega o)) orders /\
    Forall (fun o => o ∈ orders /\ fecha_forzosa_entrega o = None) libres /\
    StronglySorted
      (fun a b => match fecha_forzosa_entrega a, fecha_forzosa_entrega b with
                  | Some x, Some y => x <= y
                  | _, _ => False
                  end) forzosas.

(** The minutes by which an order moves the running date on a calendar
    without closed hours: its real print time and the buffer on it. *)
Definition duracion_en_calendario (config : Calculators.PlannerConfig) (machine : MachineModel)
  (o : SchedulableOrderModel) : Q :=
  match Calculators.tiempo_impresion_real config machine o with
  | Ok real => real + real * Calculators.buffer_seguridad_pct config
  | _ => 0
  end.

Definition suma (l : list Q) : Q := foldr Qplus 0 l.

End Spec.

(** ** Conditions on the inputs *)

Module Condiciones.

Import Calculators.

(** A calendar whose working days end before midnight: the day-start hour
    is an hour of the day, every weekday is either not worked or worked
    for a whole number [k >= 1] of hours with [start + k <= 23], and some
    weekday is worked. *)
Definition calendario_valido (config : PlannerConfig) : Prop :=
  (0 <= hora_inicio_turno1 config <= 23)%Z /\
  (forall w, (0 <= w < 7)%Z ->
     minutos_get config w = 0%Z \/
     exists k, (1 <= k)%Z /\ minutos_get config w = (60 * k)%Z /\
               (hora_inicio_turno1 config + k <= 23)%Z) /\
  (exists w, (0 <= w < 7)%Z /\ minutos_get config w <> 0%Z).

(** 9999-12-31, the last day a [datetime] can be on, as a day number. *)
Definition dia_maximo : Z := 3652058.

(** [datetime.max], 9999-12-31 23:59:59.999999. *)
Definition datetime_max : datetime :=
  inject_Z (1440 * (dia_maximo + 1)) - (1 # 60000000).

(** A date that a [datetime] can hold.  The sum of a [datetime] and a
    [timedelta] raises [OverflowError] when its result is not one. *)
Definition en_rango (t : datetime) : Prop := 0 <= t /\ t <= datetime_max.

(** Every id of the sequence of a priority manager is a key of its
    dictionary of orders. *)
Definition gestor_consistente (self : GestorPrioridades.t) : Prop :=
  Forall (fun o_id => is_Some (GestorPrioridades.ordenes_dict self !! o_id))
    (GestorPrioridades.secuencia self).

(** The ids that a machine declares compatible: those its column
    [share_rolls] decodes to, none when the column is empty or was not
    understood. *)
Definition declaradas (int_of_str : string -> option Z)
  (machine : MachineModel * option json_text) : gset Z :=
  match machine.2 with
  | Some share_rolls =>
      if truthy_text share_rolls then
        match OptimizadorTotal.compatible_ids int_of_str share_rolls with
        | Ok ids => ids
        | _ => ∅
        end
      else ∅
  | None => ∅
  end.

(** A machine whose column [share_rolls] decodes to something that is not
    a collection of numbers and texts: the text [null], a number, or a
    list that holds a null, a list or a dict. *)
Definition rodillos_no_iterables (int_of_str : string -> option Z)
  (machine : MachineModel * option json_text) : Prop :=
  exists share_rolls,
    machine.2 = Some share_rolls /\ truthy_text share_rolls = true /\
    OptimizadorTotal.compatible_ids int_of_str share_rolls = Raise TypeError.

(** A reassignment [(order id, target, reason)] that is sound for the
    input: the order is in the list of a known machine [current]; the
    target is one of the machines that the graph gives as compatible with
    [current], is a known machine, is not machine 0 and has inks for the
    colours of the order.  A capacity reason says that the order did not
    fit the inks of [current] and that the target has strictly more; a
    balance reason says that the source held at least 16 orders and the
    target at least 5 fewer. *)
Definition reasignacion_valida (machines : list MachineModel)
  (machine_graph : gmap Z (gset Z))
  (orders_by_machine : list (Z * list SchedulableOrderModel))
  (r : Z * Z * OptimizadorTotal.razon) : Prop :=
  exists current ordenes orden compatible current_machine target_machine n,
    (current, ordenes) ∈ orders_by_machine /\ orden ∈ ordenes /\ id orden = r.1.1 /\
    machine_graph !! current = Some compatible /\ r.1.2 ∈ compatible /\
    r.1.2 ≠ 0%Z /\
    OptimizadorTotal.machines_dict_get machines current = Some current_machine /\
    OptimizadorTotal.machines_dict_get machines r.1.2 = Some target_machine /\
    OptimizadorTotal.num_colores_json orden = Ok n /\
    (n <= OptimizadorTotal.tintas target_machine)%Z /\
    match r.2 with
    | OptimizadorTotal.Requiere num_colores actual nueva =>
        num_colores = n /\ actual = OptimizadorTotal.tintas current_machine /\
        nueva = OptimizadorTotal.tintas target_machine /\ (actual < n)%Z
    | OptimizadorTotal.Balanceo de a => (16 <= de)%Z /\ (a + 5 <= de)%Z
    end.

End Condiciones.

(** ** Sample inputs *)

Module Ejemplos.

Import Calculators.

(** 2024-01-01, a Monday, as a day number. *)
Definition lunes : Z := 738885.

(** Two weekday shifts of 12 hours from 07:00, Sunday off. *)
Definition config_dos_turnos : PlannerConfig := {|
  turnos_dia_semana := 2;
  horas_por_turno_semana := 12;
  turnos_sabado := 2;
  dias_laborales := set_default_dias_laborales None;
  horas_por_turno_sabado := 8;
  hora_inicio_turno1 := 7;
  eficiencia_maquina := 85 # 100;
  buffer_seguridad_pct := 1 # 100;
  costo_cambio_tinta_min := 5;
  factor_cambio_material_completo := 1;
  factor_cambio_material_parcial := 1 # 2;
  bonificacion_mismo_cliente_pct := 7 # 10
|}.

Definition maquina_1 : MachineModel := {|
  machine_id := 1; inks := 6; functional_inks := 6;
  time_change_units := 15; avg_velocity := 150; estatus := "activa"
|}.

(** The same machine with no average velocity recorded. *)
Definition maquina_sin_velocidad : MachineModel := {|
  machine_id := 1; inks := 6; functional_inks := 6;
  time_change_units := 15; avg_velocity := 0; estatus := "activa"
|}.

Definition lista (tokens : list string) : json_text := Text (Some (JArr (JStr <$> tokens))).

Definition con_cliente (n : Z) : json_text :=
  Text (Some (JObj [("id_cliente"%string, JNum (Q2Qc (inject_Z n)))])).

Definition orden_A : SchedulableOrderModel := {|
  id := 101; datos := con_cliente 1; fecha_forzosa_entrega := None;
  dias_restantes := Some 10%Z; colores := Some (lista ["C"; "M"]%string);
  num_colores := 2; materiales := lista ["BOPP"%string];
  total_metros_impresion := 1000; num_etiquetas := 1
|}.

Definition orden_B : SchedulableOrderModel := {|
  id := 102; datos := con_cliente 2; fecha_forzosa_entrega := None;
  dias_restantes := Some 10%Z; colores := Some (lista ["C"; "M"; "Y"; "K"]%string);
  num_colores := 4; materiales := lista ["PE"%string];
  total_metros_impresion := 1000; num_etiquetas := 1
|}.

(** An order with a forced date two days after [lunes]. *)
Definition orden_C : SchedulableOrderModel := {|
  id := 103; datos := con_cliente 3;
  fecha_forzosa_entrega := Some (at_day (lunes + 2) 0 0);
  dias_restantes := Some 2%Z; colores := Some (lista ["C"%string]);
  num_colores := 1; materiales := lista ["PE"%string];
  total_metros_impresion := 500; num_etiquetas := 1
|}.

(** An order with a forced date one day after [lunes]. *)
Definition orden_D : SchedulableOrderModel := {|
  id := 107; datos := con_cliente 2;
  fecha_forzosa_entrega := Some (at_day (lunes + 1) 0 0);
  dias_restantes := Some 1%Z; colores := Some (lista ["K"%string]);
  num_colores := 1; materiales := lista ["BOPP"%string];
  total_metros_impresion := 500; num_etiquetas := 1
|}.

(** An order that is one day late already. *)
Definition orden_atrasada : SchedulableOrderModel := {|
  id := 108; datos := con_cliente 4; fecha_forzosa_entrega := None;
  dias_restantes := Some (-1)%Z; colores := Some (lista ["C"; "M"]%string);
  num_colores := 2; materiales := lista ["BOPP"%string];
  total_metros_impresion := 1000; num_etiquetas := 1
|}.

(** 1000 m in three labels. *)
Definition orden_tres_etiquetas : SchedulableOrderModel := {|
  id := 104; datos := con_cliente 1; fecha_forzosa_entrega := None;
  dias_restantes := Some 10%Z; colores := Some (lista ["C"; "M"]%string);
  num_colores := 2; materiales := lista ["BOPP"%string];
  total_metros_impresion := 1000; num_etiquetas := 3
|}.

(** Colours that decode, materials that do not. *)
Definition orden_materiales_ilegibles : SchedulableOrderModel := {|
  id := 105; datos := con_cliente 1; fecha_forzosa_entrega := None;
  dias_restantes := Some 10%Z; colores := Some (lista ["C"; "M"]%string);
  num_colores := 2; materiales := Text None;
  total_metros_impresion := 1000; num_etiquetas := 1
|}.

(** An order whose [datos] is the JSON text [null]. *)
Definition orden_datos_null : SchedulableOrderModel := {|
  id := 106; datos := NullLiteral; fecha_forzosa_entrega := None;
  dias_restantes := Some 10%Z; colores := Some (lista ["C"; "M"]%string);
  num_colores := 2; materiales := lista ["BOPP"%string];
  total_metros_impresion := 1000; num_etiquetas := 1
|}.

(** A run of the genetic search that returns the indices in reverse. *)
Definition hall_of_fame_inverso (ag : Optimizer.AlgoritmoGeneticoFlexo) (_ _ : nat) : list nat :=
  reverse (seq 0 (length (Optimizer.idx_to_order_id ag))).

(** The sequencer built for [orden_A; orden_B] on [maquina_1]. *)
Definition ag_AB : Optimizer.AlgoritmoGeneticoFlexo :=
  match Optimizer.__init__ [orden_A; orden_B] maquina_1 with
  | Ok ag => ag
  | _ => {| Optimizer.ordenes_dict := ∅; Optimizer.idx_to_order_id := [];
            Optimizer.maquina := maquina_1 |}
  end.

(** The sequencer built for [orden_atrasada; orden_B] on [maquina_1]. *)
Definition ag_atrasada : Optimizer.AlgoritmoGeneticoFlexo :=
  match Optimizer.__init__ [orden_atrasada; orden_B] maquina_1 with
  | Ok ag => ag
  | _ => {| Optimizer.ordenes_dict := ∅; Optimizer.idx_to_order_id := [];
            Optimizer.maquina := maquina_1 |}
  end.

(** [EnrichedOrder(orden_atrasada)]. *)
Definition enriquecida_atrasada : EnrichedOrder.t :=
  match EnrichedOrder.__init__ orden_atrasada with
  | Ok e => e
  | _ => Spec.vacia orden_atrasada
  end.

(** [EnrichedOrder(orden_A)] and [EnrichedOrder(orden_B)]. *)
Definition enriquecida_A : EnrichedOrder.t :=
  match EnrichedOrder.__init__ orden_A with Ok e => e | _ => Spec.vacia orden_A end.

Definition enriquecida_B : EnrichedOrder.t :=
  match EnrichedOrder.__init__ orden_B with Ok e => e | _ => Spec.vacia orden_B end.

(** The setup minutes of the records of a run, in lowest terms. *)
Definition tiempos_setup (c : res (list orden_con_fecha)) : res (list Q) :=
  match c with
  | Ok rs => Ok ((fun r => Qred (tiempo_setup_min r)) <$> rs)
  | Raise e => Raise e
  | OutOfFuel => OutOfFuel
  end.

(** A priority manager in which order 103 was prioritised before. *)
Definition gestor_con_bloqueo : GestorPrioridades.t :=
  {| GestorPrioridades.secuencia := [103; 101; 102]%Z;
     GestorPrioridades.ordenes_dict :=
       SchedulingService.orders_dict [orden_A; orden_B; orden_C];
     GestorPrioridades.maquina_info := maquina_1;
     GestorPrioridades.bloqueos := {[ 103%Z := GestorPrioridades.FORZADA ]} |}.

(** The same with a fourth order, so that two orders stay free when one
    of the free ones is prioritised. *)
Definition gestor_dos_libres : GestorPrioridades.t :=
  {| GestorPrioridades.secuencia := [103; 101; 102; 104]%Z;
     GestorPrioridades.ordenes_dict :=
       SchedulingService.orders_dict [orden_A; orden_B; orden_C; orden_tres_etiquetas];
     GestorPrioridades.maquina_info := maquina_1;
     GestorPrioridades.bloqueos := {[ 103%Z := GestorPrioridades.FORZADA ]} |}.

(** The queue of machine 1: orders 101, 102, 103 in that order, and a row
    of an order (999) that is not schedulable. *)
Definition cola : list QueueItem.t :=
  [ {| QueueItem.id := 11; QueueItem.order_id := 101; QueueItem.machine_id := 1;
       QueueItem.order_production := 1 |};
    {| QueueItem.id := 14; QueueItem.order_id := 999; QueueItem.machine_id := 1;
       QueueItem.order_production := 2 |};
    {| QueueItem.id := 12; QueueItem.order_id := 102; QueueItem.machine_id := 1;
       QueueItem.order_production := 3 |};
    {| QueueItem.id := 13; QueueItem.order_id := 103; QueueItem.machine_id := 1;
       QueueItem.order_production := 4 |} ]%Z.

(** Unsigned decimal texts, the part of Python's [int] on a [str] that the
    examples use. *)
Fixpoint digitos (s : string) (acc : Z) : option Z :=
  match s with
  | EmptyString => Some acc
  | String c rest =>
      let n := (Z.of_nat (Ascii.nat_of_ascii c) - 48)%Z in
      if (0 <=? n)%Z && (n <=? 9)%Z then digitos rest (10 * acc + n)%Z else None
  end.

Definition int_decimal (s : string) : option Z :=
  match s with
  | EmptyString => None
  | _ => digitos s 0
  end.

Definition maquina_n (n : Z) : MachineModel := {|
  machine_id := n; inks := 6; functional_inks := 6;
  time_change_units := 15; avg_velocity := 150; estatus := "activa"
|}.

(** Machine 1 declares 2 and 7 (no machine 7 exists), machine 2 has no
    column, the column of machine 3 is not JSON. *)
Definition maquinas_con_rodillos : list (MachineModel * option json_text) :=
  [ (maquina_n 1, Some (lista ["2"; "7"]%string));
    (maquina_n 2, None);
    (maquina_n 3, Some (Text None)) ].

(** Machine 1 with two inks. *)
Definition maquina_dos_tintas : MachineModel := {|
  machine_id := 1; inks := 2; functional_inks := 2;
  time_change_units := 15; avg_velocity := 150; estatus := "activa"
|}.

(** Machines 1 and 2 share rolls. *)
Definition grafo_1_2 : gmap Z (gset Z) := {[ 1%Z := {[ 2%Z ]}; 2%Z := {[ 1%Z ]} ]}.

(** Orders A (2 colours) and B (4 colours) on machine 1, order C on machine 2. *)
Definition ordenes_por_maquina : list (Z * list SchedulableOrderModel) :=
  [ (1%Z, [orden_A; orden_B]); (2%Z, [orden_C]) ].

End Ejemplos.

(** * Properties *)

(** ** Arithmetic of the Python operations *)

Module PyFacts.

Lemma Qltb_lt (x y : Q) : Qltb x y = true <-> x < y.
Proof.
  unfold Qltb. rewrite negb_true_iff. split.
  - intros H. apply Qnot_le_lt. intros Hle. apply Qle_bool_iff in Hle. congruence.
  - intros H. destruct (Qle_bool y x) eqn:E; [|reflexivity].
    apply Qle_bool_iff in E. lra.
Qed.

Lemma Qltb_ge (x y : Q) : Qltb x y = false <-> y <= x.
Proof.
  unfold Qltb. rewrite negb_false_iff. apply Qle_bool_iff.
Qed.

Lemma Qle_bool_gt (x y : Q) : Qle_bool x y = false <-> y < x.
Proof.
  rewrite <- Qltb_lt. unfold Qltb. rewrite negb_true_iff. reflexivity.
Qed.

Lemma py_max_ge_l (a b : Q) : a <= py_max a b.
Proof.
  unfold py_max. destruct (Qltb a b) eqn:E; [apply Qltb_lt in E|]; lra.
Qed.

Lemma py_max_cases (a b : Q) :
  (a < b /\ py_max a b = b) \/ (b <= a /\ py_max a b = a).
Proof.
  unfold py_max. destruct (Qltb a b) eqn:E.
  - left. apply Qltb_lt in E. auto.
  - right. apply Qltb_ge in E. auto.
Qed.

Lemma py_min_cases (a b : Q) :
  (b < a /\ py_min a b = b) \/ (a <= b /\ py_min a b = a).
Proof.
  unfold py_min. destruct (Qltb b a) eqn:E.
  - left. apply Qltb_lt in E. auto.
  - right. apply Qltb_ge in E. auto.
Qed.

Lemma Qfloor_unique (n : Z) (x : Q) :
  inject_Z n <= x -> x < inject_Z (n + 1) -> Qfloor x = n.
Proof.
  intros Hlo Hhi.
  assert (n <= Qfloor x)%Z.
  { rewrite <- (Qfloor_Z n). apply Qfloor_resp_le. exact Hlo. }
  assert (Qfloor x < n + 1)%Z.
  { rewrite Zlt_Qlt. pose proof (Qfloor_le x). lra. }
  lia.
Qed.

Lemma py_int_floor (x : Q) : 0 <= x -> py_int x = Qfloor x.
Proof.
  intros H. unfold py_int. apply Qle_bool_iff in H. rewrite H. reflexivity.
Qed.

End PyFacts.

Module DatetimeFacts.

Import PyFacts.

Lemma day_of_bounds (t : datetime) :
  inject_Z (1440 * day_of t) <= t /\ t < inject_Z (1440 * (day_of t + 1)).
Proof.
  unfold day_of.
  pose proof (Qfloor_le (t / 1440)) as Hlo.
  pose proof (Qlt_floor (t / 1440)) as Hhi.
  rewrite !inject_Z_mult. rewrite inject_Z_plus in *.
  assert (t == 1440 * (t / 1440)) as Ht by (field).
  change (inject_Z 1440) with 1440. change (inject_Z 1) with 1 in *.
  split; lra.
Qed.

Lemma day_of_unique (d : Z) (t : datetime) :
  inject_Z (1440 * d) <= t -> t < inject_Z (1440 * (d + 1)) -> day_of t = d.
Proof.
  intros Hlo Hhi. unfold day_of. apply Qfloor_unique.
  - rewrite inject_Z_mult in Hlo. change (inject_Z 1440) with 1440 in Hlo.
    apply Qle_shift_div_l; lra.
  - rewrite inject_Z_mult in Hhi. change (inject_Z 1440) with 1440 in Hhi.
    apply Qlt_shift_div_r; lra.
Qed.

Lemma day_of_plus_one_day (t : datetime) : day_of (plus_one_day t) = (day_of t + 1)%Z.
Proof.
  destruct (day_of_bounds t) as [Hlo Hhi].
  apply day_of_unique; unfold plus_one_day;
    rewrite !inject_Z_mult, !inject_Z_plus in *;
    change (inject_Z 1440) with 1440 in *; change (inject_Z 1) with 1 in *; lra.
Qed.

Lemma subminute_bounds (t : datetime) : 0 <= subminute t /\ subminute t < 1.
Proof.
  unfold subminute.
  pose proof (Qfloor_le t). pose proof (Qlt_floor t) as Hhi.
  rewrite inject_Z_plus in Hhi. change (inject_Z 1) with 1 in Hhi.
  split; lra.
Qed.

(** [replace] stays within the day of its argument. *)
Lemma replace_hour_minute_Ok (t : datetime) (h m : Z) (t' : datetime) :
  replace_hour_minute t h m = Ok t' ->
  (0 <= h <= 23)%Z /\ (0 <= m <= 59)%Z /\
  t' = inject_Z (1440 * day_of t + 60 * h + m) + subminute t.
Proof.
  unfold replace_hour_minute.
  destruct (0 <=? h)%Z eqn:E1, (h <=? 23)%Z eqn:E2, (0 <=? m)%Z eqn:E3,
    (m <=? 59)%Z eqn:E4; simpl; intros H; try discriminate.
  injection H as <-. repeat split; lia.
Qed.

Lemma replace_hour_minute_in_day (t : datetime) (h m : Z) (t' : datetime) :
  replace_hour_minute t h m = Ok t' ->
  inject_Z (1440 * day_of t) <= t' /\ t' < inject_Z (1440 * (day_of t + 1)).
Proof.
  intros H. apply replace_hour_minute_Ok in H as (Hh & Hm & ->).
  pose proof (subminute_bounds t) as [Hs0 Hs1].
  assert (inject_Z (1440 * day_of t) <= inject_Z (1440 * day_of t + 60 * h + m))
    by (rewrite <- Zle_Qle; lia).
  assert (inject_Z (1440 * day_of t + 60 * h + m) + 1 <= inject_Z (1440 * (day_of t + 1))).
  { change 1 with (inject_Z 1). rewrite <- inject_Z_plus, <- Zle_Qle. lia. }
  split; lra.
Qed.

Lemma replace_hour_minute_error (t : datetime) (h m : Z) :
  (24 <= h)%Z -> replace_hour_minute t h m = Raise ValueError.
Proof.
  intros H. unfold replace_hour_minute.
  destruct (h <=? 23)%Z eqn:E; [lia|].
  rewrite andb_false_r. reflexivity.
Qed.

End DatetimeFacts.

(** ** The working calendar *)

Module CalendarProps.

Import Calculators PyFacts DatetimeFacts.

Section Calendar.

Variable config : PlannerConfig.

Lemma inicio_dia_siguiente_later (t t' : datetime) :
  inicio_dia_siguiente config t = Ok t' ->
  inject_Z (1440 * (day_of t + 1)) <= t'.
Proof.
  unfold inicio_dia_siguiente. intros H.
  apply replace_hour_minute_in_day in H as [Hlo _].
  rewrite day_of_plus_one_day in Hlo. exact Hlo.
Qed.

(** The loop never ends before [t + d]. *)
Lemma consumir_minutos_lower_bound (fuel : nat) :
  forall (t d t' : datetime),
    consumir_minutos config fuel t d = Ok t' -> t + d <= t'.
Proof.
  induction fuel as [|fuel IH]; intros t d t' H; simpl in H;
    destruct (Qltb 0 d) eqn:Hd;
    try (apply Qltb_ge in Hd; injection H as <-; lra);
    try discriminate.
  apply Qltb_lt in Hd.
  pose proof (day_of_bounds t) as [Hlo Hhi].
  destruct (minutos_get config (weekday t) =? 0)%Z.
  - destruct (inicio_dia_siguiente config t) as [t1| |] eqn:E1; try discriminate.
    apply inicio_dia_siguiente_later in E1. apply IH in H. lra.
  - match type of H with
    | context [replace_hour_minute t ?h ?m] =>
        destruct (replace_hour_minute t h m) as [fin| |] eqn:Efin; try discriminate
    end.
    apply replace_hour_minute_in_day in Efin as [_ Hfin].
    simpl in H. unfold minutes_between in H.
    destruct (Qle_bool d (py_max 0 (fin - t))) eqn:Hfit.
    + apply IH in H. unfold plus_minutes in H. lra.
    + destruct (inicio_dia_siguiente config t) as [t1| |] eqn:E1; try discriminate.
      apply inicio_dia_siguiente_later in E1. apply IH in H.
      destruct (py_max_cases 0 (fin - t)) as [[_ Hm]|[_ Hm]]; rewrite Hm in H; lra.
Qed.

Lemma consumir_minutos_zero (fuel : nat) (t : datetime) :
  consumir_minutos config fuel t 0 = Ok t.
Proof. destruct fuel; reflexivity. Qed.

End Calendar.

(** C7. Advancing by a duration of 0 returns the starting timestamp, with
    any fuel; and for a duration [d >= 0], a timestamp returned by the
    advance is at least [t + d]. *)
Theorem advance_zero_and_lower_bound (config : PlannerConfig) (t : datetime) :
  (forall fuel, exists t', _ajustar_horario_laboral config fuel t 0 = Ok t' /\ t' == t) /\
  (forall fuel d t', 0 <= d ->
     _ajustar_horario_laboral config fuel t d = Ok t' -> t + d <= t').
Proof.
  split.
  - intros fuel. unfold _ajustar_horario_laboral.
    destruct (trabaja_24_7 config).
    + eexists. split; [reflexivity|]. unfold plus_minutes. lra.
    + exists t. rewrite consumir_minutos_zero. split; [reflexivity|lra].
  - intros fuel d t' _ H. unfold _ajustar_horario_laboral in H.
    destruct (trabaja_24_7 config).
    + injection H as <-. unfold plus_minutes. lra.
    + eapply consumir_minutos_lower_bound; eauto.
Qed.

Lemma advance_zero_and_lower_bound_witness :
  0 <= 60 /\
  _ajustar_horario_laboral PlannerConfig_default 2 (at_day 738885 16 30) 60
    = Ok (at_day 738886 7 30) /\
  at_day 738885 16 30 + 60 <= at_day 738886 7 30.
Proof.
  assert (H0 : 0 <= 60) by (vm_compute; discriminate).
  assert (H1 : _ajustar_horario_laboral PlannerConfig_default 2 (at_day 738885 16 30) 60
               = Ok (at_day 738886 7 30)) by (vm_compute; reflexivity).
  split; [exact H0|]. split; [exact H1|].
  exact (proj2 (advance_zero_and_lower_bound PlannerConfig_default (at_day 738885 16 30))
           2%nat 60 (at_day 738886 7 30) H0 H1).
Defined.

Lemma no_laborable_no_24_7 (config : PlannerConfig) (otro : Z) :
  (0 <= otro < 7)%Z -> minutos_get config otro = 0%Z -> trabaja_24_7 config = false.
Proof.
  intros Hr H0. unfold trabaja_24_7.
  apply not_true_is_false. intros Hall.
  rewrite forallb_forall in Hall.
  specialize (Hall otro).
  rewrite H0 in Hall. discriminate Hall.
  apply list_elem_of_In, elem_of_seqZ. lia.
Qed.

(** C10. When some weekday is not worked, and the shifts of the weekday of
    [t] reach or pass midnight counted from the day-start hour, advancing
    from [t] by a positive duration raises [ValueError] (hour out of
    range) instead of returning a timestamp. *)
Theorem advance_hour_out_of_range (config : PlannerConfig) (fuel : nat)
  (t : datetime) (d : Q) (otro : Z) :
  (0 <= otro < 7)%Z -> minutos_get config otro = 0%Z ->
  0 < d ->
  (60 * (24 - hora_inicio_turno1 config) <= minutos_get config (weekday t))%Z ->
  minutos_get config (weekday t) <> 0%Z ->
  _ajustar_horario_laboral config (S fuel) t d = Raise ValueError.
Proof.
  intros Hr H0 Hd Hlong Hwork.
  unfold _ajustar_horario_laboral.
  rewrite (no_laborable_no_24_7 config otro Hr H0).
  simpl. apply Qltb_lt in Hd. rewrite Hd.
  destruct (minutos_get config (weekday t) =? 0)%Z eqn:E; [lia|].
  set (hoy := minutos_get config (weekday t)) in *.
  set (hora_fin := inject_Z (hora_inicio_turno1 config) + inject_Z hoy / 60).
  assert (Hfin : 24 <= hora_fin).
  { unfold hora_fin.
    assert (Hmin : inject_Z 1440 <= inject_Z (hoy + 60 * hora_inicio_turno1 config))
      by (rewrite <- Zle_Qle; lia).
    rewrite inject_Z_plus, inject_Z_mult in Hmin.
    change (inject_Z 60) with 60 in Hmin. change (inject_Z 1440) with 1440 in Hmin.
    assert (Hdiv : inject_Z hoy == 60 * (inject_Z hoy / 60)) by field.
    lra. }
  rewrite replace_hour_minute_error; [reflexivity|].
  rewrite py_int_floor by lra.
  change 24%Z with (Qfloor 24). apply Qfloor_resp_le. exact Hfin.
Qed.

End CalendarProps.

Module CalendarExamples.

Import Calculators Ejemplos.

Lemma advance_hour_out_of_range_witness :
  _ajustar_horario_laboral config_dos_turnos 1 (at_day lunes 8 0) 60 = Raise ValueError.
Proof.
  apply (CalendarProps.advance_hour_out_of_range config_dos_turnos 0 (at_day lunes 8 0) 60 6).
  - lia.
  - vm_compute. reflexivity.
  - reflexivity.
  - vm_compute. discriminate.
  - vm_compute. discriminate.
Defined.

(** C3. Under the default configuration (one shift of 10 hours from 07:00,
    Monday to Saturday), advancing 60 minutes from Monday 05:00 returns
    Monday 06:00: the hour is consumed before the working window
    [07:00, 17:00) opens, and the time is not moved to the day start. *)
Theorem advance_before_window_consumes_outside :
  trabaja_24_7 PlannerConfig_default = false /\
  weekday (at_day lunes 5 0) = 0%Z /\
  minutos_get PlannerConfig_default 0 = 600%Z /\
  (forall fuel, _ajustar_horario_laboral PlannerConfig_default (S fuel) (at_day lunes 5 0) 60
                = Ok (at_day lunes 6 0)) /\
  at_day lunes 6 0 < at_day lunes (hora_inicio_turno1 PlannerConfig_default) 0.
Proof.
  split; [vm_compute; reflexivity|].
  split; [vm_compute; reflexivity|].
  split; [vm_compute; reflexivity|].
  split; [|vm_compute; reflexivity].
  intros fuel. destruct fuel; vm_compute; reflexivity.
Qed.

End CalendarExamples.

(** ** The date calculator *)

Module DateCalculatorProps.

Import Calculators SchedulingService Ejemplos.

(** In every record, buffer and total are computed from the print time
    alone: neither the setup nor the label changes enter them. *)
Lemma calcular_orden_total (config : PlannerConfig) (fuel : nat)
  (ordenes : list SchedulableOrderModel) (machine : MachineModel) (i : nat)
  (o : SchedulableOrderModel) (fecha : datetime) (r : orden_con_fecha) (fecha' : datetime) :
  calcular_orden config fuel ordenes machine i o fecha = Ok (r, fecha') ->
  exists real : Q,
    tiempo_impresion_real config machine o = Ok real /\
    tiempo_impresion_min r = py_round2 real /\
    tiempo_buffer_min r = py_round2 ((0 + real) * buffer_seguridad_pct config) /\
    tiempo_total_min r
    = py_round2 (0 + real + (0 + real) * buffer_seguridad_pct config) /\
    _ajustar_horario_laboral config fuel fecha
      (0 + real + (0 + real) * buffer_seguridad_pct config) = Ok fecha'.
Proof.
  unfold calcular_orden. intros Hpaso.
  match type of Hpaso with
  | (?c ≫= _) = _ => destruct c as [setup| |]; try discriminate Hpaso
  end.
  cbn [mbind res_bind Py.bind] in Hpaso.
  destruct (tiempo_impresion_real config machine o) as [real| |] eqn:Ereal;
    try discriminate Hpaso.
  cbn [mbind res_bind Py.bind] in Hpaso.
  match type of Hpaso with
  | context [_ajustar_horario_laboral ?c ?f ?t ?d] =>
      destruct (_ajustar_horario_laboral c f t d) as [fin| |] eqn:Efin;
        try discriminate Hpaso
  end.
  cbn [mbind res_bind Py.bind] in Hpaso. injection Hpaso as <- <-.
  exists real. repeat split; reflexivity || exact Efin.
Qed.

(** C1. For one order of 1000 m in three labels on a machine of 150 m/h
    with 15 minutes per change, under the configuration of the service:
    the emitted buffer is 1% of the print time alone and the emitted total
    is print plus buffer, so the 30 minutes of label changes are in neither;
    the total differs from the sum of the four parts, and the timestamp
    advances by print plus buffer only. *)
Theorem decomposition_identity_fails :
  exists r : orden_con_fecha,
    calcular_fechas_probables planner_config 0 [orden_tres_etiquetas] (at_day lunes 8 0) maquina_1
      = Ok [r] /\
    tiempo_setup_min r == 0 /\
    tiempo_cambios_internos_min r == 30 /\
    tiempo_impresion_min r == 421.05 /\
    tiempo_buffer_min r == 4.21 /\
    tiempo_total_min r == 425.26 /\
    ~ tiempo_buffer_min r
      == py_round2 ((0 + 30 + (8000 # 19)) * buffer_seguridad_pct planner_config) /\
    ~ tiempo_total_min r
      == tiempo_setup_min r + tiempo_cambios_internos_min r + tiempo_impresion_min r
         + tiempo_buffer_min r /\
    probable_fecha_entrega r == at_day lunes 8 0 + (8000 # 19) + (80 # 19).
Proof.
  eexists. split; [vm_compute; reflexivity|].
  repeat split; try (vm_compute; reflexivity); vm_compute; discriminate.
Qed.

End DateCalculatorProps.

(** ** Print time *)

Module PrintTimeProps.

Import Calculators Optimizer Ejemplos PyFacts.

Lemma or_Q_zero (x d : Q) : x == 0 -> or_Q x d = d.
Proof. intros H. unfold or_Q. apply Qeq_bool_iff in H. rewrite H. reflexivity. Qed.

(** C4, as stated, fails for the date calculator: with a machine of average
    velocity 0 and an order of 1000 m, the theoretical print time is 400
    minutes (the velocity falls back to 150 m/h), not 0. *)
Lemma print_time_velocity_zero_counterexample :
  avg_velocity maquina_sin_velocidad == 0 /\
  exists teorico real : Q,
    tiempo_impresion_teorico maquina_sin_velocidad orden_A = Ok teorico /\
    tiempo_impresion_real SchedulingService.planner_config maquina_sin_velocidad orden_A
      = Ok real /\
    teorico == 400 /\ ~ teorico == 0 /\ ~ real == 0.
Proof.
  split; [reflexivity|].
  eexists. eexists. split; [vm_compute; reflexivity|].
  split; [vm_compute; reflexivity|].
  repeat split; try (vm_compute; reflexivity); vm_compute; discriminate.
Qed.

(** C4, amended. With 0 meters the print time is 0 in the raw estimate of
    the genetic sequencer and in the theoretical and real print time of the
    date calculator (the latter for a non-zero efficiency).  With velocity
    0 the raw estimate is 0, while the date calculator takes 150 m/h: its
    theoretical print time is meters / (150 / 60). *)
Theorem print_time_zero (self : AlgoritmoGeneticoFlexo) (config : PlannerConfig)
  (machine : MachineModel) (orden : SchedulableOrderModel) :
  (total_metros_impresion orden == 0 \/ avg_velocity (maquina self) == 0 ->
   _estimar_tiempo_produccion self orden == 0) /\
  (total_metros_impresion orden == 0 ->
   (exists teorico, tiempo_impresion_teorico machine orden = Ok teorico /\ teorico == 0) /\
   (~ eficiencia_maquina config == 0 ->
    exists real, tiempo_impresion_real config machine orden = Ok real /\ real == 0)) /\
  (avg_velocity machine == 0 ->
   exists teorico, tiempo_impresion_teorico machine orden = Ok teorico /\
                   teorico == total_metros_impresion orden / (150 / 60)).
Proof.
  assert (Hteo : total_metros_impresion orden == 0 ->
                 exists teorico, tiempo_impresion_teorico machine orden = Ok teorico
                                 /\ teorico == 0).
  { intros Hm. unfold tiempo_impresion_teorico. rewrite (or_Q_zero _ 0 Hm).
    destruct (Qltb 0 (or_Q (avg_velocity machine) 150 / 60)) eqn:Ev.
    - apply Qltb_lt in Ev. unfold py_div.
      destruct (Qeq_bool (or_Q (avg_velocity machine) 150 / 60) 0) eqn:E0.
      + apply Qeq_bool_iff in E0. lra.
      + eexists. split; [reflexivity|]. unfold Qdiv. lra.
    - eexists. split; [reflexivity|]. lra. }
  split; [|split].
  - intros H. unfold _estimar_tiempo_produccion.
    destruct H as [H|H]; apply Qeq_bool_iff in H; rewrite H;
      rewrite ?orb_true_r; simpl; reflexivity.
  - intros Hm. split; [exact (Hteo Hm)|].
    intros Heff. destruct (Hteo Hm) as (teorico & Hteorico & Hz).
    unfold tiempo_impresion_real. rewrite Hteorico. simpl. unfold py_div.
    destruct (Qeq_bool (eficiencia_maquina config) 0) eqn:E0.
    + apply Qeq_bool_iff in E0. contradiction.
    + eexists. split; [reflexivity|]. rewrite Hz. unfold Qdiv. lra.
  - intros Hv. unfold tiempo_impresion_teorico. rewrite (or_Q_zero _ 150 Hv).
    eexists. split; [vm_compute (Qltb _ _); cbv iota; unfold py_div;
                     vm_compute (Qeq_bool _ _); cbv iota; reflexivity|].
    unfold or_Q. destruct (Qeq_bool (total_metros_impresion orden) 0) eqn:E.
    + apply Qeq_bool_iff in E. rewrite E. unfold Qdiv. lra.
    + reflexivity.
Qed.

Lemma print_time_zero_witness :
  _estimar_tiempo_produccion
    {| ordenes_dict := ∅; idx_to_order_id := []; maquina := maquina_sin_velocidad |}
    orden_A == 0 /\
  exists teorico, tiempo_impresion_teorico maquina_sin_velocidad orden_A = Ok teorico /\
                  teorico == total_metros_impresion orden_A / (150 / 60).
Proof.
  pose proof (print_time_zero
    {| ordenes_dict := ∅; idx_to_order_id := []; maquina := maquina_sin_velocidad |}
    PlannerConfig_default maquina_sin_velocidad orden_A) as (Hga & _ & Hdc).
  split.
  - apply Hga. right. reflexivity.
  - apply Hdc. reflexivity.
Defined.

End PrintTimeProps.

(** ** Enriched orders *)

Module EnrichedOrderProps.

Import Spec Ejemplos.

Lemma set_of_items_cases (items : list json) :
  (exists s, set_of_items items = Ok s) \/ set_of_items items = Raise TypeError.
Proof.
  induction items as [|v items IH]; simpl.
  - left. eauto.
  - destruct v; simpl; try (right; reflexivity);
      destruct IH as [[rest ->]| ->]; simpl; eauto.
Qed.

Lemma conjunto_cases (s : option json_text) :
  (exists c, EnrichedOrder.conjunto s = Ok c)
  \/ EnrichedOrder.conjunto s = Raise JSONDecodeError
  \/ EnrichedOrder.conjunto s = Raise TypeError.
Proof.
  destruct s as [[| |[v|]]|]; simpl; eauto.
  destruct v; simpl; eauto.
  destruct (set_of_items_cases items) as [[c ->]| ->]; eauto.
Qed.

Lemma malformed_conjunto (s : json_text) :
  malformed s -> EnrichedOrder.conjunto (Some s) = Raise JSONDecodeError.
Proof.
  intros [Ht Hl]. destruct s as [| |[v|]]; simpl in *; try discriminate. reflexivity.
Qed.

(** C9, as stated, fails: the colours of this order decode to two tokens,
    its materials do not decode, and the enriched order has no colours. *)
Lemma parse_failure_only_that_field_counterexample :
  malformed (materiales orden_materiales_ilegibles) /\
  exists (parsed : gset token) (e : EnrichedOrder.t),
    EnrichedOrder.conjunto (colores orden_materiales_ilegibles) = Ok parsed /\
    size parsed = 2%nat /\
    EnrichedOrder.__init__ orden_materiales_ilegibles = Ok e /\
    EnrichedOrder.colores e = ∅ /\
    EnrichedOrder.colores e <> parsed.
Proof.
  split; [split; reflexivity|].
  eexists. eexists. split; [reflexivity|].
  split; [vm_compute; reflexivity|].
  split; [reflexivity|].
  split; [reflexivity|].
  simpl. intros H. apply (f_equal size) in H. vm_compute in H. discriminate.
Qed.

(** C9, amended. A parse failure in any of the three JSON fields makes the
    three of them empty (no colour, no material, no customer): no error is
    raised.  When colours and materials decode and [datos] is empty or
    decodes to an object, each field keeps its parsed value. *)
Theorem parse_failure_empties_all (order : SchedulableOrderModel) :
  ((exists s, colores order = Some s /\ malformed s)
   \/ malformed (materiales order) \/ malformed (datos order) ->
   EnrichedOrder.__init__ order = Ok (vacia order)) /\
  (forall (c m : gset token) (d : json),
     EnrichedOrder.conjunto (colores order) = Ok c ->
     EnrichedOrder.conjunto (Some (materiales order)) = Ok m ->
     (if truthy_text (datos order) then loads (datos order) else Ok (JObj [])) = Ok d ->
     forall members, d = JObj members ->
     EnrichedOrder.__init__ order
     = Ok {| EnrichedOrder.original := order; EnrichedOrder.id := id order;
             EnrichedOrder.colores := c; EnrichedOrder.materiales := m;
             EnrichedOrder.id_cliente := default JNull (assoc "id_cliente" members) |}).
Proof.
  split.
  - intros [(s & Hs & Hbad)|[Hbad|Hbad]]; unfold EnrichedOrder.__init__.
    + rewrite Hs, (malformed_conjunto s Hbad). reflexivity.
    + rewrite (malformed_conjunto _ Hbad).
      destruct (conjunto_cases (colores order)) as [[c ->]|[-> | ->]]; reflexivity.
    + destruct Hbad as [Ht Hl]. rewrite Ht, Hl.
      destruct (conjunto_cases (colores order)) as [[c ->]|[-> | ->]]; try reflexivity.
      destruct (conjunto_cases (Some (materiales order))) as [[m ->]|[-> | ->]]; reflexivity.
  - intros c m d Hc Hm Hd members ->. unfold EnrichedOrder.__init__.
    rewrite Hc, Hm. simpl. rewrite Hd. reflexivity.
Qed.

Lemma parse_failure_empties_all_witness :
  EnrichedOrder.__init__ orden_materiales_ilegibles = Ok (vacia orden_materiales_ilegibles)
  /\ exists e, EnrichedOrder.__init__ orden_A = Ok e /\ size (EnrichedOrder.colores e) = 2%nat.
Proof.
  split.
  - apply (proj1 (parse_failure_empties_all orden_materiales_ilegibles)).
    right. left. split; reflexivity.
  - eexists. split.
    + apply (proj2 (parse_failure_empties_all orden_A)) with (d := JObj [("id_cliente"%string, JNum (Q2Qc (inject_Z 1)))]);
        reflexivity.
    + vm_compute. reflexivity.
Defined.

End EnrichedOrderProps.

(** ** The fitness of the genetic sequencer *)

Module FitnessProps.

Import Optimizer OptimizerConfig Spec PyFacts.

Lemma py_min_Qmin (a b : Q) : py_min a b == Qmin a b.
Proof.
  destruct (py_min_cases a b) as [[H ->]|[H ->]].
  - symmetry. apply Q.min_r. lra.
  - symmetry. apply Q.min_l. exact H.
Qed.

(** The lateness block: what it adds, by the position of the running time
    with respect to the deadline. *)
Lemma penalizacion_por_retraso_spec (orden : SchedulableOrderModel) (t : Q) :
  match dias_restantes orden with
  | Some d =>
      (inject_Z (d * 1440) < t ->
       penalizacion_por_retraso orden t
       == Qmin ((t - inject_Z (d * 1440)) * lateness_weight d) 500000) /\
      (t <= inject_Z (d * 1440) -> penalizacion_por_retraso orden t == 0)
  | None => clasificar_urgencia orden = NORMAL /\ penalizacion_por_retraso orden t == 0
  end.
Proof.
  unfold penalizacion_por_retraso, clasificar_urgencia.
  destruct (dias_restantes orden) as [d|]; [|split; reflexivity].
  split; intros Ht.
  - apply Qltb_lt in Ht. rewrite Ht. rewrite py_min_Qmin.
    unfold lateness_weight, DELAY_PENALTY_WEIGHT.
    destruct (d <? -30)%Z eqn:E1, (d <? 0)%Z eqn:E2, (d <=? 3)%Z eqn:E3, (d <=? 7)%Z eqn:E4;
      try reflexivity; lia.
  - apply Qltb_ge in Ht. rewrite Ht. reflexivity.
Qed.

(** The lateness block of the code adds the lateness term. *)
Lemma penalizacion_por_retraso_lateness (orden : SchedulableOrderModel) (t : Q) :
  penalizacion_por_retraso orden t == lateness (dias_restantes orden) t.
Proof.
  pose proof (penalizacion_por_retraso_spec orden t) as Hspec.
  unfold lateness. destruct (dias_restantes orden) as [d|]; [|exact (proj2 Hspec)].
  destruct Hspec as [Hlate Hontime]. cbv zeta.
  destruct (Qle_bool t (inject_Z (d * 1440))) eqn:E.
  - apply Qle_bool_iff in E. exact (Hontime E).
  - apply Qle_bool_gt in E. exact (Hlate E).
Qed.

Lemma clasificar_urgencia_dias (orden : SchedulableOrderModel) :
  match dias_restantes orden with
  | Some d =>
      ((d < 0)%Z <-> clasificar_urgencia orden = CRITICA_ATRASADA
                     \/ clasificar_urgencia orden = ATRASADA) /\
      ((0 <= d <= 3)%Z <-> clasificar_urgencia orden = URGENTE)
  | None => clasificar_urgencia orden = NORMAL
  end.
Proof.
  unfold clasificar_urgencia. destruct (dias_restantes orden) as [d|]; [|reflexivity].
  destruct (d <? -30)%Z eqn:E1, (d <? 0)%Z eqn:E2, (d <=? 3)%Z eqn:E3, (d <=? 7)%Z eqn:E4;
    split; split; intros Hx; try lia; try discriminate Hx;
    try (destruct Hx as [Hx|Hx]; discriminate Hx); auto.
Qed.

Section Terms.

Variable self : AlgoritmoGeneticoFlexo.
Variable individual : list nat.

(** [prev] is the order at position [i - 1] of the individual. *)
Let anterior (i : nat) (prev : option EnrichedOrder.t) : Prop :=
  match prev with
  | None => i = 0%nat
  | Some p =>
      (0 < i)%nat /\
      exists previous_idx,
        individual !! (i - 1)%nat = Some previous_idx /\
        orden_de_indice self previous_idx = Ok p
  end.

(** The body of the loop adds the four terms of its position and moves
    the running time on. *)
Lemma evaluar_posicion_terms (score t : Q) (i idx : nat) (prev : option EnrichedOrder.t)
  (o : EnrichedOrder.t) :
  orden_de_indice self idx = Ok o -> anterior i prev ->
  exists score',
    evaluar_posicion self individual (score, t) i idx = Ok (score', running_time self prev t o) /\
    score' == score
              + (shaping i (length individual) (Z.of_nat (size (EnrichedOrder.colores o)))
                 + setup_transition self prev o * SETUP_COST_WEIGHT
                 + overcapacity (Z.of_nat (size (EnrichedOrder.colores o)))
                     (or_Z (functional_inks (maquina self)) (inks (maquina self)))
                 + lateness (dias_restantes (EnrichedOrder.original o))
                     (running_time self prev t o)).
Proof.
  intros Ho Hprev. unfold evaluar_posicion. rewrite Ho.
  cbn [mbind res_bind Py.bind fst snd].
  set (c := Z.of_nat (size (EnrichedOrder.colores o))).
  set (fi := or_Z (functional_inks (maquina self)) (inks (maquina self))).
  destruct prev as [p|]; cbn [anterior] in Hprev.
  - destruct Hprev as (Hi & previous_idx & Hp & Hpo).
    rewrite (proj2 (Nat.ltb_lt 0 i) Hi), Hp, Hpo.
    cbn [mbind res_bind Py.bind fst snd running_time setup_transition].
    eexists. split; [reflexivity|].
    rewrite penalizacion_por_retraso_lateness.
    unfold shaping, overcapacity.
    destruct (5 <=? c)%Z, (3 <=? c)%Z, (fi <? c)%Z; ring.
  - subst i. cbn [Nat.ltb Nat.leb mbind res_bind Py.bind fst snd running_time
                  setup_transition].
    eexists. split; [reflexivity|].
    rewrite penalizacion_por_retraso_lateness.
    unfold shaping, overcapacity.
    destruct (5 <=? c)%Z, (3 <=? c)%Z, (fi <? c)%Z; ring.
Qed.

(** The loop from position [i] adds the terms of the positions it walks. *)
Lemma evaluar_desde_terms (pendientes : list nat) (os : list EnrichedOrder.t) :
  Forall2 (fun idx o => orden_de_indice self idx = Ok o) pendientes os ->
  forall (i : nat) (score t : Q) (prev : option EnrichedOrder.t),
    (forall k idx, pendientes !! k = Some idx -> individual !! (i + k)%nat = Some idx) ->
    anterior i prev ->
    exists score' t',
      evaluar_desde self individual i pendientes (score, t) = Ok (score', t') /\
      score' == score + fitness_terms self (length individual) i prev t os.
Proof.
  induction 1 as [|idx o pendientes os Ho Hrest IH]; intros i score t prev Hpos Hprev.
  - exists score, t. split; [reflexivity|]. cbn [fitness_terms]. ring.
  - cbn [evaluar_desde].
    destruct (evaluar_posicion_terms score t i idx prev o Ho Hprev) as (score1 & Hpos1 & Hs1).
    rewrite Hpos1. cbn [mbind res_bind Py.bind].
    destruct (IH (S i) score1 (running_time self prev t o) (Some o))
      as (score' & t' & Hok & Hs').
    + intros k idx' Hk. replace (S i + k)%nat with (i + S k)%nat by lia.
      apply Hpos. exact Hk.
    + cbn [anterior]. split; [lia|]. exists idx. split; [|exact Ho].
      replace (S i - 1)%nat with (i + 0)%nat by lia. apply Hpos. reflexivity.
    + exists score', t'. split; [exact Hok|].
      rewrite Hs', Hs1. cbn [fitness_terms]. ring.
Qed.

End Terms.

(** C8. For an individual whose indices are those of orders [os], the
    fitness is the sum over the positions of four terms: the shaping
    term, the weighted setup transition, the over-capacity penalty and the
    lateness term of the order at the position.  The lateness term is
    taken at the accumulated running time of the position (the setup
    transitions and raw print times up to it): past the deadline
    [days_remaining * 1440] it is [min (overshoot * weight) 500000], with
    weight 50 for [days_remaining < 0], 20 for [0 <= days_remaining <= 3]
    and 10 otherwise; up to the deadline, and for an order without
    days-remaining, it is 0.  The weights follow the urgency classes: an
    order is CRITICA_ATRASADA or ATRASADA exactly when
    [days_remaining < 0], URGENTE exactly when [0 <= days_remaining <= 3],
    and an order without days-remaining is NORMAL. *)
Theorem lateness_contribution (self : AlgoritmoGeneticoFlexo) (individual : list nat)
  (os : list EnrichedOrder.t) :
  Forall2 (fun idx o => orden_de_indice self idx = Ok o) individual os ->
  (exists score : Q,
     _evaluate_fitness self individual = Ok score /\
     score == fitness_terms self (length individual) 0 None 0 os) /\
  Forall (fun o =>
            match dias_restantes (EnrichedOrder.original o) with
            | Some d =>
                ((d < 0)%Z <->
                 clasificar_urgencia (EnrichedOrder.original o) = CRITICA_ATRASADA
                 \/ clasificar_urgencia (EnrichedOrder.original o) = ATRASADA) /\
                ((0 <= d <= 3)%Z <->
                 clasificar_urgencia (EnrichedOrder.original o) = URGENTE)
            | None => clasificar_urgencia (EnrichedOrder.original o) = NORMAL
            end) os.
Proof.
  intros Hos. split.
  - destruct (evaluar_desde_terms self individual individual os Hos 0%nat 0 0 None)
      as (score & t & Hok & Hscore).
    + intros k idx Hk. exact Hk.
    + reflexivity.
    + exists score. unfold _evaluate_fitness. rewrite Hok.
      split; [reflexivity|]. rewrite Hscore. ring.
  - apply Forall_forall. intros o _.
    apply (clasificar_urgencia_dias (EnrichedOrder.original o)).
Qed.

Lemma lateness_contribution_witness :
  exists score : Q,
    _evaluate_fitness Ejemplos.ag_atrasada [0; 1]%nat = Ok score /\
    score == 25000 + 92000 + (- 20000 + 50 * 100) /\
    running_time Ejemplos.ag_atrasada None 0 Ejemplos.enriquecida_atrasada == 400 /\
    lateness (dias_restantes Ejemplos.orden_atrasada) 400 == (400 + 1440) * 50.
Proof.
  destruct (proj1 (lateness_contribution Ejemplos.ag_atrasada [0; 1]%nat
                     [Ejemplos.enriquecida_atrasada; Ejemplos.enriquecida_B]
                     ltac:(repeat constructor; vm_compute; reflexivity)))
    as (score & Hok & Hscore).
  exists score. split; [exact Hok|]. split.
  - rewrite Hscore. vm_compute. reflexivity.
  - split; vm_compute; reflexivity.
Defined.

End FitnessProps.

(** ** The two transition costs *)

Module TransitionCostProps.

Import Calculators Optimizer OptimizerConfig Spec Ejemplos PyFacts.

Lemma py_max_Qmax (a b : Q) : py_max a b == Qmax a b.
Proof.
  destruct (py_max_cases a b) as [[H ->]|[H ->]].
  - symmetry. apply Q.max_r. lra.
  - symmetry. apply Q.max_l. exact H.
Qed.

Lemma Qmax_0_compat (x y : Q) : x == y -> Qmax 0 x == Qmax 0 y.
Proof.
  intros H.
  destruct (Q.max_spec 0 x) as [[? ->]|[? ->]], (Q.max_spec 0 y) as [[? ->]|[? ->]]; lra.
Qed.

Lemma truthy_not_null (v : json) : truthy v = true -> v <> JNull.
Proof. intros H ->. discriminate. Qed.

Lemma eqb_null_r (v : json) : eqb v JNull = true -> v = JNull.
Proof. destruct v; simpl; intros H; try discriminate; reflexivity. Qed.

Lemma or_Z_0 (x : Z) : or_Z x 0 = x.
Proof. unfold or_Z. destruct (x =? 0)%Z eqn:E; [lia|reflexivity]. Qed.

(** The cost of the genetic sequencer is the transition cost of section
    4.E, with the bonus decided by the customer ids. *)
Lemma _calcular_costo_cambio_spec (self : AlgoritmoGeneticoFlexo)
  (prev cur : EnrichedOrder.t) :
  exists bonus : bool,
    _calcular_costo_cambio self prev cur
    == transition_cost (or_Q (time_change_units (maquina self)) 15)
         (EnrichedOrder.materiales prev) (EnrichedOrder.materiales cur)
         (EnrichedOrder.colores prev) (EnrichedOrder.colores cur) bonus /\
    (bonus = true ->
     EnrichedOrder.id_cliente prev <> JNull /\ EnrichedOrder.id_cliente cur <> JNull /\
     eqb (EnrichedOrder.id_cliente prev) (EnrichedOrder.id_cliente cur) = true).
Proof.
  exists (truthy (EnrichedOrder.id_cliente prev)
          && eqb (EnrichedOrder.id_cliente prev) (EnrichedOrder.id_cliente cur)).
  split.
  - unfold _calcular_costo_cambio, transition_cost. rewrite py_max_Qmax.
    apply Qmax_0_compat.
    destruct (truthy (EnrichedOrder.id_cliente prev)
              && eqb (EnrichedOrder.id_cliente prev) (EnrichedOrder.id_cliente cur));
      repeat case_bool_decide; try congruence; ring.
  - intros H. apply andb_true_iff in H as [Ht He].
    pose proof (truthy_not_null _ Ht) as Hp.
    repeat split; auto.
    intros Hc. rewrite Hc in He. apply eqb_null_r in He. contradiction.
Qed.

(** The change time of the date calculator when materials and [datos]
    decode, the latter to objects. *)
Lemma _calcular_tiempo_cambio_decoded (config : PlannerConfig)
  (ant cur : SchedulableOrderModel) (machine : MachineModel)
  (ma mc : gset token) (da dc : list (string * json)) :
  conjunto_materiales (materiales ant) = Ok ma ->
  conjunto_materiales (materiales cur) = Ok mc ->
  loads (datos ant) = Ok (JObj da) ->
  loads (datos cur) = Ok (JObj dc) ->
  _calcular_tiempo_cambio config ant cur machine
  = Ok (let base := or_Q (time_change_units machine) 15 in
        let costo :=
          (if bool_decide (ma ≠ mc)
           then base * factor_cambio_material_completo config
           else base * factor_cambio_material_parcial config)
          + inject_Z (Z.abs (num_colores ant - num_colores cur))
            * costo_cambio_tinta_min config in
        if eqb (default JNull (assoc "id_cliente" da)) (default JNull (assoc "id_cliente" dc))
        then costo * bonificacion_mismo_cliente_pct config
        else costo).
Proof.
  intros Hma Hmc Hda Hdc. unfold _calcular_tiempo_cambio.
  rewrite Hma, Hmc. simpl. rewrite Hda, Hdc. simpl. rewrite !or_Z_0. reflexivity.
Qed.

(** The setup time of position [i >= 1] is the change time from the order
    before it. *)
Lemma calcular_orden_setup (config : PlannerConfig) (fuel : nat)
  (ordenes : list SchedulableOrderModel) (machine : MachineModel) (i : nat)
  (cur : SchedulableOrderModel) (fecha : datetime) (r : orden_con_fecha) (fecha' : datetime) :
  (0 < i)%nat ->
  calcular_orden config fuel ordenes machine i cur fecha = Ok (r, fecha') ->
  exists ant c,
    ordenes !! (i - 1)%nat = Some ant /\
    _calcular_tiempo_cambio config ant cur machine = Ok c /\
    tiempo_setup_min r = py_round2 c.
Proof.
  intros Hi H. unfold calcular_orden in H.
  apply Nat.ltb_lt in Hi. rewrite Hi in H.
  destruct (ordenes !! (i - 1)%nat) as [ant|]; [|discriminate].
  destruct (_calcular_tiempo_cambio config ant cur machine) as [c| |] eqn:Ec;
    try discriminate.
  exists ant, c. split; [reflexivity|]. split; [exact Ec|].
  simpl in H.
  destruct (tiempo_impresion_real config machine cur) as [real| |]; try discriminate.
  simpl in H.
  match type of H with
  | context [_ajustar_horario_laboral ?c ?f ?t ?d] =>
      destruct (_ajustar_horario_laboral c f t d); try discriminate
  end.
  simpl in H. injection H as <- _. reflexivity.
Qed.

(** C2, as stated, fails: from [orden_A] (2 colours, BOPP, customer 1) to
    [orden_B] (4 colours, PE, customer 2) on a machine of 15 minutes per
    change, the date calculator charges 15 + 2 * 5 = 25 minutes and the
    genetic sequencer 30 + 2 * 25 - 2 * 15 = 50. *)
Lemma transition_costs_differ_counterexample :
  ordenes_dict ag_AB !! 101%Z = Some enriquecida_A /\
  ordenes_dict ag_AB !! 102%Z = Some enriquecida_B /\
  _calcular_costo_cambio ag_AB enriquecida_A enriquecida_B == 50 /\
  _calcular_tiempo_cambio SchedulingService.planner_config orden_A orden_B maquina_1 = Ok 25 /\
  tiempos_setup
    (calcular_fechas_probables SchedulingService.planner_config 0 [orden_A; orden_B]
       (at_day lunes 8 0) maquina_1) = Ok [0; 25] /\
  ~ 25 == _calcular_costo_cambio ag_AB enriquecida_A enriquecida_B.
Proof.
  split; [vm_compute; reflexivity|].
  split; [vm_compute; reflexivity|].
  split; [vm_compute; reflexivity|].
  split; [vm_compute; reflexivity|].
  split; [vm_compute; reflexivity|].
  vm_compute. discriminate.
Qed.

(** C2, amended. For every pair of adjacent orders and every machine: the
    cost of the genetic sequencer is the material factor on the base time,
    plus [|to_add| * ink_add_cost], plus [|to_remove| * ink_clean_cost],
    minus [|reused| * color_reuse_bonus], with the same-customer bonus only
    when both customer ids are non-null and equal, clamped to [>= 0].  The
    setup time of the date calculator at a position [i >= 1] is its own
    change time from the order before: when materials and [datos] decode,
    the planner's material factor on the base time plus the difference of
    the colour counts times the ink-change cost, times the planner's bonus
    when the two customer ids are equal, without clamp. *)
Theorem transition_costs (self : AlgoritmoGeneticoFlexo) (config : PlannerConfig)
  (machine : MachineModel) :
  (forall prev cur : EnrichedOrder.t,
     exists bonus : bool,
       _calcular_costo_cambio self prev cur
       == transition_cost (or_Q (time_change_units (maquina self)) 15)
            (EnrichedOrder.materiales prev) (EnrichedOrder.materiales cur)
            (EnrichedOrder.colores prev) (EnrichedOrder.colores cur) bonus /\
       0 <= _calcular_costo_cambio self prev cur /\
       (bonus = true ->
        EnrichedOrder.id_cliente prev <> JNull /\ EnrichedOrder.id_cliente cur <> JNull /\
        eqb (EnrichedOrder.id_cliente prev) (EnrichedOrder.id_cliente cur) = true)) /\
  (forall fuel ordenes i cur fecha r fecha',
     (0 < i)%nat ->
     calcular_orden config fuel ordenes machine i cur fecha = Ok (r, fecha') ->
     exists ant c,
       ordenes !! (i - 1)%nat = Some ant /\
       _calcular_tiempo_cambio config ant cur machine = Ok c /\
       tiempo_setup_min r = py_round2 c) /\
  (forall ant cur ma mc da dc,
     conjunto_materiales (materiales ant) = Ok ma ->
     conjunto_materiales (materiales cur) = Ok mc ->
     loads (datos ant) = Ok (JObj da) ->
     loads (datos cur) = Ok (JObj dc) ->
     _calcular_tiempo_cambio config ant cur machine
     = Ok (let base := or_Q (time_change_units machine) 15 in
           let costo :=
             (if bool_decide (ma ≠ mc)
              then base * factor_cambio_material_completo config
              else base * factor_cambio_material_parcial config)
             + inject_Z (Z.abs (num_colores ant - num_colores cur))
               * costo_cambio_tinta_min config in
           if eqb (default JNull (assoc "id_cliente" da))
                  (default JNull (assoc "id_cliente" dc))
           then costo * bonificacion_mismo_cliente_pct config
           else costo)).
Proof.
  split; [|split].
  - intros prev cur.
    destruct (_calcular_costo_cambio_spec self prev cur) as (bonus & Heq & Hb).
    exists bonus. split; [exact Heq|]. split; [|exact Hb].
    unfold _calcular_costo_cambio. apply py_max_ge_l.
  - intros. eapply calcular_orden_setup; eauto.
  - intros. eapply _calcular_tiempo_cambio_decoded; eauto.
Qed.

Lemma transition_costs_witness :
  exists (r : orden_con_fecha) (fecha' : datetime) (ant : SchedulableOrderModel) (c : Q),
    calcular_orden SchedulingService.planner_config 0 [orden_A; orden_B] maquina_1 1 orden_B
      (at_day lunes 8 0) = Ok (r, fecha') /\
    [orden_A; orden_B] !! 0%nat = Some ant /\
    _calcular_tiempo_cambio SchedulingService.planner_config ant orden_B maquina_1 = Ok c /\
    tiempo_setup_min r = py_round2 c.
Proof.
  destruct (calcular_orden SchedulingService.planner_config 0 [orden_A; orden_B] maquina_1 1
              orden_B (at_day lunes 8 0)) as [[r fecha']| |] eqn:E;
    [|vm_compute in E; discriminate..].
  destruct (proj1 (proj2 (transition_costs ag_AB SchedulingService.planner_config maquina_1))
              0%nat [orden_A; orden_B] 1%nat orden_B (at_day lunes 8 0) r fecha'
              ltac:(lia) E) as (ant & c & Hant & Hc & Hr).
  exists r, fecha', ant, c. auto.
Defined.

End TransitionCostProps.

(** ** Forced orders in a schedule *)

Module ScheduleProps.

Import Calculators Optimizer SchedulingService Spec.

Section Sorting.

Context {A : Type}.

Implicit Types (x : datetime * A) (l : list (datetime * A)).

Lemma insertar_Permutation x l : insertar x l ≡ₚ x :: l.
Proof.
  induction l as [|y l IH]; simpl; [reflexivity|].
  destruct (Qle_bool x.1 y.1); [reflexivity|].
  rewrite IH. apply Permutation_swap.
Qed.

Lemma sorted_by_key_Permutation l : sorted_by_key l ≡ₚ l.
Proof.
  induction l as [|x l IH]; simpl; [reflexivity|].
  rewrite insertar_Permutation. rewrite IH. reflexivity.
Qed.

Lemma insertar_StronglySorted x l :
  StronglySorted (fun a b => a.1 <= b.1) l ->
  StronglySorted (fun a b => a.1 <= b.1) (insertar x l).
Proof.
  induction 1 as [|y l Hsorted IH Hall]; simpl.
  - constructor; constructor.
  - destruct (Qle_bool x.1 y.1) eqn:E.
    + apply Qle_bool_iff in E. constructor.
      * constructor; assumption.
      * constructor; [exact E|].
        eapply Forall_impl; [exact Hall|]. simpl. intros z Hz. lra.
    + apply PyFacts.Qle_bool_gt in E. constructor; [exact IH|].
      rewrite insertar_Permutation. constructor; [lra|exact Hall].
Qed.

Lemma sorted_by_key_StronglySorted l :
  StronglySorted (fun a b => a.1 <= b.1) (sorted_by_key l).
Proof.
  induction l as [|x l IH]; simpl; [constructor|].
  apply insertar_StronglySorted. exact IH.
Qed.

End Sorting.

Lemma con_fecha_forzosa_elem (orders : list SchedulableOrderModel)
  (p : datetime * SchedulableOrderModel) :
  p ∈ con_fecha_forzosa orders -> p.2 ∈ orders /\ fecha_forzosa_entrega p.2 = Some p.1.
Proof.
  unfold con_fecha_forzosa. rewrite list_elem_of_omap.
  intros (o & Ho & Hp). destruct (fecha_forzosa_entrega o) eqn:E; [|discriminate].
  injection Hp as <-. simpl. auto.
Qed.

Lemma StronglySorted_fmap_snd (l : list (datetime * SchedulableOrderModel)) :
  Forall (fun p => fecha_forzosa_entrega p.2 = Some p.1) l ->
  StronglySorted (fun a b => a.1 <= b.1) l ->
  StronglySorted
    (fun a b => match fecha_forzosa_entrega a, fecha_forzosa_entrega b with
                | Some x, Some y => x <= y
                | _, _ => False
                end) (snd <$> l).
Proof.
  intros Hkeys Hsorted. induction Hsorted as [|p l Hs IH Hall]; simpl; [constructor|].
  apply Forall_cons in Hkeys as [Hp Hl].
  constructor; [apply IH; exact Hl|].
  apply Forall_fmap. rewrite Forall_forall in Hall, Hl. apply Forall_forall.
  intros q Hq. simpl. rewrite Hp, (Hl q Hq). apply Hall. exact Hq.
Qed.

Lemma ordenes_forzosas_spec (orders : list SchedulableOrderModel) :
  Forall (fun o => o ∈ orders /\ fecha_forzosa_entrega o <> None) (ordenes_forzosas orders) /\
  StronglySorted
    (fun a b => match fecha_forzosa_entrega a, fecha_forzosa_entrega b with
                | Some x, Some y => x <= y
                | _, _ => False
                end) (ordenes_forzosas orders).
Proof.
  assert (Hkeys : Forall (fun p => p.2 ∈ orders /\ fecha_forzosa_entrega p.2 = Some p.1)
                    (sorted_by_key (con_fecha_forzosa orders))).
  { rewrite sorted_by_key_Permutation. apply Forall_forall.
    intros p Hp. apply con_fecha_forzosa_elem. exact Hp. }
  unfold ordenes_forzosas. split.
  - apply Forall_fmap. eapply Forall_impl; [exact Hkeys|].
    simpl. intros p [Hin Hf]. split; [exact Hin|congruence].
  - apply StronglySorted_fmap_snd.
    + eapply Forall_impl; [exact Hkeys|]. simpl. tauto.
    + apply sorted_by_key_StronglySorted.
Qed.

Lemma con_fecha_forzosa_filter (orders : list SchedulableOrderModel) :
  snd <$> con_fecha_forzosa orders
  = filter (fun o => is_Some (fecha_forzosa_entrega o)) orders.
Proof.
  unfold con_fecha_forzosa. induction orders as [|o orders IH]; [reflexivity|].
  cbn [omap list_omap]. rewrite filter_cons.
  destruct (fecha_forzosa_entrega o) as [fecha|] eqn:Ef.
  - rewrite decide_True by eauto. rewrite fmap_cons. cbn [snd]. f_equal. exact IH.
  - rewrite decide_False by (intros [x Hx]; discriminate Hx). exact IH.
Qed.

(** The sort neither drops nor repeats an order with a forced date. *)
Lemma ordenes_forzosas_Permutation (orders : list SchedulableOrderModel) :
  ordenes_forzosas orders ≡ₚ filter (fun o => is_Some (fecha_forzosa_entrega o)) orders.
Proof.
  unfold ordenes_forzosas.
  rewrite (sorted_by_key_Permutation (con_fecha_forzosa orders)).
  rewrite con_fecha_forzosa_filter. reflexivity.
Qed.

Lemma ordenes_optimizables_spec (orders : list SchedulableOrderModel) :
  Forall (fun o => o ∈ orders /\ fecha_forzosa_entrega o = None) (ordenes_optimizables orders).
Proof.
  apply Forall_forall. intros o Ho. unfold ordenes_optimizables in Ho.
  apply list_elem_of_filter in Ho. tauto.
Qed.

(** What [orders_dict] holds under a key is one of the orders, with that id. *)
Lemma orders_dict_lookup (orders : list SchedulableOrderModel) (k : Z)
  (o : SchedulableOrderModel) :
  orders_dict orders !! k = Some o -> o ∈ orders /\ id o = k.
Proof.
  unfold orders_dict.
  assert (H : forall acc : gmap Z SchedulableOrderModel,
             foldl (fun dict o => <[id o := o]> dict) acc orders !! k = Some o ->
             (o ∈ orders /\ id o = k) \/ acc !! k = Some o).
  { induction orders as [|x orders IH]; simpl; intros acc Hk; [right; exact Hk|].
    destruct (IH _ Hk) as [[Hin Hid]|Hacc].
    - left. split; [right; exact Hin|exact Hid].
    - destruct (decide (id x = k)) as [<-|Hne].
      + rewrite lookup_insert_eq in Hacc. injection Hacc as ->. left. split; [left|reflexivity].
      + rewrite lookup_insert_ne in Hacc by exact Hne. right. exact Hacc. }
  intros Hk. destruct (H ∅ Hk) as [?|Hempty]; [assumption|].
  rewrite lookup_empty in Hempty. discriminate.
Qed.

Lemma NoDup_id_inj (orders : list SchedulableOrderModel) (o o' : SchedulableOrderModel) :
  NoDup (id <$> orders) -> o ∈ orders -> o' ∈ orders -> id o = id o' -> o = o'.
Proof.
  induction orders as [|x orders IH]; simpl; intros Hnd Ho Ho' Hid.
  - inversion Ho.
  - apply NoDup_cons in Hnd as [Hx Hnd].
    apply elem_of_cons in Ho as [->|Ho]; apply elem_of_cons in Ho' as [->|Ho'].
    + reflexivity.
    + exfalso. apply Hx. rewrite Hid. apply list_elem_of_fmap. eauto.
    + exfalso. apply Hx. rewrite <- Hid. apply list_elem_of_fmap. eauto.
    + apply IH; assumption.
Qed.

Lemma traducir_indices_elem (self : AlgoritmoGeneticoFlexo) (indices : list nat)
  (ids : list Z) :
  traducir_indices self indices = Ok ids -> Forall (fun k => k ∈ idx_to_order_id self) ids.
Proof.
  revert ids. induction indices as [|idx indices IH]; simpl; intros ids H.
  - injection H as <-. constructor.
  - destruct (idx_to_order_id self !! idx) as [k|] eqn:Ek; [|discriminate].
    destruct (traducir_indices self indices) as [rest| |]; try discriminate.
    simpl in H. injection H as <-. constructor.
    + eapply list_elem_of_lookup_2. exact Ek.
    + apply IH. reflexivity.
Qed.

Section Servicio.

Variable hall_of_fame : AlgoritmoGeneticoFlexo -> nat -> nat -> list nat.
Variable fuel : nat.

Lemma secuencia_optimizada_ids_elem (orders : list SchedulableOrderModel)
  (machine_info : MachineModel) (ids : list Z) :
  secuencia_optimizada_ids hall_of_fame orders machine_info = Ok ids ->
  Forall (fun k => k ∈ id <$> ordenes_optimizables orders) ids.
Proof.
  unfold secuencia_optimizada_ids, entrada_del_genetico.
  destruct (2 <=? length (ordenes_optimizables orders))%nat.
  - unfold Optimizer.__init__.
    destruct (enriquecer (ordenes_optimizables orders) ∅) as [dict| |];
      [|intros Hraise; discriminate Hraise..].
    cbn [mbind res_bind Py.bind]. unfold optimizar. cbn [ordenes_dict idx_to_order_id].
    destruct (bool_decide (dict = ∅)).
    + intros Hids. injection Hids as <-. constructor.
    + intros Hids. apply traducir_indices_elem in Hids. exact Hids.
  - intros Hids. injection Hids as <-. apply Forall_forall. auto.
Qed.

Lemma buscar_ordenes_cons (dict : gmap Z SchedulableOrderModel) (k : Z) (r : string)
  (secuencia : list (Z * string)) (objs : list SchedulableOrderModel) :
  buscar_ordenes dict ((k, r) :: secuencia) = Ok objs ->
  exists o rest, dict !! k = Some o /\ buscar_ordenes dict secuencia = Ok rest /\
                 objs = o :: rest.
Proof.
  cbn [buscar_ordenes]. intros Hb.
  destruct (dict !! k) as [o|]; [|discriminate Hb].
  destruct (buscar_ordenes dict secuencia) as [rest| |]; try discriminate Hb.
  cbn in Hb. injection Hb as <-. exists o, rest. auto.
Qed.

Lemma buscar_ordenes_app (dict : gmap Z SchedulableOrderModel)
  (s1 s2 : list (Z * string)) (objs : list SchedulableOrderModel) :
  buscar_ordenes dict (s1 ++ s2) = Ok objs ->
  exists o1 o2, buscar_ordenes dict s1 = Ok o1 /\ buscar_ordenes dict s2 = Ok o2 /\
                objs = o1 ++ o2.
Proof.
  revert objs. induction s1 as [|[k r] s1 IH]; intros objs Hb.
  - exists [], objs. auto.
  - rewrite <- app_comm_cons in Hb.
    apply buscar_ordenes_cons in Hb as (o & rest & Hk & Hrest & ->).
    destruct (IH rest Hrest) as (o1 & o2 & H1 & H2 & ->).
    exists (o :: o1), o2. cbn [buscar_ordenes]. rewrite Hk, H1. auto.
Qed.

(** Looking up the ids of orders of the list returns those orders. *)
Lemma buscar_ordenes_forzosas (orders l objs : list SchedulableOrderModel) (razon : string) :
  NoDup (id <$> orders) ->
  Forall (fun o => o ∈ orders) l ->
  buscar_ordenes (orders_dict orders) ((fun o => (id o, razon)) <$> l) = Ok objs ->
  objs = l.
Proof.
  intros Hnd. revert objs. induction l as [|x l IH]; intros objs Hall Hb.
  - cbn in Hb. injection Hb as <-. reflexivity.
  - apply Forall_cons in Hall as [Hx Hl].
    rewrite fmap_cons in Hb.
    apply buscar_ordenes_cons in Hb as (o & rest & Hk & Hrest & ->).
    apply orders_dict_lookup in Hk as [Hin Hid].
    rewrite (NoDup_id_inj orders o x Hnd Hin Hx Hid).
    f_equal. apply IH; [exact Hl|exact Hrest].
Qed.

(** Looking up ids of optimizable orders returns optimizable orders. *)
Lemma buscar_ordenes_optimizables (orders objs : list SchedulableOrderModel)
  (ids : list Z) (razon : string) :
  NoDup (id <$> orders) ->
  Forall (fun k => k ∈ id <$> ordenes_optimizables orders) ids ->
  buscar_ordenes (orders_dict orders) ((fun oid => (oid, razon)) <$> ids) = Ok objs ->
  Forall (fun o => o ∈ orders /\ fecha_forzosa_entrega o = None) objs.
Proof.
  intros Hnd. revert objs. induction ids as [|k ids IH]; intros objs Hall Hb.
  - cbn in Hb. injection Hb as <-. constructor.
  - apply Forall_cons in Hall as [Hk Hids].
    rewrite fmap_cons in Hb.
    apply buscar_ordenes_cons in Hb as (o & rest & Hlook & Hrest & ->).
    constructor; [|apply IH; [exact Hids|exact Hrest]].
    apply orders_dict_lookup in Hlook as [Hin Hid].
    apply list_elem_of_fmap in Hk as (o' & Hko' & Ho').
    pose proof (ordenes_optimizables_spec orders) as Hopt.
    rewrite Forall_forall in Hopt. destruct (Hopt o' Ho') as [Hin' Hnone].
    assert (o = o') as -> by (apply (NoDup_id_inj orders); congruence).
    auto.
Qed.

(** The objects of the final sequence: forced orders, sorted, then
    optimizable ones. *)
Lemma secuencia_ordenada_obj_forced_first (razon : string)
  (orders objs : list SchedulableOrderModel) (machine_info : MachineModel) :
  NoDup (id <$> orders) ->
  secuencia_ordenada_obj hall_of_fame razon orders machine_info = Ok objs ->
  forced_first orders objs.
Proof.
  intros Hnd H. unfold secuencia_ordenada_obj, secuencia_final_con_razon in H.
  destruct (secuencia_optimizada_ids hall_of_fame orders machine_info) as [ids| |] eqn:Eids;
    try discriminate.
  simpl in H. apply buscar_ordenes_app in H as (o1 & o2 & H1 & H2 & ->).
  destruct (ordenes_forzosas_spec orders) as [Hforced Hsorted].
  apply buscar_ordenes_forzosas in H1; [|exact Hnd|].
  2:{ eapply Forall_impl; [exact Hforced|]. simpl. tauto. }
  subst o1.
  exists (ordenes_forzosas orders), o2.
  split; [reflexivity|]. split; [apply ordenes_forzosas_Permutation|].
  split; [|exact Hsorted].
  eapply buscar_ordenes_optimizables; [exact Hnd| |exact H2].
  eapply secuencia_optimizada_ids_elem. exact Eids.
Qed.

Lemma calcular_orden_orden (config : PlannerConfig) (ordenes : list SchedulableOrderModel)
  (machine : MachineModel) (i : nat) (o : SchedulableOrderModel) (fecha : datetime)
  (r : orden_con_fecha) (fecha' : datetime) :
  calcular_orden config fuel ordenes machine i o fecha = Ok (r, fecha') -> orden r = o.
Proof.
  unfold calcular_orden. intros H.
  match type of H with
  | (?c ≫= _) = _ => destruct c as [setup| |]; try discriminate
  end.
  simpl in H.
  destruct (tiempo_impresion_real config machine o) as [real| |]; try discriminate.
  simpl in H.
  match type of H with
  | context [_ajustar_horario_laboral ?c ?f ?t ?d] =>
      destruct (_ajustar_horario_laboral c f t d); try discriminate
  end.
  simpl in H. injection H as <- _. reflexivity.
Qed.

Lemma recorrer_ordenes_orden (config : PlannerConfig) (ordenes : list SchedulableOrderModel)
  (machine : MachineModel) (pendientes : list SchedulableOrderModel) :
  forall (i : nat) (fecha : datetime) (rs : list orden_con_fecha),
    recorrer_ordenes config fuel ordenes machine i pendientes fecha = Ok rs ->
    orden <$> rs = pendientes.
Proof.
  induction pendientes as [|o pendientes IH]; simpl; intros i fecha rs H.
  - injection H as <-. reflexivity.
  - destruct (calcular_orden config fuel ordenes machine i o fecha) as [[r fecha']| |] eqn:E;
      try discriminate.
    simpl in H.
    destruct (recorrer_ordenes config fuel ordenes machine (S i) pendientes fecha')
      as [rest| |] eqn:Erest; try discriminate.
    simpl in H. injection H as <-. simpl.
    rewrite (calcular_orden_orden _ _ _ _ _ _ _ _ E). f_equal. eapply IH. exact Erest.
Qed.

Lemma calcular_fechas_probables_orden (config : PlannerConfig)
  (ordenes : list SchedulableOrderModel) (fecha : datetime) (machine : MachineModel)
  (rs : list orden_con_fecha) :
  calcular_fechas_probables config fuel ordenes fecha machine = Ok rs ->
  orden <$> rs = ordenes.
Proof.
  unfold calcular_fechas_probables.
  exact (recorrer_ordenes_orden config ordenes machine ordenes 0%nat fecha rs).
Qed.

Lemma filas_desde_spec (machine_id : Z) (secuencia : list (Z * string))
  (rs : list orden_con_fecha) :
  forall i : Z,
    order_id <$> filas_desde machine_id secuencia i rs = id <$> (orden <$> rs) /\
    order_production <$> filas_desde machine_id secuencia i rs = seqZ i (Z.of_nat (length rs)).
Proof.
  induction rs as [|r rs IH]; intros i; [split; reflexivity|].
  destruct (IH (i + 1)%Z) as [Hids Hrank]. cbn [filas_desde fmap list_fmap].
  split.
  - f_equal. exact Hids.
  - cbn [length]. rewrite Nat2Z.inj_succ, seqZ_cons by lia.
    cbn [order_production]. f_equal.
    replace (Z.succ i) with (i + 1)%Z by lia.
    replace (Z.pred (Z.succ (Z.of_nat (length rs)))) with (Z.of_nat (length rs)) by lia.
    exact Hrank.
Qed.

Lemma planificar_forced_first (razon : string) (machine_id : Z)
  (orders : list SchedulableOrderModel) (machine_info : MachineModel) (now : datetime)
  (filas : list fila) :
  NoDup (id <$> orders) ->
  planificar hall_of_fame fuel razon machine_id orders machine_info now = Ok filas ->
  exists objs : list SchedulableOrderModel,
    order_id <$> filas = id <$> objs /\
    order_production <$> filas = seqZ 1 (Z.of_nat (length objs)) /\
    forced_first orders objs.
Proof.
  intros Hnd H. unfold planificar in H.
  destruct (secuencia_final_con_razon hall_of_fame razon orders machine_info)
    as [secuencia| |] eqn:Esec; try discriminate.
  simpl in H.
  destruct (buscar_ordenes (orders_dict orders) secuencia) as [objs| |] eqn:Eobjs;
    try discriminate.
  simpl in H.
  destruct (calcular_fechas_probables planner_config fuel objs now machine_info)
    as [rs| |] eqn:Ers; try discriminate.
  simpl in H. injection H as <-.
  pose proof (calcular_fechas_probables_orden planner_config objs now machine_info rs Ers)
    as Hrs.
  clear Ers. rename Hrs into Ers.
  destruct (filas_desde_spec machine_id secuencia rs 1) as [Hids Hrank].
  exists objs. rewrite Hids, Hrank, <- Ers, length_fmap.
  split; [reflexivity|]. split; [reflexivity|].
  rewrite Ers. apply (secuencia_ordenada_obj_forced_first razon _ _ machine_info Hnd).
  unfold secuencia_ordenada_obj. rewrite Esec. simpl. exact Eobjs.
Qed.

End Servicio.

(** C5. When the order ids are distinct, every schedule written by
    [generate_optimal_schedule], and the rows of every machine that the
    all-machines planner schedules, list by rank 1..K a sequence made of
    all the orders of the input with a forced date, each once and in
    ascending order of that date, followed by orders of the input without
    one (the all-machines planner writes no row for an empty list of
    orders or an unknown machine); and the genetic algorithm is only ever
    run on orders without a forced date. *)
Theorem forced_orders_first
  (hall_of_fame : AlgoritmoGeneticoFlexo -> nat -> nat -> list nat) (fuel : nat) :
  (forall machine_info orders now filas,
     NoDup (id <$> orders) ->
     generate_optimal_schedule hall_of_fame fuel machine_info orders now = Some filas ->
     exists objs : list SchedulableOrderModel,
       order_id <$> filas = id <$> objs /\
       order_production <$> filas = seqZ 1 (Z.of_nat (length objs)) /\
       forced_first orders objs) /\
  (forall active_machines machine_id ordenes now filas,
     NoDup (id <$> ordenes) ->
     planificar_maquina hall_of_fame fuel active_machines machine_id ordenes now = Ok filas ->
     ((ordenes = [] \/ machines_dict_get active_machines machine_id = None) /\ filas = []) \/
     exists objs : list SchedulableOrderModel,
       order_id <$> filas = id <$> objs /\
       order_production <$> filas = seqZ 1 (Z.of_nat (length objs)) /\
       forced_first ordenes objs) /\
  (forall orders entrada,
     entrada_del_genetico orders = Some entrada ->
     Forall (fun o => fecha_forzosa_entrega o = None) entrada).
Proof.
  split; [|split].
  - intros machine_info orders now filas Hnd H. unfold generate_optimal_schedule in H.
    destruct machine_info as [machine_info|]; [|discriminate].
    repeat case_bool_decide; try discriminate.
    match type of H with
    | match ?c with _ => _ end = _ => destruct c as [filas'| |] eqn:E; try discriminate
    end.
    injection H as ->. eapply planificar_forced_first; eauto.
  - intros active_machines machine_id ordenes now filas Hnd H.
    unfold planificar_maquina in H.
    case_bool_decide as Hvacia; [injection H as <-; left; auto|].
    destruct (machines_dict_get active_machines machine_id) as [machine_info|];
      [|injection H as <-; left; auto].
    right. eapply planificar_forced_first; eauto.
  - intros orders entrada H. unfold entrada_del_genetico in H.
    destruct (2 <=? length (ordenes_optimizables orders))%nat; [|discriminate].
    injection H as <-.
    eapply Forall_impl; [apply ordenes_optimizables_spec|]. simpl. tauto.
Qed.

Lemma forced_orders_first_witness :
  (exists (filas : list fila) (objs : list SchedulableOrderModel),
     generate_optimal_schedule Ejemplos.hall_of_fame_inverso 0 (Some Ejemplos.maquina_1)
       [Ejemplos.orden_A; Ejemplos.orden_C; Ejemplos.orden_B; Ejemplos.orden_D]
       (at_day Ejemplos.lunes 8 0)
     = Some filas /\
     order_id <$> filas = [107; 103; 102; 101]%Z /\
     order_id <$> filas = id <$> objs /\
     forced_first [Ejemplos.orden_A; Ejemplos.orden_C; Ejemplos.orden_B; Ejemplos.orden_D]
       objs) /\
  (exists (filas : list fila) (objs : list SchedulableOrderModel),
     planificar_maquina Ejemplos.hall_of_fame_inverso 0 [Ejemplos.maquina_1] 1
       [Ejemplos.orden_C; Ejemplos.orden_A; Ejemplos.orden_D] (at_day Ejemplos.lunes 8 0)
     = Ok filas /\
     order_id <$> filas = [107; 103; 101]%Z /\
     order_id <$> filas = id <$> objs /\
     forced_first [Ejemplos.orden_C; Ejemplos.orden_A; Ejemplos.orden_D] objs).
Proof.
  split.
  - destruct (generate_optimal_schedule Ejemplos.hall_of_fame_inverso 0
                (Some Ejemplos.maquina_1)
                [Ejemplos.orden_A; Ejemplos.orden_C; Ejemplos.orden_B; Ejemplos.orden_D]
                (at_day Ejemplos.lunes 8 0)) as [filas|] eqn:E;
      [|vm_compute in E; discriminate].
    assert (Hnd : NoDup (id <$> [Ejemplos.orden_A; Ejemplos.orden_C; Ejemplos.orden_B;
                                 Ejemplos.orden_D])).
    { apply (bool_decide_unpack _). vm_compute. exact I. }
    destruct (proj1 (forced_orders_first Ejemplos.hall_of_fame_inverso 0)
                _ _ _ _ Hnd E) as (objs & Hids & _ & Hff).
    exists filas, objs. split; [reflexivity|]. split; [|split; assumption].
    vm_compute in E. injection E as <-. reflexivity.
  - destruct (planificar_maquina Ejemplos.hall_of_fame_inverso 0 [Ejemplos.maquina_1] 1
                [Ejemplos.orden_C; Ejemplos.orden_A; Ejemplos.orden_D]
                (at_day Ejemplos.lunes 8 0)) as [filas| |] eqn:E;
      [|vm_compute in E; discriminate..].
    assert (Hnd : NoDup (id <$> [Ejemplos.orden_C; Ejemplos.orden_A; Ejemplos.orden_D])).
    { apply (bool_decide_unpack _). vm_compute. exact I. }
    assert (Hfilas : order_id <$> filas = [107; 103; 101]%Z).
    { vm_compute in E. injection E as <-. reflexivity. }
    destruct (proj1 (proj2 (forced_orders_first Ejemplos.hall_of_fame_inverso 0))
                _ _ _ _ _ Hnd E) as [[_ Hnil]|(objs & Hids & _ & Hff)].
    + rewrite Hnil in Hfilas. discriminate Hfilas.
    + exists filas, objs. split; [reflexivity|]. split; [exact Hfilas|].
      split; assumption.
Defined.

End ScheduleProps.

(** ** More on the working calendar *)

Module CalendarTable.

Import Calculators PyFacts DatetimeFacts Condiciones.

Section Table.

Variable config : PlannerConfig.

(** The minutes [__init__] stores for day [d]. *)
Let valor (d : Z) : Z :=
  if bool_decide (d ∈ dias_laborales config) then
    if (d =? 5)%Z then (horas_por_turno_sabado config * 60 * turnos_sabado config)%Z
    else (horas_por_turno_semana config * 60 * turnos_dia_semana config)%Z
  else 0%Z.

Let paso (tabla : gmap Z Z) (dia : Z) : gmap Z Z :=
  if bool_decide (dia ∈ dias_laborales config) then
    if (dia =? 5)%Z
    then <[dia := (horas_por_turno_sabado config * 60 * turnos_sabado config)%Z]> tabla
    else <[dia := (horas_por_turno_semana config * 60 * turnos_dia_semana config)%Z]> tabla
  else <[dia := 0%Z]> tabla.

Lemma paso_lookup (tabla : gmap Z Z) (dia d : Z) :
  paso tabla dia !! d = if decide (dia = d) then Some (valor d) else tabla !! d.
Proof.
  unfold paso, valor. destruct (decide (dia = d)) as [->|Hne].
  - destruct (bool_decide (d ∈ dias_laborales config)); [destruct (d =? 5)%Z|];
      apply lookup_insert_eq.
  - destruct (bool_decide (dia ∈ dias_laborales config)); [destruct (dia =? 5)%Z|];
      apply lookup_insert_ne; exact Hne.
Qed.

Lemma foldl_paso_lookup (dias : list Z) (d : Z) :
  forall tabla : gmap Z Z,
    foldl paso tabla dias !! d
    = if bool_decide (d ∈ dias) then Some (valor d) else tabla !! d.
Proof.
  induction dias as [|x dias IH]; intros tabla; cbn [foldl].
  - rewrite bool_decide_eq_false_2; [reflexivity|]. apply not_elem_of_nil.
  - rewrite IH, paso_lookup.
    destruct (bool_decide (d ∈ dias)) eqn:Ein.
    + apply bool_decide_eq_true_1 in Ein.
      rewrite bool_decide_eq_true_2; [reflexivity|]. apply elem_of_cons. auto.
    + apply bool_decide_eq_false_1 in Ein.
      destruct (decide (x = d)) as [->|Hne].
      * rewrite bool_decide_eq_true_2; [reflexivity|]. apply elem_of_cons. auto.
      * rewrite bool_decide_eq_false_2; [reflexivity|].
        rewrite elem_of_cons. intros [Heq|Hin]; [congruence|contradiction].
Qed.

Lemma minutos_get_valor (d : Z) :
  minutos_get config d = if bool_decide (0 <= d < 7)%Z then valor d else 0%Z.
Proof.
  unfold minutos_get, minutos_laborables_por_dia.
  change (foldl _ ∅ (seqZ 0 7)) with (foldl paso ∅ (seqZ 0 7)).
  rewrite foldl_paso_lookup.
  destruct (bool_decide (0 <= d < 7)%Z) eqn:Er.
  - apply bool_decide_eq_true_1 in Er.
    rewrite bool_decide_eq_true_2; [reflexivity|]. apply elem_of_seqZ. lia.
  - apply bool_decide_eq_false_1 in Er.
    rewrite bool_decide_eq_false_2; [rewrite lookup_empty; reflexivity|].
    rewrite elem_of_seqZ. lia.
Qed.

End Table.

(** X1. The table built by [DateCalculator.__init__] gives, for a weekday
    [d] of 0..6: 0 when [d] is not a working day, the Saturday minutes
    (hours * 60 * shifts) when [d] is 5, the weekday minutes otherwise; and
    0 for any other key. *)
Theorem minutos_laborables_table (config : PlannerConfig) (d : Z) :
  minutos_get config d
  = if bool_decide (0 <= d < 7)%Z then
      if bool_decide (d ∈ dias_laborales config) then
        if (d =? 5)%Z then (horas_por_turno_sabado config * 60 * turnos_sabado config)%Z
        else (horas_por_turno_semana config * 60 * turnos_dia_semana config)%Z
      else 0%Z
    else 0%Z.
Proof.
  apply minutos_get_valor.
Qed.

Lemma trabaja_24_7_iff (config : PlannerConfig) :
  trabaja_24_7 config = true <-> forall d, (0 <= d < 7)%Z -> minutos_get config d = 1440%Z.
Proof.
  unfold trabaja_24_7. rewrite forallb_forall. split.
  - intros Hall d Hd. apply Z.eqb_eq, Hall, list_elem_of_In, elem_of_seqZ. lia.
  - intros Hall d Hd. apply list_elem_of_In, elem_of_seqZ in Hd.
    apply Z.eqb_eq, Hall. lia.
Qed.

(** X2. When the seven weekdays are working days and both the weekday and
    the Saturday shifts add up to 1440 minutes, advancing a date by a
    duration returns exactly [start + duration], whatever the fuel,
    provided the start and that sum are dates a [datetime] can hold; and
    when some weekday has other than 1440 minutes, the calendar loop is
    used. *)
Theorem advance_24_7_exact (config : PlannerConfig) :
  ((forall d, (0 <= d < 7)%Z -> d ∈ dias_laborales config) ->
   (horas_por_turno_semana config * 60 * turnos_dia_semana config = 1440)%Z ->
   (horas_por_turno_sabado config * 60 * turnos_sabado config = 1440)%Z ->
   forall fuel t d,
     en_rango t -> en_rango (t + d) ->
     _ajustar_horario_laboral config fuel t d = Ok (t + d)) /\
  (forall w, (0 <= w < 7)%Z -> minutos_get config w <> 1440%Z ->
   forall fuel t d,
     _ajustar_horario_laboral config fuel t d = consumir_minutos config fuel t d).
Proof.
  split.
  - intros Hdias Hsem Hsab fuel t d _ _. unfold _ajustar_horario_laboral.
    assert (H247 : trabaja_24_7 config = true).
    { apply trabaja_24_7_iff. intros w Hw. rewrite minutos_get_valor.
      rewrite bool_decide_eq_true_2 by exact Hw.
      rewrite bool_decide_eq_true_2 by (apply Hdias; exact Hw).
      destruct (w =? 5)%Z; assumption. }
    rewrite H247. reflexivity.
  - intros w Hw Hne fuel t d. unfold _ajustar_horario_laboral.
    destruct (trabaja_24_7 config) eqn:E; [|reflexivity].
    exfalso. apply Hne. apply (proj1 (trabaja_24_7_iff config) E). exact Hw.
Qed.

Lemma advance_24_7_exact_witness :
  en_rango (at_day Ejemplos.lunes 23 30) /\
  en_rango (at_day Ejemplos.lunes 23 30 + 90) /\
  _ajustar_horario_laboral SchedulingService.planner_config 0 (at_day Ejemplos.lunes 23 30) 90
  = Ok (at_day Ejemplos.lunes 23 30 + 90).
Proof.
  assert (H1 : en_rango (at_day Ejemplos.lunes 23 30))
    by (split; vm_compute; discriminate).
  assert (H2 : en_rango (at_day Ejemplos.lunes 23 30 + 90))
    by (split; vm_compute; discriminate).
  split; [exact H1|]. split; [exact H2|].
  apply (proj1 (advance_24_7_exact SchedulingService.planner_config)).
  - intros d Hd. apply elem_of_seqZ. lia.
  - reflexivity.
  - reflexivity.
  - exact H1.
  - exact H2.
Defined.

End CalendarTable.

Module CalendarTotal.

Import Calculators PyFacts DatetimeFacts Condiciones.

Lemma weekday_bounds (t : datetime) : (0 <= weekday t < 7)%Z.
Proof. unfold weekday. apply Z.mod_pos_bound. lia. Qed.

Lemma weekday_plus_one_day (t : datetime) :
  weekday (plus_one_day t) = ((weekday t + 1) mod 7)%Z.
Proof.
  unfold weekday. rewrite day_of_plus_one_day.
  rewrite Zplus_mod_idemp_l. reflexivity.
Qed.

Section Total.

Variable config : PlannerConfig.
Hypothesis Hvalido : calendario_valido config.

(** [t] is at the day-start hour of its day, up to its seconds. *)
Let al_inicio (t : datetime) : Prop :=
  exists s : Q, 0 <= s /\ s < 1 /\
    t == inject_Z (1440 * day_of t + 60 * hora_inicio_turno1 config) + s.

Lemma inicio_dia_siguiente_Ok (t : datetime) :
  exists t1, inicio_dia_siguiente config t = Ok t1 /\
             al_inicio t1 /\ weekday t1 = ((weekday t + 1) mod 7)%Z.
Proof.
  destruct Hvalido as [Hh _].
  unfold inicio_dia_siguiente, replace_hour_minute.
  destruct (0 <=? hora_inicio_turno1 config)%Z eqn:E1; [|lia].
  destruct (hora_inicio_turno1 config <=? 23)%Z eqn:E2; [|lia].
  cbn [andb Z.leb Z.compare].
  eexists. split; [reflexivity|].
  set (t1 := inject_Z (1440 * day_of (plus_one_day t) + 60 * hora_inicio_turno1 config + 0)
             + subminute (plus_one_day t)).
  pose proof (subminute_bounds (plus_one_day t)) as [Hs0 Hs1].
  assert (Hday : day_of t1 = day_of (plus_one_day t)).
  { apply day_of_unique; unfold t1.
    - assert (inject_Z (1440 * day_of (plus_one_day t))
              <= inject_Z (1440 * day_of (plus_one_day t) + 60 * hora_inicio_turno1 config + 0))
        by (rewrite <- Zle_Qle; lia).
      lra.
    - assert (inject_Z (1440 * day_of (plus_one_day t) + 60 * hora_inicio_turno1 config + 0) + 1
              <= inject_Z (1440 * (day_of (plus_one_day t) + 1))).
      { change 1 with (inject_Z 1). rewrite <- inject_Z_plus, <- Zle_Qle. lia. }
      lra. }
  split.
  - exists (subminute (plus_one_day t)). split; [exact Hs0|]. split; [exact Hs1|].
    rewrite Hday. unfold t1. rewrite Z.add_0_r. reflexivity.
  - unfold weekday at 1. rewrite Hday. apply weekday_plus_one_day.
Qed.

(** The end of the shift of a worked day, computed from any time of it. *)
Lemma fin_jornada_Ok (t : datetime) (k : Z) :
  (1 <= k)%Z -> (hora_inicio_turno1 config + k <= 23)%Z ->
  minutos_get config (weekday t) = (60 * k)%Z ->
  let hora_fin := inject_Z (hora_inicio_turno1 config)
                  + inject_Z (minutos_get config (weekday t)) / 60 in
  replace_hour_minute t (py_int hora_fin) (py_int (py_fmod (hora_fin * 60) 60))
  = Ok (inject_Z (1440 * day_of t + 60 * (hora_inicio_turno1 config + k) + 0) + subminute t).
Proof.
  intros Hk Hend Hm. destruct Hvalido as [Hh _].
  rewrite Hm. cbv zeta.
  set (hora_fin := inject_Z (hora_inicio_turno1 config) + inject_Z (60 * k) / 60).
  assert (Hfin : hora_fin == inject_Z (hora_inicio_turno1 config + k)).
  { unfold hora_fin. rewrite inject_Z_plus, inject_Z_mult.
    change (inject_Z 60) with 60. field. }
  assert (Hpos : 0 <= inject_Z (hora_inicio_turno1 config + k)).
  { change 0 with (inject_Z 0). rewrite <- Zle_Qle. lia. }
  assert (Hint : py_int hora_fin = (hora_inicio_turno1 config + k)%Z).
  { rewrite py_int_floor by lra. apply Qfloor_unique.
    - lra.
    - rewrite inject_Z_plus. change (inject_Z 1) with 1. lra. }
  assert (Hsame : hora_fin * 60 / 60 == hora_fin) by field.
  assert (Hfloor : Qfloor (hora_fin * 60 / 60) = (hora_inicio_turno1 config + k)%Z).
  { apply Qfloor_unique.
    - lra.
    - rewrite inject_Z_plus. change (inject_Z 1) with 1. lra. }
  assert (Hmin : py_int (py_fmod (hora_fin * 60) 60) = 0%Z).
  { assert (Hz : py_fmod (hora_fin * 60) 60 == 0).
    { unfold py_fmod. rewrite Hfloor. lra. }
    rewrite py_int_floor by lra. apply Qfloor_unique.
    - change (inject_Z 0) with 0. lra.
    - change (inject_Z (0 + 1)) with 1. lra. }
  rewrite Hint, Hmin. unfold replace_hour_minute.
  destruct (0 <=? hora_inicio_turno1 config + k)%Z eqn:E1; [|lia].
  destruct (hora_inicio_turno1 config + k <=? 23)%Z eqn:E2; [|lia].
  reflexivity.
Qed.

(** At the day start of a worked day the whole shift is available. *)
Lemma fin_jornada_al_inicio (t : datetime) (k : Z) :
  al_inicio t ->
  (inject_Z (1440 * day_of t + 60 * (hora_inicio_turno1 config + k) + 0) + subminute t) - t
  == inject_Z (60 * k).
Proof.
  intros (s & Hs0 & Hs1 & Ht).
  assert (Hfl : Qfloor t = (1440 * day_of t + 60 * hora_inicio_turno1 config)%Z).
  { apply Qfloor_unique.
    - lra.
    - rewrite inject_Z_plus. change (inject_Z 1) with 1. lra. }
  unfold subminute. rewrite Hfl.
  replace (1440 * day_of t + 60 * (hora_inicio_turno1 config + k) + 0)%Z
    with ((1440 * day_of t + 60 * hora_inicio_turno1 config) + 60 * k)%Z by lia.
  rewrite (inject_Z_plus _ (60 * k)). lra.
Qed.

(** Some worked weekday is at most six days ahead of any weekday. *)
Lemma dia_laborable_cercano (w : Z) :
  (0 <= w < 7)%Z ->
  exists j, (0 <= j <= 6)%Z /\ minutos_get config ((w + j) mod 7) <> 0%Z.
Proof.
  intros Hw. destruct Hvalido as (_ & _ & (w0 & Hw0 & Hwork)).
  exists ((w0 - w) mod 7)%Z. split.
  - pose proof (Z.mod_pos_bound (w0 - w) 7 ltac:(lia)). lia.
  - rewrite Zplus_mod_idemp_r.
    replace (w + (w0 - w))%Z with w0 by lia.
    rewrite Z.mod_small by lia. exact Hwork.
Qed.

(** From a day start, a duration of at most [60 * n] minutes is consumed
    with [7 * n + j + 1] units of fuel, [j] being the distance to a worked
    day. *)
Lemma consumir_minutos_al_inicio (fuel : nat) :
  forall (t d : Q) (n : nat) (j : Z),
    al_inicio t -> d <= inject_Z (60 * Z.of_nat n) ->
    (0 <= j <= 6)%Z -> minutos_get config ((weekday t + j) mod 7) <> 0%Z ->
    (7 * n + Z.to_nat j + 1 <= fuel)%nat ->
    exists t', consumir_minutos config fuel t d = Ok t'.
Proof.
  induction fuel as [|fuel IH]; intros t d n j Hini Hd Hj Hwork Hfuel; [lia|].
  cbn [consumir_minutos].
  destruct (Qltb 0 d) eqn:Hpos; [|eexists; reflexivity].
  apply Qltb_lt in Hpos.
  pose proof (weekday_bounds t) as Hwd.
  destruct (inicio_dia_siguiente_Ok t) as (t1 & Ht1 & Hini1 & Hwd1).
  destruct (minutos_get config (weekday t) =? 0)%Z eqn:Ehoy.
  - apply Z.eqb_eq in Ehoy.
    assert (Hj1 : (1 <= j)%Z).
    { destruct (Z.eq_dec j 0%Z) as [Hj0|Hj0]; [|lia].
      subst j. rewrite Z.add_0_r, Z.mod_small in Hwork by lia. contradiction. }
    rewrite Ht1. cbn [mbind res_bind Py.bind].
    apply (IH t1 d n (j - 1)%Z); try assumption; try lia.
    rewrite Hwd1, Zplus_mod_idemp_l.
    replace (weekday t + 1 + (j - 1))%Z with (weekday t + j)%Z by lia. exact Hwork.
  - apply Z.eqb_neq in Ehoy.
    destruct Hvalido as (_ & Hdias & _).
    destruct (Hdias (weekday t) Hwd) as [Hzero|(k & Hk & Hm & Hend)]; [contradiction|].
    pose proof (fin_jornada_Ok t k Hk Hend Hm) as Hfin.
    pose proof (fin_jornada_al_inicio t k Hini) as Hdisp.
    cbv zeta in Hfin. rewrite Hfin. cbn [mbind res_bind Py.bind].
    unfold minutes_between.
    set (fin := inject_Z (1440 * day_of t + 60 * (hora_inicio_turno1 config + k) + 0)
                + subminute t) in *.
    assert (Hk60 : 60 <= inject_Z (60 * k)).
    { change 60 with (inject_Z 60). rewrite <- Zle_Qle. lia. }
    destruct (py_max_cases 0 (fin - t)) as [[_ Hmax]|[Hneg _]]; [|lra].
    rewrite Hmax.
    destruct (Qle_bool d (fin - t)) eqn:Hfit.
    + destruct fuel; eexists; reflexivity.
    + apply Qle_bool_gt in Hfit.
      rewrite Ht1. cbn [mbind res_bind Py.bind].
      destruct (dia_laborable_cercano (weekday t1) (weekday_bounds t1)) as (j1 & Hj1 & Hw1).
      assert (Hn : (1 <= n)%nat).
      { destruct n; [|lia]. change (inject_Z (60 * Z.of_nat 0)) with 0 in Hd. lra. }
      apply (IH t1 (d - (fin - t)) (n - 1)%nat j1); try assumption; try lia.
      assert (Hsplit : inject_Z (60 * Z.of_nat n)
                       == inject_Z (60 * Z.of_nat (n - 1)) + inject_Z 60).
      { rewrite <- inject_Z_plus. apply inject_Z_injective. lia. }
      change (inject_Z 60) with 60 in Hsplit. lra.
Qed.

End Total.

(** A valid calendar has no day of 1440 minutes. *)
Lemma calendario_valido_no_24_7 (config : PlannerConfig) :
  calendario_valido config -> trabaja_24_7 config = false.
Proof.
  intros (Hh & Hdias & _).
  destruct (trabaja_24_7 config) eqn:E; [|reflexivity].
  exfalso. pose proof (proj1 (CalendarTable.trabaja_24_7_iff config) E 0%Z ltac:(lia)) as H0.
  destruct (Hdias 0%Z ltac:(lia)) as [Hz|(k & Hk & Hm & Hend)]; lia.
Qed.

(** The loop ends, on a valid calendar, for a duration of at most
    [60 * n] minutes once the fuel reaches [7 * n + 8]. *)
Lemma consumir_minutos_termina (config : PlannerConfig) (t d : Q) (n fuel : nat) :
  calendario_valido config ->
  d <= inject_Z (60 * Z.of_nat n) ->
  (7 * n + 8 <= fuel)%nat ->
  exists t', consumir_minutos config fuel t d = Ok t'.
Proof.
  intros Hvalido Hd Hfuel.
  destruct fuel as [|fuel]; [lia|].
  cbn [consumir_minutos].
  destruct (Qltb 0 d) eqn:Hpos; [|eexists; reflexivity].
  pose proof (weekday_bounds t) as Hwd.
  destruct (inicio_dia_siguiente_Ok config Hvalido t) as (t1 & Ht1 & Hini1 & Hwd1).
  destruct (dia_laborable_cercano config Hvalido (weekday t1) (weekday_bounds t1))
    as (j1 & Hj1 & Hw1).
  destruct (minutos_get config (weekday t) =? 0)%Z eqn:Ehoy.
  - rewrite Ht1. cbn [mbind res_bind Py.bind].
    apply (consumir_minutos_al_inicio config Hvalido fuel t1 d n j1); try assumption; lia.
  - apply Z.eqb_neq in Ehoy.
    pose proof Hvalido as (Hh & Hdias & Hsome).
    destruct (Hdias (weekday t) Hwd) as [Hzero|(k & Hk & Hm & Hend)]; [contradiction|].
    pose proof (fin_jornada_Ok config Hvalido t k Hk Hend Hm) as Hfin.
    cbv zeta in Hfin. rewrite Hfin. cbn [mbind res_bind Py.bind].
    match goal with
    | |- context [Qle_bool d ?disp] => destruct (Qle_bool d disp) eqn:Hfit
    end.
    + destruct fuel; eexists; reflexivity.
    + rewrite Ht1. cbn [mbind res_bind Py.bind].
      apply (consumir_minutos_al_inicio config Hvalido fuel t1 _ n j1);
        try assumption; try lia.
      match goal with
      | |- d - py_max 0 ?x <= _ => pose proof (py_max_ge_l 0 x)
      end.
      lra.
Qed.

Lemma inicio_dia_siguiente_day_of (config : PlannerConfig) (t t1 : datetime) :
  inicio_dia_siguiente config t = Ok t1 -> day_of t1 = (day_of t + 1)%Z.
Proof.
  unfold inicio_dia_siguiente. intros H.
  apply replace_hour_minute_in_day in H as [Hlo Hhi].
  rewrite day_of_plus_one_day in Hlo, Hhi. apply day_of_unique; assumption.
Qed.

(** Each iteration of the loop stays on the day of the running date or
    moves to the next one. *)
Lemma consumir_minutos_dias (config : PlannerConfig) (fuel : nat) :
  forall (t d t' : datetime),
    consumir_minutos config fuel t d = Ok t' ->
    (day_of t <= day_of t' <= day_of t + Z.of_nat fuel)%Z.
Proof.
  induction fuel as [|fuel IH]; intros t d t' H; cbn [consumir_minutos] in H;
    destruct (Qltb 0 d) eqn:Hd;
    try (injection H as <-; lia);
    try discriminate.
  apply Qltb_lt in Hd.
  pose proof (day_of_bounds t) as [Hlo Hhi].
  destruct (minutos_get config (weekday t) =? 0)%Z.
  - destruct (inicio_dia_siguiente config t) as [t1| |] eqn:E1; try discriminate.
    apply inicio_dia_siguiente_day_of in E1. cbn [mbind res_bind Py.bind] in H.
    apply IH in H. lia.
  - match type of H with
    | context [replace_hour_minute t ?h ?m] =>
        destruct (replace_hour_minute t h m) as [fin| |] eqn:Efin; try discriminate
    end.
    apply replace_hour_minute_in_day in Efin as [_ Hfin].
    cbn [mbind res_bind Py.bind] in H. unfold minutes_between in H.
    destruct (Qle_bool d (py_max 0 (fin - t))) eqn:Hfit.
    + rewrite CalendarProps.consumir_minutos_zero in H. injection H as <-.
      apply Qle_bool_iff in Hfit.
      assert (Hday : day_of (plus_minutes t d) = day_of t).
      { apply day_of_unique; unfold plus_minutes; [lra|].
        destruct (py_max_cases 0 (fin - t)) as [[_ Hm]|[_ Hm]]; rewrite Hm in Hfit; lra. }
      rewrite Hday. lia.
    + destruct (inicio_dia_siguiente config t) as [t1| |] eqn:E1; try discriminate.
      apply inicio_dia_siguiente_day_of in E1. cbn [mbind res_bind Py.bind] in H.
      apply IH in H. lia.
Qed.

(** A result of the loop does not depend on the fuel that is left over. *)
Lemma consumir_minutos_mas_fuel (config : PlannerConfig) (fuel : nat) :
  forall (t d t' : datetime) (fuel' : nat),
    consumir_minutos config fuel t d = Ok t' -> (fuel <= fuel')%nat ->
    consumir_minutos config fuel' t d = Ok t'.
Proof.
  induction fuel as [|fuel IH]; intros t d t' fuel' H Hle.
  - cbn [consumir_minutos] in H. destruct (Qltb 0 d) eqn:Hd; [discriminate H|].
    destruct fuel'; cbn [consumir_minutos]; rewrite Hd; exact H.
  - destruct fuel' as [|fuel']; [lia|].
    cbn [consumir_minutos] in H |- *.
    destruct (Qltb 0 d) eqn:Hd; [|exact H].
    destruct (minutos_get config (weekday t) =? 0)%Z.
    + destruct (inicio_dia_siguiente config t) as [t1| |]; try discriminate.
      cbn [mbind res_bind Py.bind] in H |- *. apply IH; [exact H|lia].
    + match type of H with
      | context [replace_hour_minute t ?h ?m] =>
          destruct (replace_hour_minute t h m) as [fin| |]; try discriminate
      end.
      cbn [mbind res_bind Py.bind] in H |- *.
      destruct (Qle_bool d (py_max 0 (minutes_between fin t))).
      * apply IH; [exact H|lia].
      * destruct (inicio_dia_siguiente config t) as [t1| |]; try discriminate.
        cbn [mbind res_bind Py.bind] in H |- *. apply IH; [exact H|lia].
Qed.

Lemma consumir_minutos_no_positivo (config : PlannerConfig) (fuel : nat) (t d : datetime) :
  d <= 0 -> consumir_minutos config fuel t d = Ok t.
Proof.
  intros Hd. apply Qltb_ge in Hd. destruct fuel; cbn [consumir_minutos]; rewrite Hd; reflexivity.
Qed.

(** A date that is not negative and lies before 9999-12-31 is in range. *)
Lemma en_rango_antes_del_ultimo_dia (t : datetime) :
  0 <= t -> (day_of t < dia_maximo)%Z -> en_rango t.
Proof.
  intros H0 Hday. split; [exact H0|].
  destruct (day_of_bounds t) as [_ Hhi].
  assert (Hle : inject_Z (1440 * (day_of t + 1)) <= inject_Z (1440 * dia_maximo))
    by (rewrite <- Zle_Qle; lia).
  assert (Hmax : inject_Z (1440 * dia_maximo) <= datetime_max)
    by (vm_compute; discriminate).
  lra.
Qed.

(** X3. Under a valid calendar (day-start hour in 0..23, every worked day a
    whole number of hours ending by 23:00, some day worked), for a start
    that a [datetime] can hold and lies at least [7 * n + 9] days before
    9999-12-31, the advance returns a timestamp for every duration of at
    most [60 * n] minutes once the fuel reaches [7 * n + 8]: the loop of
    [_ajustar_horario_laboral] ends, and raises no hour-out-of-range
    error.  The timestamp is not before the start and at most
    [7 * n + 8] days after its day, so it is in the range of
    [datetime]. *)
Theorem advance_terminates (config : PlannerConfig) (t d : Q) (n fuel : nat) :
  calendario_valido config ->
  en_rango t ->
  d <= inject_Z (60 * Z.of_nat n) ->
  (day_of t + Z.of_nat (7 * n + 9) <= dia_maximo)%Z ->
  (7 * n + 8 <= fuel)%nat ->
  exists t',
    _ajustar_horario_laboral config fuel t d = Ok t' /\
    t <= t' /\
    (day_of t <= day_of t' <= day_of t + Z.of_nat (7 * n + 8))%Z /\
    en_rango t'.
Proof.
  intros Hvalido [Ht0 Htmax] Hd Hdias Hfuel. unfold _ajustar_horario_laboral.
  rewrite (calendario_valido_no_24_7 config Hvalido).
  destruct (consumir_minutos_termina config t d n (7 * n + 8) Hvalido Hd (le_n _))
    as [t' Hok].
  pose proof (consumir_minutos_dias config _ t d t' Hok) as Hdays.
  assert (Hle : t <= t').
  { destruct (Qlt_le_dec 0 d) as [Hpos|Hneg].
    - pose proof (CalendarProps.consumir_minutos_lower_bound config _ t d t' Hok). lra.
    - rewrite (consumir_minutos_no_positivo config _ t d Hneg) in Hok.
      injection Hok as <-. lra. }
  exists t'. split; [exact (consumir_minutos_mas_fuel config _ t d t' fuel Hok Hfuel)|].
  split; [exact Hle|]. split; [exact Hdays|].
  apply en_rango_antes_del_ultimo_dia; [lra|lia].
Qed.

Lemma advance_terminates_witness :
  exists t', _ajustar_horario_laboral PlannerConfig_default 15 (at_day Ejemplos.lunes 16 30) 60
             = Ok t' /\ t' == at_day (Ejemplos.lunes + 1) 7 30 /\ en_rango t'.
Proof.
  destruct (advance_terminates PlannerConfig_default (at_day Ejemplos.lunes 16 30) 60 1 15)
    as (t' & Hok & _ & _ & Hrango).
  - split; [vm_compute; split; discriminate|]. split.
    + intros w Hw. rewrite CalendarTable.minutos_get_valor.
      assert (Hcases : (w = 0 \/ w = 1 \/ w = 2 \/ w = 3 \/ w = 4 \/ w = 5 \/ w = 6)%Z)
        by lia.
      destruct Hcases as [->|[->|[->|[->|[->|[->| ->]]]]]];
        first [ left; vm_compute; reflexivity
              | right; exists 10%Z; vm_compute; repeat split; discriminate
              | right; exists 16%Z; vm_compute; repeat split; discriminate ].
    + exists 0%Z. split; [lia|]. vm_compute. discriminate.
  - split; vm_compute; discriminate.
  - vm_compute. discriminate.
  - vm_compute. discriminate.
  - lia.
  - exists t'. split; [exact Hok|]. split; [|exact Hrango].
    vm_compute in Hok. injection Hok as <-. reflexivity.
Defined.

End CalendarTotal.

(** ** The dates of a sequence *)

Module DateSequenceProps.

Import Calculators PyFacts DatetimeFacts.

Lemma _ajustar_horario_laboral_lower_bound (config : PlannerConfig) (fuel : nat)
  (t d t' : Q) :
  _ajustar_horario_laboral config fuel t d = Ok t' -> t + d <= t'.
Proof.
  unfold _ajustar_horario_laboral. destruct (trabaja_24_7 config).
  - intros Hok. injection Hok as <-. unfold plus_minutes. lra.
  - apply CalendarProps.consumir_minutos_lower_bound.
Qed.

Lemma Qdiv_nonneg (a b : Q) : 0 <= a -> 0 < b -> 0 <= a / b.
Proof.
  intros Ha Hb. unfold Qdiv. apply Qmult_le_0_compat; [exact Ha|].
  apply Qlt_le_weak, Qinv_lt_0_compat. exact Hb.
Qed.

Lemma tiempo_impresion_real_nonneg (config : PlannerConfig) (machine : MachineModel)
  (o : SchedulableOrderModel) (real : Q) :
  0 < eficiencia_maquina config -> 0 <= total_metros_impresion o ->
  tiempo_impresion_real config machine o = Ok real -> 0 <= real.
Proof.
  intros Hef Hm. unfold tiempo_impresion_real, tiempo_impresion_teorico.
  assert (Hmetros : 0 <= or_Q (total_metros_impresion o) 0).
  { unfold or_Q. destruct (Qeq_bool (total_metros_impresion o) 0); lra. }
  set (v := or_Q (avg_velocity machine) 150 / 60).
  assert (Hteo : forall teo,
            (if Qltb 0 v then py_div (or_Q (total_metros_impresion o) 0) v else Ok 0) = Ok teo ->
            0 <= teo).
  { intros teo. destruct (Qltb 0 v) eqn:Ev.
    - apply Qltb_lt in Ev. unfold py_div. destruct (Qeq_bool v 0); [discriminate|].
      intros Hteo. injection Hteo as <-. apply Qdiv_nonneg; assumption.
    - intros Hteo. injection Hteo as <-. lra. }
  destruct (if Qltb 0 v then py_div (or_Q (total_metros_impresion o) 0) v else Ok 0)
    as [teo| |]; try discriminate.
  cbn [mbind res_bind Py.bind]. unfold py_div.
  destruct (Qeq_bool (eficiencia_maquina config) 0); [discriminate|].
  intros Hreal. injection Hreal as <-. apply Qdiv_nonneg; [apply Hteo; reflexivity|exact Hef].
Qed.

Lemma calcular_orden_later (config : PlannerConfig) (fuel : nat)
  (ordenes : list SchedulableOrderModel) (machine : MachineModel) (i : nat)
  (o : SchedulableOrderModel) (fecha : datetime) (r : orden_con_fecha) (fecha' : datetime) :
  0 < eficiencia_maquina config -> 0 <= buffer_seguridad_pct config ->
  0 <= total_metros_impresion o ->
  calcular_orden config fuel ordenes machine i o fecha = Ok (r, fecha') ->
  probable_fecha_entrega r = fecha' /\ fecha <= fecha'.
Proof.
  intros Hef Hbuf Hm Hpaso.
  destruct (DateCalculatorProps.calcular_orden_total _ _ _ _ _ _ _ _ _ Hpaso)
    as (real & Hreal & _ & _ & _ & Hadv).
  split.
  - revert Hpaso. unfold calcular_orden.
    match goal with
    | |- (?c ≫= _) = _ -> _ => destruct c as [setup| |]; try discriminate
    end.
    cbn [mbind res_bind Py.bind]. rewrite Hreal. cbn [mbind res_bind Py.bind].
    rewrite Hadv. cbn [mbind res_bind Py.bind].
    intros Hok. injection Hok as <-. reflexivity.
  - pose proof (tiempo_impresion_real_nonneg config machine o real Hef Hm Hreal) as Hr.
    apply _ajustar_horario_laboral_lower_bound in Hadv.
    assert (0 <= real * buffer_seguridad_pct config) by (apply Qmult_le_0_compat; assumption).
    lra.
Qed.

Lemma recorrer_ordenes_Sorted (config : PlannerConfig) (fuel : nat)
  (ordenes : list SchedulableOrderModel) (machine : MachineModel)
  (pendientes : list SchedulableOrderModel) :
  0 < eficiencia_maquina config -> 0 <= buffer_seguridad_pct config ->
  Forall (fun o => 0 <= total_metros_impresion o) pendientes ->
  forall (i : nat) (fecha : datetime) (rs : list orden_con_fecha),
    recorrer_ordenes config fuel ordenes machine i pendientes fecha = Ok rs ->
    Sorted Qle (fecha :: (probable_fecha_entrega <$> rs)).
Proof.
  intros Hef Hbuf. induction pendientes as [|o pendientes IH]; intros Hm i fecha rs Hrec.
  - cbn in Hrec. injection Hrec as <-. repeat constructor.
  - apply Forall_cons in Hm as [Ho Hm]. cbn [recorrer_ordenes] in Hrec.
    destruct (calcular_orden config fuel ordenes machine i o fecha) as [[r fecha']| |] eqn:E;
      try discriminate Hrec.
    cbn [mbind res_bind Py.bind fst snd] in Hrec.
    destruct (recorrer_ordenes config fuel ordenes machine (S i) pendientes fecha')
      as [rest| |] eqn:Erest; try discriminate Hrec.
    cbn [mbind res_bind Py.bind] in Hrec. injection Hrec as <-.
    destruct (calcular_orden_later _ _ _ _ _ _ _ _ _ Hef Hbuf Ho E) as [Hr Hle].
    rewrite fmap_cons, Hr. constructor.
    + apply (IH Hm (S i) fecha' rest Erest).
    + constructor. exact Hle.
Qed.

(** X4. With a positive efficiency, a non-negative buffer fraction and
    non-negative meters, the probable delivery dates that
    [calcular_fechas_probables] returns never go back: the first is at or
    after the start date and each one is at or after the one before; there
    is one record per order, in the order given. *)
Theorem fechas_probables_non_decreasing (config : PlannerConfig) (fuel : nat)
  (ordenes : list SchedulableOrderModel) (fecha_inicio : datetime) (machine : MachineModel)
  (rs : list orden_con_fecha) :
  0 < eficiencia_maquina config -> 0 <= buffer_seguridad_pct config ->
  Forall (fun o => 0 <= total_metros_impresion o) ordenes ->
  calcular_fechas_probables config fuel ordenes fecha_inicio machine = Ok rs ->
  orden <$> rs = ordenes /\
  Sorted Qle (fecha_inicio :: (probable_fecha_entrega <$> rs)).
Proof.
  intros Hef Hbuf Hm Hok. split.
  - exact (ScheduleProps.calcular_fechas_probables_orden fuel config ordenes fecha_inicio
             machine rs Hok).
  - unfold calcular_fechas_probables in Hok.
    exact (recorrer_ordenes_Sorted config fuel ordenes machine ordenes Hef Hbuf Hm
             0%nat fecha_inicio rs Hok).
Qed.

Lemma fechas_probables_non_decreasing_witness :
  exists rs,
    calcular_fechas_probables PlannerConfig_default 40 [Ejemplos.orden_A; Ejemplos.orden_B]
      (at_day Ejemplos.lunes 8 0) Ejemplos.maquina_1 = Ok rs /\
    Sorted Qle (at_day Ejemplos.lunes 8 0 :: (probable_fecha_entrega <$> rs)).
Proof.
  destruct (calcular_fechas_probables PlannerConfig_default 40
              [Ejemplos.orden_A; Ejemplos.orden_B] (at_day Ejemplos.lunes 8 0)
              Ejemplos.maquina_1) as [rs| |] eqn:E; [|vm_compute in E; discriminate..].
  exists rs. split; [reflexivity|].
  apply (fechas_probables_non_decreasing PlannerConfig_default 40
           [Ejemplos.orden_A; Ejemplos.orden_B] (at_day Ejemplos.lunes 8 0)
           Ejemplos.maquina_1 rs).
  - reflexivity.
  - vm_compute. discriminate.
  - repeat constructor; vm_compute; discriminate.
  - exact E.
Defined.

End DateSequenceProps.

(** ** The sequencer built from a list of orders *)

Module SequencerProps.

Import Optimizer.

Lemma enriquecer_keys (ordenes : list SchedulableOrderModel) :
  forall (acc dict : gmap Z EnrichedOrder.t),
    enriquecer ordenes acc = Ok dict ->
    (forall k, is_Some (acc !! k) -> is_Some (dict !! k)) /\
    (forall o, o ∈ ordenes -> is_Some (dict !! id o)).
Proof.
  induction ordenes as [|x ordenes IH]; intros acc dict Henr; cbn [enriquecer] in Henr.
  - injection Henr as <-. split; [auto|]. intros o Ho. inversion Ho.
  - destruct (EnrichedOrder.__init__ x) as [e| |]; try discriminate Henr.
    cbn [mbind res_bind Py.bind] in Henr.
    destruct (IH _ _ Henr) as [Hacc Hin]. split.
    + intros k Hk. apply Hacc.
      destruct (decide (id x = k)) as [<-|Hne].
      * rewrite lookup_insert_eq. eauto.
      * rewrite lookup_insert_ne by exact Hne. exact Hk.
    + intros o Ho. apply elem_of_cons in Ho as [->|Ho].
      * apply Hacc. rewrite lookup_insert_eq. eauto.
      * apply Hin. exact Ho.
Qed.

Lemma __init___Ok (ordenes : list SchedulableOrderModel) (maquina_info : MachineModel)
  (ag : AlgoritmoGeneticoFlexo) :
  Optimizer.__init__ ordenes maquina_info = Ok ag ->
  idx_to_order_id ag = id <$> ordenes /\
  maquina ag = maquina_info /\
  (forall k, k ∈ idx_to_order_id ag -> is_Some (ordenes_dict ag !! k)).
Proof.
  unfold Optimizer.__init__. intros Hinit.
  destruct (enriquecer ordenes ∅) as [dict| |] eqn:Edict; try discriminate Hinit.
  cbn [mbind res_bind Py.bind] in Hinit. injection Hinit as <-.
  cbn [idx_to_order_id maquina ordenes_dict].
  split; [reflexivity|]. split; [reflexivity|].
  intros k Hk. apply list_elem_of_fmap in Hk as (o & -> & Ho).
  apply (proj2 (enriquecer_keys _ _ _ Edict)). exact Ho.
Qed.

Section Fitness.

Variable ag : AlgoritmoGeneticoFlexo.
Hypothesis Hkeys : forall k, k ∈ idx_to_order_id ag -> is_Some (ordenes_dict ag !! k).

Let en_rango (idx : nat) : Prop := (idx < length (idx_to_order_id ag))%nat.





End Fitness.



Lemma fmap_lookup_seq {A : Type} (d : A) (l : list A) :
  (fun i => default d (l !! i)) <$> seq 0 (length l) = l.
Proof.
  apply list_eq. intros i. rewrite list_lookup_fmap.
  destruct (decide (i < length l)%nat) as [Hlt|Hge].
  - rewrite lookup_seq_lt by exact Hlt. cbn.
    destruct (lookup_lt_is_Some_2 _ _ Hlt) as [x Hx]. rewrite Hx. reflexivity.
  - rewrite lookup_seq_ge by lia. rewrite (proj2 (lookup_ge_None _ _)) by lia. reflexivity.
Qed.

Lemma traducir_indices_fmap (self : AlgoritmoGeneticoFlexo) (indices : list nat) :
  Forall (fun idx => (idx < length (idx_to_order_id self))%nat) indices ->
  traducir_indices self indices
  = Ok ((fun i => default 0%Z (idx_to_order_id self !! i)) <$> indices).
Proof.
  induction indices as [|idx indices IH]; intros Hall; [reflexivity|].
  apply Forall_cons in Hall as [Hidx Hall]. cbn [traducir_indices].
  destruct (lookup_lt_is_Some_2 _ _ Hidx) as [k Hk]. rewrite Hk, (IH Hall).
  cbn [mbind res_bind Py.bind]. rewrite fmap_cons, Hk. reflexivity.
Qed.

(** A hall of fame that is a permutation of the indices is translated
    into a permutation of the ids. *)
Lemma optimizar_Ok_Permutation
  (hall_of_fame : AlgoritmoGeneticoFlexo -> nat -> nat -> list nat)
  (ordenes : list SchedulableOrderModel) (maquina_info : MachineModel)
  (ag : AlgoritmoGeneticoFlexo) (poblacion_size generaciones : nat) :
  Optimizer.__init__ ordenes maquina_info = Ok ag ->
  hall_of_fame ag poblacion_size generaciones ≡ₚ seq 0 (length ordenes) ->
  exists ids, optimizar hall_of_fame ag poblacion_size generaciones = Ok ids /\
              ids ≡ₚ id <$> ordenes.
Proof.
  intros Hinit Hperm. destruct (__init___Ok _ _ _ Hinit) as (Hids & _ & Hkeys).
  assert (Hlen : length (idx_to_order_id ag) = length ordenes)
    by (rewrite Hids; apply length_fmap).
  unfold optimizar. case_bool_decide as Hempty.
  - destruct ordenes as [|o ordenes].
    + exists []. split; reflexivity.
    + exfalso. destruct (Hkeys (id o)) as [e He].
      { rewrite Hids. left. }
      rewrite Hempty, lookup_empty in He. discriminate He.
  - rewrite traducir_indices_fmap.
    + eexists. split; [reflexivity|].
      rewrite Hperm, <- Hlen, fmap_lookup_seq, Hids. reflexivity.
    + rewrite Hperm, Hlen. apply Forall_forall. intros i Hi.
      apply elem_of_seq in Hi. lia.
Qed.

Lemma traducir_indices_Forall2 (self : AlgoritmoGeneticoFlexo) (indices : list nat)
  (ids : list Z) :
  traducir_indices self indices = Ok ids ->
  Forall2 (fun idx k => idx_to_order_id self !! idx = Some k) indices ids.
Proof.
  revert ids. induction indices as [|idx indices IH]; intros ids; cbn [traducir_indices].
  - intros Hids. injection Hids as <-. constructor.
  - destruct (idx_to_order_id self !! idx) as [k|] eqn:Ek; [|discriminate].
    destruct (traducir_indices self indices) as [rest| |]; try discriminate.
    cbn [mbind res_bind Py.bind]. intros Hids. injection Hids as <-.
    constructor; [exact Ek|]. apply IH. reflexivity.
Qed.

(** What [optimizar] returns for a list of orders that is not empty is
    the hall of fame read through the list of ids: position by position,
    the id at the index the search chose. *)
Lemma optimizar_Ok_Forall2
  (hall_of_fame : AlgoritmoGeneticoFlexo -> nat -> nat -> list nat)
  (ordenes : list SchedulableOrderModel) (maquina_info : MachineModel)
  (ag : AlgoritmoGeneticoFlexo) (poblacion_size generaciones : nat) (ids : list Z) :
  Optimizer.__init__ ordenes maquina_info = Ok ag ->
  ordenes <> [] ->
  optimizar hall_of_fame ag poblacion_size generaciones = Ok ids ->
  Forall2 (fun idx k => (id <$> ordenes) !! idx = Some k)
    (hall_of_fame ag poblacion_size generaciones) ids.
Proof.
  intros Hinit Hne. destruct (__init___Ok _ _ _ Hinit) as (Hids & _ & Hkeys).
  unfold optimizar. case_bool_decide as Hempty.
  - exfalso. destruct ordenes as [|o ordenes]; [contradiction|].
    destruct (Hkeys (id o)) as [e He].
    { rewrite Hids. left. }
    rewrite Hempty, lookup_empty in He. discriminate He.
  - intros Hok. apply traducir_indices_Forall2 in Hok. rewrite Hids in Hok. exact Hok.
Qed.

(** X6. For a sequencer built by [__init__]: when the individual left in
    the hall of fame is a permutation of the indices 0..N-1, [optimizar]
    returns a permutation of the ids of the orders given; and for an empty
    list of orders it returns the empty sequence whatever the search
    would return. *)
Theorem optimizar_permutation
  (hall_of_fame : AlgoritmoGeneticoFlexo -> nat -> nat -> list nat)
  (ordenes : list SchedulableOrderModel) (maquina_info : MachineModel)
  (ag : AlgoritmoGeneticoFlexo) (poblacion_size generaciones : nat) :
  Optimizer.__init__ ordenes maquina_info = Ok ag ->
  (hall_of_fame ag poblacion_size generaciones ≡ₚ seq 0 (length ordenes) ->
   exists ids, optimizar hall_of_fame ag poblacion_size generaciones = Ok ids /\
               ids ≡ₚ id <$> ordenes) /\
  (ordenes = [] -> optimizar hall_of_fame ag poblacion_size generaciones = Ok []).
Proof.
  intros Hinit. split.
  - intros Hperm. eapply optimizar_Ok_Permutation; eauto.
  - intros ->. unfold Optimizer.__init__ in Hinit. cbn in Hinit. injection Hinit as <-.
    reflexivity.
Qed.

Lemma optimizar_permutation_witness :
  exists ids, optimizar Ejemplos.hall_of_fame_inverso Ejemplos.ag_AB 100 200 = Ok ids /\
              ids ≡ₚ id <$> [Ejemplos.orden_A; Ejemplos.orden_B].
Proof.
  apply (proj1 (optimizar_permutation Ejemplos.hall_of_fame_inverso
                  [Ejemplos.orden_A; Ejemplos.orden_B] Ejemplos.maquina_1 Ejemplos.ag_AB
                  100 200 ltac:(vm_compute; reflexivity))).
  vm_compute. apply perm_swap.
Defined.

End SequencerProps.

(** ** What a schedule contains *)

Module ScheduleContents.

Import Calculators Optimizer SchedulingService.

Lemma forzosas_optimizables_Permutation (orders : list SchedulableOrderModel) :
  (snd <$> con_fecha_forzosa orders) ++ ordenes_optimizables orders ≡ₚ orders.
Proof.
  unfold con_fecha_forzosa, ordenes_optimizables.
  induction orders as [|o orders IH]; [reflexivity|].
  cbn [omap list_omap]. rewrite filter_cons.
  destruct (fecha_forzosa_entrega o) as [fecha|] eqn:Ef.
  - rewrite decide_False by discriminate. cbn [fmap list_fmap snd app].
    constructor. exact IH.
  - rewrite decide_True by reflexivity.
    rewrite <- Permutation_middle. constructor. exact IH.
Qed.

Lemma ordenes_forzosas_optimizables (orders : list SchedulableOrderModel) :
  ordenes_forzosas orders ++ ordenes_optimizables orders ≡ₚ orders.
Proof.
  unfold ordenes_forzosas.
  rewrite (ScheduleProps.sorted_by_key_Permutation (con_fecha_forzosa orders)).
  apply forzosas_optimizables_Permutation.
Qed.

Lemma buscar_ordenes_ids (dict : gmap Z SchedulableOrderModel)
  (secuencia : list (Z * string)) :
  (forall k o, dict !! k = Some o -> id o = k) ->
  forall objs, buscar_ordenes dict secuencia = Ok objs -> id <$> objs = fst <$> secuencia.
Proof.
  intros Hdict. induction secuencia as [|[k r] secuencia IH]; intros objs Hb.
  - cbn in Hb. injection Hb as <-. reflexivity.
  - apply ScheduleProps.buscar_ordenes_cons in Hb as (o & rest & Hk & Hrest & ->).
    rewrite !fmap_cons. cbn [fst]. f_equal; [exact (Hdict k o Hk)|exact (IH rest Hrest)].
Qed.

Section Servicio.

Variable hall_of_fame : AlgoritmoGeneticoFlexo -> nat -> nat -> list nat.
Variable fuel : nat.

Hypothesis Hperm :
  forall ag p g, hall_of_fame ag p g ≡ₚ seq 0 (length (idx_to_order_id ag)).

Lemma secuencia_optimizada_ids_Permutation (orders : list SchedulableOrderModel)
  (machine_info : MachineModel) (ids : list Z) :
  secuencia_optimizada_ids hall_of_fame orders machine_info = Ok ids ->
  ids ≡ₚ id <$> ordenes_optimizables orders.
Proof.
  unfold secuencia_optimizada_ids.
  destruct (entrada_del_genetico orders) as [optimizables|] eqn:Eent.
  - unfold entrada_del_genetico in Eent.
    destruct (2 <=? length (ordenes_optimizables orders))%nat; [|discriminate Eent].
    injection Eent as <-.
    destruct (Optimizer.__init__ (ordenes_optimizables orders) machine_info)
      as [ag| |] eqn:Einit; try (intros Hraise; discriminate Hraise).
    cbn [mbind res_bind Py.bind]. intros Hopt.
    assert (Hh : hall_of_fame ag 100 200 ≡ₚ seq 0 (length (ordenes_optimizables orders))).
    { rewrite Hperm. destruct (SequencerProps.__init___Ok _ _ _ Einit) as (-> & _ & _).
      rewrite length_fmap. reflexivity. }
    destruct (SequencerProps.optimizar_Ok_Permutation hall_of_fame _ _ ag 100 200 Einit Hh)
      as (ids' & Hids' & Hp).
    rewrite Hids' in Hopt. injection Hopt as <-. exact Hp.
  - intros Hok. injection Hok as <-. reflexivity.
Qed.

Lemma planificar_Permutation (razon : string) (machine_id : Z)
  (orders : list SchedulableOrderModel) (machine_info : MachineModel) (now : datetime)
  (filas : list fila) :
  planificar hall_of_fame fuel razon machine_id orders machine_info now = Ok filas ->
  order_id <$> filas ≡ₚ id <$> orders /\
  order_production <$> filas = seqZ 1 (Z.of_nat (length orders)) /\
  Forall (fun f => fila_machine_id f = machine_id) filas.
Proof.
  intros Hplan. unfold planificar in Hplan.
  destruct (secuencia_final_con_razon hall_of_fame razon orders machine_info)
    as [secuencia| |] eqn:Esec; try discriminate Hplan.
  cbn [mbind res_bind Py.bind] in Hplan.
  destruct (buscar_ordenes (orders_dict orders) secuencia) as [objs| |] eqn:Eobjs;
    try discriminate Hplan.
  cbn [mbind res_bind Py.bind] in Hplan.
  destruct (calcular_fechas_probables planner_config fuel objs now machine_info)
    as [rs| |] eqn:Ers; try discriminate Hplan.
  cbn [mbind res_bind Py.bind] in Hplan. injection Hplan as <-.
  pose proof (ScheduleProps.calcular_fechas_probables_orden fuel planner_config objs now
                machine_info rs Ers) as Hrs.
  destruct (ScheduleProps.filas_desde_spec machine_id secuencia rs 1) as [Hids Hrank].
  assert (Hobjs : id <$> objs = fst <$> secuencia).
  { apply (buscar_ordenes_ids (orders_dict orders)); [|exact Eobjs].
    intros k o Hk. apply ScheduleProps.orders_dict_lookup in Hk. tauto. }
  assert (Hsec : fst <$> secuencia ≡ₚ id <$> orders).
  { unfold secuencia_final_con_razon in Esec.
    destruct (secuencia_optimizada_ids hall_of_fame orders machine_info) as [ids| |] eqn:Eids;
      try discriminate Esec.
    cbn [mbind res_bind Py.bind] in Esec. injection Esec as <-.
    assert (Hf : forall (r : string) (l : list SchedulableOrderModel),
              fst <$> ((fun o => (id o, r)) <$> l) = id <$> l).
    { intros r l. induction l as [|x l IHl]; [reflexivity|].
      rewrite !fmap_cons, IHl. reflexivity. }
    assert (Hg : forall l : list Z, fst <$> ((fun oid => (oid, razon)) <$> l) = l).
    { intros l. induction l as [|x l IHl]; [reflexivity|].
      rewrite !fmap_cons, IHl. reflexivity. }
    rewrite fmap_app, Hf, Hg.
    rewrite (secuencia_optimizada_ids_Permutation _ _ _ Eids).
    rewrite <- fmap_app. apply fmap_Permutation, ordenes_forzosas_optimizables. }
  assert (Hlen : length rs = length orders).
  { rewrite <- (length_fmap orden), Hrs, <- (length_fmap id), Hobjs, Hsec, length_fmap.
    reflexivity. }
  split; [|split].
  - rewrite Hids, Hrs, Hobjs. exact Hsec.
  - rewrite Hrank, Hlen. reflexivity.
  - clear. generalize 1%Z. induction rs as [|r rs IH]; intros i; cbn [filas_desde];
      constructor; [reflexivity|apply IH].
Qed.

End Servicio.

(** X7. When the search returns a permutation of the indices, the rows that
    [generate_optimal_schedule] writes list every order of the machine
    exactly once: their order ids are a permutation of the input ids, their
    ranks are 1, 2, ..., N and all carry the id of the machine. *)
Theorem schedule_lists_every_order
  (hall_of_fame : AlgoritmoGeneticoFlexo -> nat -> nat -> list nat) (fuel : nat)
  (machine_info : MachineModel) (orders : list SchedulableOrderModel) (now : datetime)
  (filas : list fila) :
  (forall ag p g, hall_of_fame ag p g ≡ₚ seq 0 (length (idx_to_order_id ag))) ->
  generate_optimal_schedule hall_of_fame fuel (Some machine_info) orders now = Some filas ->
  order_id <$> filas ≡ₚ id <$> orders /\
  order_production <$> filas = seqZ 1 (Z.of_nat (length orders)) /\
  Forall (fun f => fila_machine_id f = machine_id machine_info) filas.
Proof.
  intros Hperm Hgen. unfold generate_optimal_schedule in Hgen.
  destruct (bool_decide (estatus machine_info ≠ "activa")); [discriminate Hgen|].
  destruct (bool_decide (orders = [])); [discriminate Hgen|].
  match type of Hgen with
  | match ?c with _ => _ end = _ => destruct c as [filas'| |] eqn:Eplan; try discriminate Hgen
  end.
  injection Hgen as ->.
  exact (planificar_Permutation hall_of_fame fuel Hperm _ _ _ _ _ _ Eplan).
Qed.

Lemma schedule_lists_every_order_witness :
  exists filas,
    generate_optimal_schedule Ejemplos.hall_of_fame_inverso 0 (Some Ejemplos.maquina_1)
      [Ejemplos.orden_A; Ejemplos.orden_B; Ejemplos.orden_C] (at_day Ejemplos.lunes 8 0)
    = Some filas /\
    order_production <$> filas = [1; 2; 3]%Z.
Proof.
  destruct (generate_optimal_schedule Ejemplos.hall_of_fame_inverso 0 (Some Ejemplos.maquina_1)
              [Ejemplos.orden_A; Ejemplos.orden_B; Ejemplos.orden_C]
              (at_day Ejemplos.lunes 8 0)) as [filas|] eqn:E;
    [|vm_compute in E; discriminate].
  exists filas. split; [reflexivity|].
  refine (proj1 (proj2 (schedule_lists_every_order Ejemplos.hall_of_fame_inverso 0
                          Ejemplos.maquina_1 _ _ filas _ E))).
  intros ag p g. unfold Ejemplos.hall_of_fame_inverso. apply reverse_Permutation.
Defined.

(** X8. With at most one order without a forced date the genetic search is
    not run: the schedule written is the same whatever the search would
    return, for one machine and for each machine of the all-machines
    planner. *)
Theorem single_order_bypasses_search
  (h1 h2 : AlgoritmoGeneticoFlexo -> nat -> nat -> list nat) (fuel : nat)
  (orders : list SchedulableOrderModel) :
  (length (ordenes_optimizables orders) <= 1)%nat ->
  (forall machine_info now,
     generate_optimal_schedule h1 fuel machine_info orders now
     = generate_optimal_schedule h2 fuel machine_info orders now) /\
  (forall active_machines machine_id now,
     planificar_maquina h1 fuel active_machines machine_id orders now
     = planificar_maquina h2 fuel active_machines machine_id orders now).
Proof.
  intros Hlen.
  assert (Hids : forall m, secuencia_optimizada_ids h1 orders m
                           = secuencia_optimizada_ids h2 orders m).
  { intros m. unfold secuencia_optimizada_ids, entrada_del_genetico.
    destruct (2 <=? length (ordenes_optimizables orders))%nat eqn:E; [|reflexivity].
    apply Nat.leb_le in E. lia. }
  assert (Hplan : forall razon mid m now,
            planificar h1 fuel razon mid orders m now = planificar h2 fuel razon mid orders m now).
  { intros. unfold planificar, secuencia_final_con_razon. rewrite Hids. reflexivity. }
  split.
  - intros [machine_info|] now; [|reflexivity].
    unfold generate_optimal_schedule. rewrite Hplan. reflexivity.
  - intros active_machines machine_id now. unfold planificar_maquina.
    destruct (bool_decide (orders = [])); [reflexivity|].
    destruct (machines_dict_get active_machines machine_id); [|reflexivity].
    apply Hplan.
Qed.

Lemma single_order_bypasses_search_witness :
  generate_optimal_schedule Ejemplos.hall_of_fame_inverso 0 (Some Ejemplos.maquina_1)
    [Ejemplos.orden_A; Ejemplos.orden_C] (at_day Ejemplos.lunes 8 0)
  = generate_optimal_schedule (fun _ _ _ => []) 0 (Some Ejemplos.maquina_1)
      [Ejemplos.orden_A; Ejemplos.orden_C] (at_day Ejemplos.lunes 8 0).
Proof.
  apply (proj1 (single_order_bypasses_search Ejemplos.hall_of_fame_inverso (fun _ _ _ => []) 0
                  [Ejemplos.orden_A; Ejemplos.orden_C] ltac:(vm_compute; lia))).
Defined.

Lemma razon_de_elem (secuencia : list (Z * string)) (r : string) (k : Z) :
  Forall (fun p => p.2 = r) secuencia -> k ∈ fst <$> secuencia ->
  razon_de secuencia k = r.
Proof.
  induction secuencia as [|[pid r'] secuencia IH]; intros Hall Hin.
  - inversion Hin.
  - apply Forall_cons in Hall as [Hr Hall]. cbn [razon_de].
    destruct (pid =? k)%Z eqn:E; [exact Hr|].
    apply IH; [exact Hall|].
    rewrite fmap_cons in Hin. apply elem_of_cons in Hin as [Heq|Hin]; [|exact Hin].
    cbn in Heq. apply Z.eqb_neq in E. congruence.
Qed.

Lemma razon_de_app (s1 s2 : list (Z * string)) (k : Z) :
  razon_de (s1 ++ s2) k = if bool_decide (k ∈ fst <$> s1) then razon_de s1 k else razon_de s2 k.
Proof.
  induction s1 as [|[pid r] s1 IH].
  - rewrite bool_decide_eq_false_2; [reflexivity|]. apply not_elem_of_nil.
  - cbn [app razon_de]. rewrite fmap_cons. cbn [fst].
    destruct (pid =? k)%Z eqn:E.
    + apply Z.eqb_eq in E. subst pid.
      rewrite bool_decide_eq_true_2; [reflexivity|]. left.
    + apply Z.eqb_neq in E. rewrite IH.
      destruct (bool_decide (k ∈ fst <$> s1)) eqn:Ein.
      * apply bool_decide_eq_true_1 in Ein.
        rewrite bool_decide_eq_true_2; [reflexivity|]. right. exact Ein.
      * apply bool_decide_eq_false_1 in Ein.
        rewrite bool_decide_eq_false_2; [reflexivity|].
        rewrite elem_of_cons. intros [Heq|Hin]; [congruence|contradiction].
Qed.

Lemma filas_desde_reason (machine_id : Z) (secuencia : list (Z * string))
  (rs : list orden_con_fecha) :
  forall i : Z,
    Forall (fun f => exists r, r ∈ rs /\ order_id f = id (orden r) /\
                               reason f = razon_de secuencia (id (orden r)))
      (filas_desde machine_id secuencia i rs).
Proof.
  induction rs as [|r rs IH]; intros i; cbn [filas_desde]; constructor.
  - exists r. split; [left|]. split; reflexivity.
  - eapply Forall_impl; [apply IH|]. cbn beta.
    intros f (r' & Hin & Hid & Hreason). exists r'. split; [right; exact Hin|]. auto.
Qed.

Lemma elem_of_ordenes_forzosas (orders : list SchedulableOrderModel)
  (o : SchedulableOrderModel) :
  o ∈ orders -> fecha_forzosa_entrega o <> None -> o ∈ ordenes_forzosas orders.
Proof.
  intros Hin Hf. rewrite <- (ordenes_forzosas_optimizables orders) in Hin.
  apply elem_of_app in Hin as [Hin|Hin]; [exact Hin|].
  unfold ordenes_optimizables in Hin. apply list_elem_of_filter in Hin as [Hnone _].
  contradiction.
Qed.

(** X9. With distinct order ids, every row that [generate_optimal_schedule]
    writes carries the reason of its order: the forced-date reason exactly
    for the orders that have a forced delivery date, the optimizer reason
    for the others. *)
Theorem schedule_reasons
  (hall_of_fame : AlgoritmoGeneticoFlexo -> nat -> nat -> list nat) (fuel : nat)
  (machine_info : MachineModel) (orders : list SchedulableOrderModel) (now : datetime)
  (filas : list fila) :
  NoDup (id <$> orders) ->
  generate_optimal_schedule hall_of_fame fuel (Some machine_info) orders now = Some filas ->
  Forall (fun f =>
            exists o, o ∈ orders /\ id o = order_id f /\
              reason f = match fecha_forzosa_entrega o with
                         | Some _ => "Prioridad absoluta por fecha forzosa."
                         | None => "Posición calculada por optimizador genético."
                         end) filas.
Proof.
  intros Hnd Hgen. unfold generate_optimal_schedule in Hgen.
  destruct (bool_decide (estatus machine_info ≠ "activa")); [discriminate Hgen|].
  destruct (bool_decide (orders = [])); [discriminate Hgen|].
  match type of Hgen with
  | match ?c with _ => _ end = _ => destruct c as [filas'| |] eqn:Eplan; try discriminate Hgen
  end.
  injection Hgen as ->. unfold planificar in Eplan.
  set (razon := "Posición calculada por optimizador genético.") in *.
  destruct (secuencia_final_con_razon hall_of_fame razon orders machine_info)
    as [secuencia| |] eqn:Esec; try discriminate Eplan.
  cbn [mbind res_bind Py.bind] in Eplan.
  destruct (buscar_ordenes (orders_dict orders) secuencia) as [objs| |] eqn:Eobjs;
    try discriminate Eplan.
  cbn [mbind res_bind Py.bind] in Eplan.
  destruct (calcular_fechas_probables planner_config fuel objs now machine_info)
    as [rs| |] eqn:Ers; try discriminate Eplan.
  cbn [mbind res_bind Py.bind] in Eplan. injection Eplan as <-.
  pose proof (ScheduleProps.calcular_fechas_probables_orden fuel planner_config objs now
                machine_info rs Ers) as Hrs.
  assert (Hobjs : id <$> objs = fst <$> secuencia).
  { apply (buscar_ordenes_ids (orders_dict orders)); [|exact Eobjs].
    intros k o Hk. apply ScheduleProps.orders_dict_lookup in Hk. tauto. }
  assert (Hobjs_in : Forall (fun o => o ∈ orders) objs).
  { clear -Eobjs. revert objs Eobjs.
    induction secuencia as [|[k r] secuencia IH]; intros objs Hb.
    - cbn in Hb. injection Hb as <-. constructor.
    - apply ScheduleProps.buscar_ordenes_cons in Hb as (o & rest & Hk & Hrest & ->).
      constructor; [|exact (IH rest Hrest)].
      apply ScheduleProps.orders_dict_lookup in Hk. tauto. }
  unfold secuencia_final_con_razon in Esec.
  destruct (secuencia_optimizada_ids hall_of_fame orders machine_info) as [ids| |] eqn:Eids;
    try discriminate Esec.
  cbn [mbind res_bind Py.bind] in Esec. injection Esec as Hsec.
  set (razon_forzosa := "Prioridad absoluta por fecha forzosa.") in *.
  set (F := (fun o => (id o, razon_forzosa)) <$> ordenes_forzosas orders) in *.
  set (G := (fun oid : Z => (oid, razon)) <$> ids) in *.
  assert (HF : Forall (fun p => p.2 = razon_forzosa) F)
    by (unfold F; apply Forall_fmap, Forall_forall; intros; reflexivity).
  assert (HG : Forall (fun p => p.2 = razon) G)
    by (unfold G; apply Forall_fmap, Forall_forall; intros; reflexivity).
  assert (HFids : forall k, k ∈ fst <$> F <-> exists o, o ∈ ordenes_forzosas orders /\ id o = k).
  { intros k. unfold F. rewrite <- list_fmap_compose, list_elem_of_fmap.
    split; intros (o & Hk & Ho); exists o; cbn in *; auto. }
  eapply Forall_impl; [apply (filas_desde_reason (machine_id machine_info) secuencia rs 1)|].
  cbn beta. intros f (r & Hr & Hid & Hreason).
  assert (Ho : orden r ∈ objs) by (rewrite <- Hrs; apply list_elem_of_fmap; eauto).
  rewrite Forall_forall in Hobjs_in. pose proof (Hobjs_in _ Ho) as Hin.
  exists (orden r). split; [exact Hin|]. split; [symmetry; exact Hid|].
  rewrite Hreason, <- Hsec, razon_de_app.
  destruct (ScheduleProps.ordenes_forzosas_spec orders) as [Hforced _].
  rewrite Forall_forall in Hforced.
  destruct (fecha_forzosa_entrega (orden r)) as [fecha|] eqn:Ef.
  - assert (Hk : id (orden r) ∈ fst <$> F).
    { apply HFids. exists (orden r). split; [|reflexivity].
      apply elem_of_ordenes_forzosas; [exact Hin|congruence]. }
    rewrite bool_decide_eq_true_2 by exact Hk.
    apply razon_de_elem; assumption.
  - assert (Hk : ~ id (orden r) ∈ fst <$> F).
    { intros Hk. apply HFids in Hk as (o' & Ho' & Hid').
      destruct (Hforced o' Ho') as [Hin' Hf'].
      rewrite (ScheduleProps.NoDup_id_inj orders o' (orden r) Hnd Hin' Hin Hid') in Hf'.
      contradiction. }
    rewrite bool_decide_eq_false_2 by exact Hk.
    apply razon_de_elem; [exact HG|].
    assert (Hall : id (orden r) ∈ fst <$> secuencia)
      by (rewrite <- Hobjs; apply list_elem_of_fmap; eauto).
    rewrite <- Hsec, fmap_app in Hall. apply elem_of_app in Hall as [Hl|Hl];
      [contradiction|exact Hl].
Qed.

Lemma schedule_reasons_witness :
  exists filas,
    generate_optimal_schedule Ejemplos.hall_of_fame_inverso 0 (Some Ejemplos.maquina_1)
      [Ejemplos.orden_A; Ejemplos.orden_B; Ejemplos.orden_C] (at_day Ejemplos.lunes 8 0)
    = Some filas /\
    Forall (fun f =>
              exists o, o ∈ [Ejemplos.orden_A; Ejemplos.orden_B; Ejemplos.orden_C] /\
                id o = order_id f /\
                reason f = match fecha_forzosa_entrega o with
                           | Some _ => "Prioridad absoluta por fecha forzosa."
                           | None => "Posición calculada por optimizador genético."
                           end) filas.
Proof.
  destruct (generate_optimal_schedule Ejemplos.hall_of_fame_inverso 0 (Some Ejemplos.maquina_1)
              [Ejemplos.orden_A; Ejemplos.orden_B; Ejemplos.orden_C]
              (at_day Ejemplos.lunes 8 0)) as [filas|] eqn:E;
    [|vm_compute in E; discriminate].
  exists filas. split; [reflexivity|].
  apply (schedule_reasons Ejemplos.hall_of_fame_inverso 0 Ejemplos.maquina_1
           [Ejemplos.orden_A; Ejemplos.orden_B; Ejemplos.orden_C]
           (at_day Ejemplos.lunes 8 0) filas); [|exact E].
  apply (bool_decide_unpack _). vm_compute. exact I.
Defined.

End ScheduleContents.

(** ** Malformed and unexpected JSON *)

Module JsonErrorProps.

Import Calculators Optimizer Spec.

Lemma conjunto_materiales_cases (s : json_text) :
  (exists c, conjunto_materiales s = Ok c)
  \/ conjunto_materiales s = Raise JSONDecodeError
  \/ conjunto_materiales s = Raise TypeError.
Proof.
  destruct s as [| |[v|]]; cbn; eauto.
  destruct v; cbn; eauto.
  destruct (EnrichedOrderProps.set_of_items_cases items) as [[c ->]| ->]; eauto.
Qed.

Lemma malformed_conjunto_materiales (s : json_text) :
  malformed s -> conjunto_materiales s = Raise JSONDecodeError.
Proof.
  intros [Ht Hl]. destruct s as [| |[v|]]; cbn in *; try discriminate. reflexivity.
Qed.

Lemma loads_cases (s : json_text) :
  (exists v, loads s = Ok v) \/ loads s = Raise JSONDecodeError.
Proof. destruct s as [| |[v|]]; cbn; eauto. Qed.

(** X10. When the materials of either order are malformed, or the [datos]
    of either order fail to decode, [_calcular_tiempo_cambio] raises
    nothing and returns the base time of the machine
    ([time_change_units], or 15 when that is 0). *)
Theorem _calcular_tiempo_cambio_fallback (config : PlannerConfig)
  (ant cur : SchedulableOrderModel) (machine : MachineModel) :
  malformed (materiales ant) \/ malformed (materiales cur)
  \/ loads (datos ant) = Raise JSONDecodeError \/ loads (datos cur) = Raise JSONDecodeError ->
  _calcular_tiempo_cambio config ant cur machine = Ok (or_Q (time_change_units machine) 15).
Proof.
  unfold _calcular_tiempo_cambio.
  intros [Hbad|[Hbad|[Hbad|Hbad]]].
  - rewrite (malformed_conjunto_materiales _ Hbad). reflexivity.
  - rewrite (malformed_conjunto_materiales _ Hbad).
    destruct (conjunto_materiales_cases (materiales ant)) as [[c ->]|[-> | ->]]; reflexivity.
  - rewrite Hbad.
    destruct (conjunto_materiales_cases (materiales ant)) as [[c ->]|[-> | ->]];
      try reflexivity.
    destruct (conjunto_materiales_cases (materiales cur)) as [[c' ->]|[-> | ->]]; reflexivity.
  - rewrite Hbad.
    destruct (conjunto_materiales_cases (materiales ant)) as [[c ->]|[-> | ->]];
      try reflexivity.
    destruct (conjunto_materiales_cases (materiales cur)) as [[c' ->]|[-> | ->]];
      try reflexivity.
    destruct (loads_cases (datos ant)) as [[v ->]| ->]; reflexivity.
Qed.

Lemma _calcular_tiempo_cambio_fallback_witness :
  _calcular_tiempo_cambio PlannerConfig_default Ejemplos.orden_A
    Ejemplos.orden_materiales_ilegibles Ejemplos.maquina_1 = Ok 15.
Proof.
  apply (_calcular_tiempo_cambio_fallback PlannerConfig_default Ejemplos.orden_A
           Ejemplos.orden_materiales_ilegibles Ejemplos.maquina_1).
  right. left. split; reflexivity.
Defined.

Lemma get_not_object (v : json) (k : string) :
  (forall members, v <> JObj members) -> get v k = Raise AttributeError.
Proof. intros Hv. destruct v; try reflexivity. exfalso. eapply Hv. reflexivity. Qed.

Lemma EnrichedOrder_init_cases (o : SchedulableOrderModel) :
  (exists e, EnrichedOrder.__init__ o = Ok e)
  \/ (EnrichedOrder.__init__ o = Raise AttributeError /\
      exists c m v,
        EnrichedOrder.conjunto (colores o) = Ok c /\
        EnrichedOrder.conjunto (Some (materiales o)) = Ok m /\
        truthy_text (datos o) = true /\ loads (datos o) = Ok v /\
        forall members, v <> JObj members).
Proof.
  unfold EnrichedOrder.__init__.
  destruct (EnrichedOrderProps.conjunto_cases (colores o)) as [[c Hc]|[Hc|Hc]];
    rewrite Hc; [|left; eexists; reflexivity..].
  destruct (EnrichedOrderProps.conjunto_cases (Some (materiales o))) as [[m Hm]|[Hm|Hm]];
    rewrite Hm; [|left; eexists; reflexivity..].
  cbn [mbind res_bind Py.bind].
  destruct (truthy_text (datos o)) eqn:Et.
  - destruct (loads_cases (datos o)) as [[v Hv]|Hv]; rewrite Hv;
      [|left; eexists; reflexivity].
    cbn [mbind res_bind Py.bind].
    destruct v; cbn;
      try (right; split; [reflexivity|];
           exists c, m; eexists; repeat split; try eassumption; try reflexivity;
           intros members; discriminate).
    left. eexists. reflexivity.
  - left. eexists. reflexivity.
Qed.

Lemma enriquecer_cases (ordenes : list SchedulableOrderModel) :
  forall acc : gmap Z EnrichedOrder.t,
    (Forall (fun o => exists e, EnrichedOrder.__init__ o = Ok e) ordenes /\
     exists dict, enriquecer ordenes acc = Ok dict)
    \/ (Exists (fun o => EnrichedOrder.__init__ o = Raise AttributeError) ordenes /\
        enriquecer ordenes acc = Raise AttributeError).
Proof.
  induction ordenes as [|o ordenes IH]; intros acc; cbn [enriquecer].
  - left. split; [constructor|eauto].
  - destruct (EnrichedOrder_init_cases o) as [[e He]|[He _]]; rewrite He;
      cbn [mbind res_bind Py.bind].
    + destruct (IH (<[id o := e]> acc)) as [[Hall Hok]|[Hex Hraise]].
      * left. split; [constructor; eauto|exact Hok].
      * right. split; [right; exact Hex|exact Hraise].
    + right. split; [left; exact He|reflexivity].
Qed.

(** X11. [EnrichedOrder.__init__] either succeeds or raises
    [AttributeError]; it raises exactly when colours and materials decode
    and [datos] is a non-empty text that decodes to something other than
    an object (the text [null], a list, a number, a string).  The
    constructor of the sequencer raises [AttributeError] exactly when one
    of its orders does, and succeeds otherwise. *)
Theorem datos_not_object_raises (ordenes : list SchedulableOrderModel)
  (maquina_info : MachineModel) (o : SchedulableOrderModel) :
  ((exists e, EnrichedOrder.__init__ o = Ok e)
   \/ EnrichedOrder.__init__ o = Raise AttributeError) /\
  (EnrichedOrder.__init__ o = Raise AttributeError <->
   exists c m v,
     EnrichedOrder.conjunto (colores o) = Ok c /\
     EnrichedOrder.conjunto (Some (materiales o)) = Ok m /\
     truthy_text (datos o) = true /\ loads (datos o) = Ok v /\
     forall members, v <> JObj members) /\
  (Optimizer.__init__ ordenes maquina_info = Raise AttributeError <->
   Exists (fun o' => EnrichedOrder.__init__ o' = Raise AttributeError) ordenes) /\
  ((exists ag, Optimizer.__init__ ordenes maquina_info = Ok ag)
   \/ Optimizer.__init__ ordenes maquina_info = Raise AttributeError).
Proof.
  split; [|split; [|split]].
  - destruct (EnrichedOrder_init_cases o) as [He|[He _]]; auto.
  - split.
    + intros Hraise. destruct (EnrichedOrder_init_cases o) as [[e He]|[_ Hex]];
        [congruence|exact Hex].
    + intros (c & m & v & Hc & Hm & Ht & Hv & Hobj).
      unfold EnrichedOrder.__init__. rewrite Hc, Hm. cbn [mbind res_bind Py.bind].
      rewrite Ht, Hv. cbn [mbind res_bind Py.bind].
      rewrite (get_not_object v _ Hobj). reflexivity.
  - unfold Optimizer.__init__.
    destruct (enriquecer_cases ordenes ∅) as [[Hall [dict Hok]]|[Hex Hraise]].
    + rewrite Hok. cbn [mbind res_bind Py.bind]. split; [discriminate|].
      intros Hex. exfalso. rewrite Forall_forall in Hall. apply Exists_exists in Hex.
      destruct Hex as (o' & Hin & Ho'). destruct (Hall o' Hin) as [e He]. congruence.
    + rewrite Hraise. cbn [mbind res_bind Py.bind]. tauto.
  - unfold Optimizer.__init__.
    destruct (enriquecer_cases ordenes ∅) as [[_ [dict Hok]]|[_ Hraise]].
    + rewrite Hok. cbn [mbind res_bind Py.bind]. left. eauto.
    + rewrite Hraise. right. reflexivity.
Qed.

Lemma datos_not_object_raises_witness :
  EnrichedOrder.__init__ Ejemplos.orden_datos_null = Raise AttributeError /\
  Optimizer.__init__ [Ejemplos.orden_A; Ejemplos.orden_datos_null] Ejemplos.maquina_1
  = Raise AttributeError.
Proof.
  pose proof (datos_not_object_raises [Ejemplos.orden_A; Ejemplos.orden_datos_null]
                Ejemplos.maquina_1 Ejemplos.orden_datos_null) as (_ & Hiff & Hinit & _).
  assert (He : EnrichedOrder.__init__ Ejemplos.orden_datos_null = Raise AttributeError).
  { apply Hiff. do 2 eexists. exists JNull.
    repeat split; try reflexivity. intros members. discriminate. }
  split; [exact He|].
  apply Hinit. right. left. exact He.
Defined.

End JsonErrorProps.

(** ** The priority manager *)

Module GestorProps.

Import Optimizer GestorPrioridades Condiciones.

Lemma py_remove_elem (x : Z) (l : list Z) :
  x ∈ l ->
  exists l1 l2, l = l1 ++ x :: l2 /\ (x ∉ l1) /\ py_remove x l = Ok (l1 ++ l2).
Proof.
  induction l as [|y l IH]; intros Hin; [inversion Hin|].
  cbn [py_remove]. destruct (y =? x)%Z eqn:E.
  - apply Z.eqb_eq in E. subst y. exists [], l. split; [reflexivity|].
    split; [apply not_elem_of_nil|reflexivity].
  - apply Z.eqb_neq in E. apply elem_of_cons in Hin as [Heq|Hin]; [congruence|].
    destruct (IH Hin) as (l1 & l2 & -> & Hnot & ->).
    exists (y :: l1), l2. split; [reflexivity|]. split; [|reflexivity].
    rewrite elem_of_cons. intros [Heq|Hin']; [congruence|contradiction].
Qed.

Lemma filter_id_Forall {A : Type} (P : A -> Prop) `{!forall x, Decision (P x)} (l : list A) :
  Forall P l -> filter P l = l.
Proof.
  induction 1 as [|x l Hx Hl IH]; [reflexivity|].
  rewrite filter_cons, decide_True by exact Hx. f_equal. exact IH.
Qed.

Lemma gestor_init_secuencia (secuencia_inicial : list Z)
  (dict : gmap Z SchedulableOrderModel) (maquina : MachineModel) :
  secuencia (GestorPrioridades.__init__ secuencia_inicial dict maquina)
  = filter (fun o_id => is_Some (dict !! o_id)) secuencia_inicial.
Proof.
  unfold GestorPrioridades.__init__, _validar_consistencia_inicial.
  cbn [secuencia ordenes_dict bloqueos maquina_info].
  case_bool_decide as Hinv; [reflexivity|].
  cbn [secuencia]. symmetry. apply filter_id_Forall, Forall_forall. intros k Hk.
  destruct (dict !! k) eqn:Ek; [eauto|]. exfalso.
  assert (Hin : k ∈ filter (fun o_id => dict !! o_id = None) secuencia_inicial)
    by (apply list_elem_of_filter; split; assumption).
  rewrite Hinv in Hin. inversion Hin.
Qed.

Lemma gestor_init_campos (secuencia_inicial : list Z)
  (dict : gmap Z SchedulableOrderModel) (maquina : MachineModel) :
  ordenes_dict (GestorPrioridades.__init__ secuencia_inicial dict maquina) = dict /\
  bloqueos (GestorPrioridades.__init__ secuencia_inicial dict maquina) = ∅.
Proof.
  unfold GestorPrioridades.__init__, _validar_consistencia_inicial.
  cbn [secuencia ordenes_dict bloqueos maquina_info].
  case_bool_decide; split; reflexivity.
Qed.

Lemma filter_nil_Forall {A : Type} (P : A -> Prop) `{!forall x, Decision (P x)} (l : list A) :
  Forall (fun x => ~ P x) l -> filter P l = [].
Proof.
  induction 1 as [|x l Hx Hl IH]; [reflexivity|].
  rewrite filter_cons, decide_False by exact Hx. exact IH.
Qed.

(** X12. [GestorPrioridades.__init__] keeps of the initial sequence exactly
    the ids that are keys of [ordenes_dict], in their order, and starts
    with no lock: afterwards every id of the sequence is a key of the
    dictionary. *)
Theorem gestor_init_consistent (secuencia_inicial : list Z)
  (dict : gmap Z SchedulableOrderModel) (maquina : MachineModel) :
  secuencia (GestorPrioridades.__init__ secuencia_inicial dict maquina)
  = filter (fun o_id => is_Some (dict !! o_id)) secuencia_inicial /\
  ordenes_dict (GestorPrioridades.__init__ secuencia_inicial dict maquina) = dict /\
  bloqueos (GestorPrioridades.__init__ secuencia_inicial dict maquina) = ∅ /\
  gestor_consistente (GestorPrioridades.__init__ secuencia_inicial dict maquina).
Proof.
  destruct (gestor_init_campos secuencia_inicial dict maquina) as [Hdic Hblo].
  pose proof (gestor_init_secuencia secuencia_inicial dict maquina) as Hsec.
  split; [exact Hsec|]. split; [exact Hdic|]. split; [exact Hblo|].
  unfold gestor_consistente. rewrite Hsec, Hdic. apply Forall_forall.
  intros k Hk. apply list_elem_of_filter in Hk as [Hk _]. exact Hk.
Qed.

Lemma priorizar_sin_reprogramar_forma (self : GestorPrioridades.t) (orden_id : Z) :
  gestor_consistente self ->
  (orden_id ∉ secuencia self -> priorizar_sin_reprogramar self orden_id = Ok self) /\
  (orden_id ∈ secuencia self ->
   exists l1 l2,
     secuencia self = l1 ++ orden_id :: l2 /\ (orden_id ∉ l1) /\
     priorizar_sin_reprogramar self orden_id
     = Ok {| secuencia := orden_id :: l1 ++ l2;
             ordenes_dict := ordenes_dict self;
             maquina_info := maquina_info self;
             bloqueos := <[orden_id := FORZADA]> (bloqueos self) |}).
Proof.
  intros Hcons. unfold priorizar_sin_reprogramar. split.
  - intros Hnot. rewrite bool_decide_eq_true_2 by exact Hnot. reflexivity.
  - intros Hin. rewrite bool_decide_eq_false_2 by (intros Hnot; contradiction).
    unfold gestor_consistente in Hcons. rewrite Forall_forall in Hcons.
    destruct (Hcons orden_id Hin) as [o Ho].
    rewrite bool_decide_eq_false_2 by (rewrite Ho; discriminate).
    destruct (py_remove_elem orden_id (secuencia self) Hin) as (l1 & l2 & Hsplit & Hnot & Hrem).
    rewrite Hrem. cbn [mbind res_bind Py.bind].
    exists l1, l2. split; [exact Hsplit|]. split; [exact Hnot|]. reflexivity.
Qed.

(** X13. On a consistent manager [priorizar_sin_reprogramar] raises
    nothing.  An id that is not in the sequence leaves the manager as it
    is.  An id of the sequence is moved to the front: its first occurrence
    is taken out, the other ids keep their relative order, the id is locked
    as FORZADA, the other locks stay, and the manager stays consistent. *)
Theorem priorizar_sin_reprogramar_spec (self : GestorPrioridades.t) (orden_id : Z) :
  gestor_consistente self ->
  (orden_id ∉ secuencia self -> priorizar_sin_reprogramar self orden_id = Ok self) /\
  (orden_id ∈ secuencia self ->
   exists l1 l2 self',
     secuencia self = l1 ++ orden_id :: l2 /\ (orden_id ∉ l1) /\
     priorizar_sin_reprogramar self orden_id = Ok self' /\
     secuencia self' = orden_id :: l1 ++ l2 /\
     secuencia self' ≡ₚ secuencia self /\
     ordenes_dict self' = ordenes_dict self /\
     bloqueos self' = <[orden_id := FORZADA]> (bloqueos self) /\
     gestor_consistente self').
Proof.
  intros Hcons.
  destruct (priorizar_sin_reprogramar_forma self orden_id Hcons) as [Hausente Hpresente].
  split; [exact Hausente|]. intros Hin.
  destruct (Hpresente Hin) as (l1 & l2 & Hsplit & Hnot & Hok).
  exists l1, l2. eexists. split; [exact Hsplit|]. split; [exact Hnot|].
  split; [exact Hok|]. cbn [secuencia ordenes_dict bloqueos].
  split; [reflexivity|]. split; [rewrite Hsplit; apply Permutation_middle|].
  split; [reflexivity|]. split; [reflexivity|].
  unfold gestor_consistente in *. cbn [secuencia ordenes_dict].
  rewrite Forall_forall in Hcons. apply Forall_forall.
  intros k Hk. apply Hcons. rewrite Hsplit.
  apply elem_of_cons in Hk as [->|Hk]; [apply elem_of_app; right; left|].
  apply elem_of_app in Hk as [Hk|Hk]; apply elem_of_app; [left|right; right]; exact Hk.
Qed.

Lemma priorizar_sin_reprogramar_spec_witness :
  exists self',
    priorizar_sin_reprogramar
      (GestorPrioridades.__init__ [101; 102; 103]%Z
         (SchedulingService.orders_dict
            [Ejemplos.orden_A; Ejemplos.orden_B; Ejemplos.orden_C]) Ejemplos.maquina_1)
      103 = Ok self' /\
    secuencia self' = [103; 101; 102]%Z.
Proof.
  set (g := GestorPrioridades.__init__ [101; 102; 103]%Z
              (SchedulingService.orders_dict
                 [Ejemplos.orden_A; Ejemplos.orden_B; Ejemplos.orden_C]) Ejemplos.maquina_1).
  assert (Hseq : secuencia g = [101; 102; 103]%Z) by (vm_compute; reflexivity).
  assert (Hcons : gestor_consistente g).
  { apply (bool_decide_unpack _). vm_compute. exact I. }
  destruct (proj2 (priorizar_sin_reprogramar_spec g 103 Hcons))
    as (l1 & l2 & self' & Hsplit & Hnot & Hok & Hsec & _).
  { rewrite Hseq. apply (bool_decide_unpack _). vm_compute. exact I. }
  exists self'. split; [exact Hok|].
  rewrite Hsec. rewrite Hseq in Hsplit.
  destruct l1 as [|a [|b [|c l1]]]; cbn in Hsplit.
  - injection Hsplit as Hx _. discriminate Hx.
  - injection Hsplit as _ Hx _. discriminate Hx.
  - injection Hsplit as Ha Hb Hl. subst a b l2. reflexivity.
  - injection Hsplit as _ _ _ Hrest. destruct l1; discriminate Hrest.
Defined.

Lemma filter_ext_elem {A : Type} (P Q : A -> Prop) `{!forall x, Decision (P x)}
  `{!forall x, Decision (Q x)} (l : list A) :
  (forall x, x ∈ l -> P x <-> Q x) -> filter P l = filter Q l.
Proof.
  induction l as [|x l IH]; intros Hpq; [reflexivity|].
  assert (Hl : filter P l = filter Q l).
  { apply IH. intros y Hy. apply Hpq. right. exact Hy. }
  rewrite !filter_cons, Hl.
  destruct (decide (P x)) as [Hp|Hp]; destruct (decide (Q x)) as [Hq|Hq]; try reflexivity.
  - exfalso. apply Hq, (Hpq x); [left|exact Hp].
  - exfalso. apply Hp, (Hpq x); [left|exact Hq].
Qed.

Lemma separar_validas_todas (dict : gmap Z SchedulableOrderModel) (libres : list Z) :
  Forall (fun o_id => is_Some (dict !! o_id)) libres ->
  forall validas removidas secuencia,
    separar_validas dict libres (validas, removidas, secuencia)
    = Ok (validas ++ libres, removidas, secuencia).
Proof.
  induction 1 as [|k libres Hk Hl IH]; intros validas removidas secuencia.
  - cbn [separar_validas]. rewrite app_nil_r. reflexivity.
  - cbn [separar_validas fst snd]. rewrite bool_decide_eq_true_2 by exact Hk.
    rewrite IH, <- app_assoc. reflexivity.
Qed.

Lemma ordenes_de_ids (dict : gmap Z SchedulableOrderModel) (ids : list Z) :
  (forall k o, dict !! k = Some o -> id o = k) ->
  Forall (fun o_id => is_Some (dict !! o_id)) ids ->
  exists objs, ordenes_de dict ids = Ok objs /\ id <$> objs = ids.
Proof.
  intros Hdict. induction 1 as [|k ids [o Hk] Hl (objs & Hobjs & Hids)].
  - exists []. split; reflexivity.
  - exists (o :: objs). cbn [ordenes_de]. rewrite Hk, Hobjs. cbn [mbind res_bind Py.bind].
    split; [reflexivity|]. rewrite fmap_cons, Hids, (Hdict k o Hk). reflexivity.
Qed.

Lemma filter_complement_Permutation (locks : gmap Z bloqueo) (l : list Z) :
  filter (fun k => is_Some (locks !! k)) l ++ filter (fun k => locks !! k = None) l ≡ₚ l.
Proof.
  induction l as [|k l IH]; [reflexivity|].
  rewrite !filter_cons. destruct (locks !! k) as [b|] eqn:Ek.
  - rewrite decide_True by eauto. rewrite decide_False by discriminate.
    cbn [app]. constructor. exact IH.
  - rewrite decide_False by (intros [? ?]; discriminate). rewrite decide_True by reflexivity.
    rewrite <- Permutation_middle. constructor. exact IH.
Qed.

Section Reoptimizar.

Variable hall_of_fame : AlgoritmoGeneticoFlexo -> nat -> nat -> list nat.

Hypothesis Hperm :
  forall ag p g, hall_of_fame ag p g ≡ₚ seq 0 (length (idx_to_order_id ag)).

Lemma priorizar_con_reoptimizacion_ausente (self : GestorPrioridades.t) (orden_id : Z) :
  orden_id ∉ secuencia self ->
  priorizar_con_reoptimizacion hall_of_fame self orden_id = Ok self.
Proof.
  intros Hnot. unfold priorizar_con_reoptimizacion.
  rewrite bool_decide_eq_true_2 by exact Hnot. reflexivity.
Qed.

(** The run of the search on the free orders: refused for one order,
    and otherwise the hall of fame read through the ids of the orders. *)
Lemma optimizar_libres_casos (objs : list SchedulableOrderModel) (maquina : MachineModel)
  (ag : AlgoritmoGeneticoFlexo) :
  Optimizer.__init__ objs maquina = Ok ag ->
  (length objs = 1%nat -> optimizar_libres hall_of_fame ag = Raise ValueError) /\
  (length objs <> 1%nat -> objs <> [] ->
   exists ids,
     optimizar_libres hall_of_fame ag = Ok ids /\
     optimizar hall_of_fame ag 100 200 = Ok ids /\
     Forall2 (fun idx k => (id <$> objs) !! idx = Some k) (hall_of_fame ag 100 200) ids /\
     ids ≡ₚ id <$> objs).
Proof.
  intros Hinit. destruct (SequencerProps.__init___Ok _ _ _ Hinit) as (Hids & _ & _).
  assert (Hlen : length (idx_to_order_id ag) = length objs)
    by (rewrite Hids; apply length_fmap).
  unfold optimizar_libres. rewrite Hlen. split.
  - intros ->. reflexivity.
  - intros Hne1 Hne. rewrite (proj2 (Nat.eqb_neq _ _) Hne1).
    assert (Hh : hall_of_fame ag 100 200 ≡ₚ seq 0 (length objs)).
    { rewrite Hperm, Hlen. reflexivity. }
    destruct (SequencerProps.optimizar_Ok_Permutation hall_of_fame objs maquina ag 100 200
                Hinit Hh) as (ids & Hids_ok & Hids_perm).
    exists ids. split; [exact Hids_ok|]. split; [exact Hids_ok|].
    split; [|exact Hids_perm].
    exact (SequencerProps.optimizar_Ok_Forall2 hall_of_fame objs maquina ag 100 200 ids
             Hinit Hne Hids_ok).
Qed.

(** The search of the method when it gives a result: the orders are
    none or at least two, and the result is that of [optimizar]. *)
Lemma busqueda_Ok (objs : list SchedulableOrderModel) (maquina : MachineModel)
  (optimizada : list Z) :
  match objs with
  | [] => Ok []
  | _ :: _ => ag ← Optimizer.__init__ objs maquina; optimizar_libres hall_of_fame ag
  end = Ok optimizada ->
  length objs <> 1%nat /\
  (objs = [] -> optimizada = []) /\
  (objs <> [] ->
   exists ag,
     Optimizer.__init__ objs maquina = Ok ag /\
     optimizar hall_of_fame ag 100 200 = Ok optimizada /\
     Forall2 (fun idx k => (id <$> objs) !! idx = Some k)
       (hall_of_fame ag 100 200) optimizada) /\
  optimizada ≡ₚ id <$> objs.
Proof.
  destruct objs as [|obj objs].
  - intros Hok. injection Hok as <-.
    split; [discriminate|]. split; [reflexivity|].
    split; [intros Hne; contradiction|]. reflexivity.
  - destruct (Optimizer.__init__ (obj :: objs) maquina) as [ag| |] eqn:Einit;
      try discriminate.
    cbn [mbind res_bind Py.bind]. intros Hok.
    destruct (optimizar_libres_casos _ _ _ Einit) as [Huna Hvarias].
    destruct (decide (length (obj :: objs) = 1%nat)) as [Hlen|Hlen].
    + rewrite (Huna Hlen) in Hok. discriminate Hok.
    + destruct (Hvarias Hlen ltac:(discriminate)) as (ids & Hlib & Hopt & Hf & Hp).
      rewrite Hlib in Hok. injection Hok as <-.
      split; [exact Hlen|]. split; [discriminate|].
      split; [intros _; exists ag; split; [reflexivity|]; split; [exact Hopt|exact Hf]|].
      exact Hp.
Qed.

(** The method on an id of the sequence of a consistent manager: nothing
    is dropped from the sequence, and what is left is the search on the
    orders of the free ids and the new sequence built from its result. *)
Lemma priorizar_con_reoptimizacion_forma (self : GestorPrioridades.t) (orden_id : Z) :
  gestor_consistente self ->
  (forall k o, GestorPrioridades.ordenes_dict self !! k = Some o -> id o = k) ->
  orden_id ∈ secuencia self ->
  exists l1 l2 objs,
    secuencia self = l1 ++ orden_id :: l2 /\ (orden_id ∉ l1) /\
    ordenes_de (GestorPrioridades.ordenes_dict self)
      (filter (fun k => bloqueos self !! k = None) (l1 ++ l2)) = Ok objs /\
    id <$> objs = filter (fun k => bloqueos self !! k = None) (l1 ++ l2) /\
    priorizar_con_reoptimizacion hall_of_fame self orden_id
    = (optimizada ←
         match objs with
         | [] => Ok []
         | _ :: _ => ag ← Optimizer.__init__ objs (maquina_info self);
                     optimizar_libres hall_of_fame ag
         end;
       Ok {| secuencia :=
               filter (fun k => is_Some (bloqueos self !! k) /\ k ≠ orden_id) (l1 ++ l2)
               ++ [orden_id] ++ optimizada;
             ordenes_dict := GestorPrioridades.ordenes_dict self;
             maquina_info := maquina_info self;
             bloqueos := <[orden_id := ALTA]> (bloqueos self) |}).
Proof.
  intros Hcons Hdict Hin. unfold priorizar_con_reoptimizacion.
  rewrite bool_decide_eq_false_2 by (intros Hnot; contradiction).
  unfold gestor_consistente in Hcons. rewrite Forall_forall in Hcons.
  destruct (Hcons orden_id Hin) as [o Ho].
  rewrite bool_decide_eq_false_2 by (rewrite Ho; discriminate).
  destruct (py_remove_elem orden_id (secuencia self) Hin) as (l1 & l2 & Hsplit & Hnot & Hrem).
  rewrite Hrem. cbn [mbind res_bind Py.bind].
  set (libres := filter (fun o_id => bloqueos self !! o_id = None) (l1 ++ l2)).
  assert (Hsub : forall k, k ∈ l1 ++ l2 -> k ∈ secuencia self).
  { intros k Hk. rewrite Hsplit.
    apply elem_of_app in Hk as [Hk|Hk]; apply elem_of_app; [left|right; right]; exact Hk. }
  assert (Hlibres : Forall (fun o_id => is_Some (GestorPrioridades.ordenes_dict self !! o_id))
                      libres).
  { apply Forall_forall. intros k Hk. apply list_elem_of_filter in Hk as [_ Hk].
    apply Hcons, Hsub, Hk. }
  rewrite (separar_validas_todas _ _ Hlibres). cbn [mbind res_bind Py.bind fst snd app].
  destruct (ordenes_de_ids _ _ Hdict Hlibres) as (objs & Hobjs & Hids).
  exists l1, l2, objs.
  split; [exact Hsplit|]. split; [exact Hnot|]. split; [exact Hobjs|]. split; [exact Hids|].
  case_bool_decide as Hne.
  - rewrite Hobjs. cbn [mbind res_bind Py.bind].
    destruct objs as [|obj objs]; [|reflexivity].
    exfalso. apply Hne. rewrite <- Hids. reflexivity.
  - destruct objs as [|obj objs]; [reflexivity|].
    exfalso. rewrite <- Hids in Hne. discriminate Hne.
Qed.

(** X14. [priorizar_con_reoptimizacion] on a consistent manager whose
    dictionary is keyed by the orders' ids, for an id of the sequence, when
    the search returns a permutation of the indices.  The free orders are
    those of the ids that are not locked, the prioritised one apart.  With
    exactly one free order the search is run on a list of one order and
    the method raises [ValueError].  When the method returns, the free
    orders are none or at least two, and the new sequence is the ids that
    were locked before (in their previous relative order), then the
    prioritised id, then the result of [optimizar] on the sequencer of the
    free orders: position by position, the free id at the index the
    search chose (nothing when no order is free).  The prioritised id is
    locked as ALTA, and a sequence without repetition is only
    rearranged. *)
Theorem priorizar_con_reoptimizacion_spec (self : GestorPrioridades.t) (orden_id : Z) :
  gestor_consistente self ->
  (forall k o, GestorPrioridades.ordenes_dict self !! k = Some o -> id o = k) ->
  orden_id ∈ secuencia self ->
  exists l1 l2 objs,
    secuencia self = l1 ++ orden_id :: l2 /\ (orden_id ∉ l1) /\
    ordenes_de (GestorPrioridades.ordenes_dict self)
      (filter (fun k => bloqueos self !! k = None) (l1 ++ l2)) = Ok objs /\
    (forall ag,
       length objs = 1%nat ->
       Optimizer.__init__ objs (maquina_info self) = Ok ag ->
       priorizar_con_reoptimizacion hall_of_fame self orden_id = Raise ValueError) /\
    (forall self',
       priorizar_con_reoptimizacion hall_of_fame self orden_id = Ok self' ->
       exists optimizada,
         length objs <> 1%nat /\
         (objs = [] -> optimizada = []) /\
         (objs <> [] ->
          exists ag,
            Optimizer.__init__ objs (maquina_info self) = Ok ag /\
            optimizar hall_of_fame ag 100 200 = Ok optimizada /\
            Forall2 (fun idx k =>
                       filter (fun k => bloqueos self !! k = None) (l1 ++ l2) !! idx = Some k)
              (hall_of_fame ag 100 200) optimizada) /\
         secuencia self'
         = filter (fun k => is_Some (bloqueos self !! k) /\ k ≠ orden_id) (l1 ++ l2)
           ++ [orden_id] ++ optimizada /\
         optimizada ≡ₚ filter (fun k => bloqueos self !! k = None) (l1 ++ l2) /\
         GestorPrioridades.ordenes_dict self' = GestorPrioridades.ordenes_dict self /\
         bloqueos self' = <[orden_id := ALTA]> (bloqueos self) /\
         (NoDup (secuencia self) -> secuencia self' ≡ₚ secuencia self)).
Proof.
  intros Hcons Hdict Hin.
  destruct (priorizar_con_reoptimizacion_forma self orden_id Hcons Hdict Hin)
    as (l1 & l2 & objs & Hsplit & Hnot & Hobjs & Hids & Heq).
  exists l1, l2, objs.
  split; [exact Hsplit|]. split; [exact Hnot|]. split; [exact Hobjs|]. split.
  - intros ag Hlen Hinit. rewrite Heq.
    destruct objs as [|obj objs]; [discriminate Hlen|].
    rewrite Hinit. cbn [mbind res_bind Py.bind].
    rewrite (proj1 (optimizar_libres_casos _ _ _ Hinit) Hlen). reflexivity.
  - intros self' Hok. rewrite Heq in Hok.
    destruct (match objs with
              | [] => Ok []
              | _ :: _ => ag ← Optimizer.__init__ objs (maquina_info self);
                          optimizar_libres hall_of_fame ag
              end) as [optimizada| |] eqn:Ebusqueda; try discriminate Hok.
    cbn [mbind res_bind Py.bind] in Hok. injection Hok as <-.
    destruct (busqueda_Ok objs (maquina_info self) optimizada Ebusqueda)
      as (Hlen & Hnil & Hcons' & Hoptperm).
    rewrite Hids in Hcons', Hoptperm.
    exists optimizada. cbn [secuencia bloqueos GestorPrioridades.ordenes_dict].
    split; [exact Hlen|]. split; [exact Hnil|]. split; [exact Hcons'|].
    split; [reflexivity|]. split; [exact Hoptperm|]. split; [reflexivity|].
    split; [reflexivity|].
    intros Hnd. rewrite Hsplit in Hnd. apply NoDup_app in Hnd as (_ & Hdisj & Hnd2).
    apply NoDup_cons in Hnd2 as [Hnot2 _].
    assert (Hfil : filter (fun k => is_Some (bloqueos self !! k) /\ k ≠ orden_id) (l1 ++ l2)
                   = filter (fun k => is_Some (bloqueos self !! k)) (l1 ++ l2)).
    { apply filter_ext_elem. intros k Hk. split; [tauto|]. intros Hs. split; [exact Hs|].
      intros ->. apply elem_of_app in Hk as [Hk|Hk]; contradiction. }
    rewrite Hfil, Hoptperm, Hsplit. cbn [app].
    rewrite <- !Permutation_middle. constructor.
    apply filter_complement_Permutation.
Qed.

End Reoptimizar.

Lemma priorizar_con_reoptimizacion_spec_witness :
  (exists self',
     priorizar_con_reoptimizacion Ejemplos.hall_of_fame_inverso Ejemplos.gestor_dos_libres 104
     = Ok self' /\
     secuencia self' = [103; 104; 102; 101]%Z /\
     bloqueos self' = <[104%Z := ALTA]> (bloqueos Ejemplos.gestor_dos_libres)) /\
  priorizar_con_reoptimizacion Ejemplos.hall_of_fame_inverso Ejemplos.gestor_con_bloqueo 101
  = Raise ValueError.
Proof.
  assert (Hperm : forall ag p g,
             Ejemplos.hall_of_fame_inverso ag p g ≡ₚ seq 0 (length (idx_to_order_id ag))).
  { intros ag p g. unfold Ejemplos.hall_of_fame_inverso. apply reverse_Permutation. }
  split.
  - destruct (priorizar_con_reoptimizacion Ejemplos.hall_of_fame_inverso
                Ejemplos.gestor_dos_libres 104) as [self'| |] eqn:E;
      [|vm_compute in E; discriminate..].
    exists self'. split; [reflexivity|].
    assert (Hcons : gestor_consistente Ejemplos.gestor_dos_libres).
    { apply (bool_decide_unpack _). vm_compute. exact I. }
    assert (Hdict : forall k o,
               GestorPrioridades.ordenes_dict Ejemplos.gestor_dos_libres !! k = Some o ->
               id o = k).
    { intros k o Hk. exact (proj2 (ScheduleProps.orders_dict_lookup _ k o Hk)). }
    assert (Hin : (104:Z) ∈ secuencia Ejemplos.gestor_dos_libres).
    { apply (bool_decide_unpack _). vm_compute. exact I. }
    destruct (priorizar_con_reoptimizacion_spec Ejemplos.hall_of_fame_inverso Hperm
                Ejemplos.gestor_dos_libres 104 Hcons Hdict Hin)
      as (l1 & l2 & objs & _ & _ & _ & _ & Hok).
    destruct (Hok self' E) as (optimizada & _ & _ & _ & _ & _ & _ & Hlock & _).
    split; [|exact Hlock].
    vm_compute in E. injection E as <-. reflexivity.
  - assert (Hcons : gestor_consistente Ejemplos.gestor_con_bloqueo).
    { apply (bool_decide_unpack _). vm_compute. exact I. }
    assert (Hdict : forall k o,
               GestorPrioridades.ordenes_dict Ejemplos.gestor_con_bloqueo !! k = Some o ->
               id o = k).
    { intros k o Hk. exact (proj2 (ScheduleProps.orders_dict_lookup _ k o Hk)). }
    assert (Hin : (101:Z) ∈ secuencia Ejemplos.gestor_con_bloqueo).
    { apply (bool_decide_unpack _). vm_compute. exact I. }
    destruct (priorizar_con_reoptimizacion_spec Ejemplos.hall_of_fame_inverso Hperm
                Ejemplos.gestor_con_bloqueo 101 Hcons Hdict Hin)
      as (l1 & l2 & objs & Hsplit & Hnot & Hobjs & Hraise & _).
    assert (Hl : l1 = [103]%Z /\ l2 = [102]%Z).
    { change (secuencia Ejemplos.gestor_con_bloqueo) with [103; 101; 102]%Z in Hsplit.
      destruct l1 as [|a [|b l1]]; cbn in Hsplit.
      - injection Hsplit as Hx _. discriminate Hx.
      - injection Hsplit as Ha Hl. subst a l2. split; reflexivity.
      - injection Hsplit as Ha Hb Hrest. subst a b. exfalso. apply Hnot. right. left. }
    destruct Hl as [-> ->].
    assert (Hobjs' : ordenes_de (GestorPrioridades.ordenes_dict Ejemplos.gestor_con_bloqueo)
                       (filter (fun k => bloqueos Ejemplos.gestor_con_bloqueo !! k = None)
                          ([103] ++ [102])%Z) = Ok [Ejemplos.orden_B])
      by (vm_compute; reflexivity).
    rewrite Hobjs' in Hobjs. injection Hobjs as <-.
    destruct (Optimizer.__init__ [Ejemplos.orden_B]
                (maquina_info Ejemplos.gestor_con_bloqueo)) as [ag| |] eqn:Einit;
      [|vm_compute in Einit; discriminate..].
    exact (Hraise ag eq_refl eq_refl).
Defined.

End GestorProps.

(** ** Prioritising an order of the queue *)

Module PrioritizeProps.

Import Optimizer GestorPrioridades Condiciones SchedulingService.

Lemma orders_dict_is_Some (orders : list SchedulableOrderModel) (k : Z) :
  is_Some (orders_dict orders !! k) <-> k ∈ id <$> orders.
Proof.
  split.
  - intros [o Ho]. apply ScheduleProps.orders_dict_lookup in Ho as [Hin <-].
    apply list_elem_of_fmap. eauto.
  - unfold orders_dict.
    assert (H : forall acc : gmap Z SchedulableOrderModel,
               k ∈ id <$> orders \/ is_Some (acc !! k) ->
               is_Some (foldl (fun dict o => <[id o := o]> dict) acc orders !! k)).
    { induction orders as [|x orders IH]; intros acc [Hin|Hacc]; cbn [foldl].
      - inversion Hin.
      - exact Hacc.
      - rewrite fmap_cons in Hin. apply elem_of_cons in Hin as [->|Hin].
        + apply IH. right. rewrite lookup_insert_eq. eauto.
        + apply IH. left. exact Hin.
      - apply IH. right. destruct (decide (id x = k)) as [<-|Hne].
        + rewrite lookup_insert_eq. eauto.
        + rewrite lookup_insert_ne by exact Hne. exact Hacc. }
    intros Hin. apply H. left. exact Hin.
Qed.

Lemma queue_item_de_Some (queue : list QueueItem.t) (k : Z) :
  k ∈ QueueItem.order_id <$> queue -> exists row, queue_item_de queue k = Some row.
Proof.
  induction queue as [|item queue IH]; intros Hin; [inversion Hin|].
  cbn [queue_item_de]. destruct (QueueItem.order_id item =? k)%Z eqn:E; [eauto|].
  apply Z.eqb_neq in E. rewrite fmap_cons in Hin.
  apply elem_of_cons in Hin as [Heq|Hin]; [congruence|]. exact (IH Hin).
Qed.

Lemma updates_desde_todas (queue : list QueueItem.t) (new_sequence : list Z) :
  Forall (fun k => k ∈ QueueItem.order_id <$> queue) new_sequence ->
  forall i,
    Forall2 (fun u k => exists row, queue_item_de queue k = Some row /\ u.1 = QueueItem.id row)
      (updates_desde queue i new_sequence) new_sequence /\
    snd <$> updates_desde queue i new_sequence = seqZ i (Z.of_nat (length new_sequence)).
Proof.
  induction 1 as [|k new_sequence Hk Hall IH]; intros i.
  - split; [constructor|reflexivity].
  - cbn [updates_desde]. destruct (queue_item_de_Some queue k Hk) as [row Hrow].
    rewrite Hrow. destruct (IH (i + 1)%Z) as [Hf Hs]. split.
    + constructor; [exists row; split; [exact Hrow|reflexivity]|exact Hf].
    + rewrite fmap_cons, Hs. cbn [snd length]. rewrite (seqZ_cons i) by lia.
      f_equal. f_equal; lia.
Qed.

Lemma cierre (queue : list QueueItem.t) (pedido : Z) (resto l1 l2 sec : list Z)
  (updates : list (Z * Z)) :
  sec = l1 ++ pedido :: l2 -> resto ≡ₚ l1 ++ l2 ->
  (forall k, k ∈ sec -> k ∈ QueueItem.order_id <$> queue) ->
  (if bool_decide (pedido ∉ pedido :: resto) then Rechazado
   else if bool_decide (updates_desde queue 1 (pedido :: resto) = []) then Rechazado
        else Actualizado (updates_desde queue 1 (pedido :: resto))) = Actualizado updates ->
  Forall2 (fun u k => exists row, queue_item_de queue k = Some row /\ u.1 = QueueItem.id row)
    updates (pedido :: resto) /\
  snd <$> updates = seqZ 1 (Z.of_nat (length updates)).
Proof.
  intros Hsec Hresto Hcola Hres.
  destruct (bool_decide (pedido ∉ pedido :: resto)); [discriminate Hres|].
  destruct (bool_decide (updates_desde queue 1 (pedido :: resto) = []));
    [discriminate Hres|].
  injection Hres as Hu.
  assert (Hall : Forall (fun k => k ∈ QueueItem.order_id <$> queue) (pedido :: resto)).
  { apply Forall_forall. intros k Hk. apply Hcola. rewrite Hsec.
    apply elem_of_cons in Hk as [->|Hk]; [apply elem_of_app; right; left|].
    rewrite Hresto in Hk.
    apply elem_of_app in Hk as [Hk|Hk]; apply elem_of_app; [left|right; right]; exact Hk. }
  destruct (updates_desde_todas queue (pedido :: resto) Hall 1) as [Hf Hs].
  rewrite <- Hu. split; [exact Hf|].
  etransitivity; [exact Hs|]. apply Forall2_length in Hf.
  f_equal. f_equal. symmetry. exact Hf.
Qed.

Section Servicio.

Variable hall_of_fame : AlgoritmoGeneticoFlexo -> nat -> nat -> list nat.

Hypothesis Hperm :
  forall ag p g, hall_of_fame ag p g ≡ₚ seq 0 (length (idx_to_order_id ag)).

(** X15. When [prioritize_pedido] reaches the update of the store (and the
    search returns a permutation of the indices), the updates are these:
    of the queue rows of the machine, only those whose order is
    schedulable are ranked; the prioritised order gets rank 1, on the
    first queue row of that order; the other schedulable orders follow
    with ranks 2, 3, ... without a gap.  When [reoptimize] is off they
    keep their previous relative order.  When it is on they are none or
    at least two (with exactly one the search raises and nothing is
    updated), and they come in the order [optimizar] returns for the
    sequencer built from their orders on the machine: position by
    position, the order at the index the search chose (the manager is
    new, so nothing is locked before the prioritised order). *)
Theorem prioritize_pedido_updates (item_to_prioritize : option QueueItem.t)
  (machine_info : option MachineModel) (current_queue_items : list QueueItem.t)
  (schedulable_orders : list SchedulableOrderModel) (pedido_id : Z) (reoptimize : bool)
  (updates : list (Z * Z)) :
  prioritize_pedido hall_of_fame item_to_prioritize machine_info current_queue_items
    schedulable_orders pedido_id reoptimize = Actualizado updates ->
  exists l1 l2 resto,
    filter (fun k => k ∈ id <$> schedulable_orders)
      (QueueItem.order_id <$> current_queue_items) = l1 ++ pedido_id :: l2 /\
    (pedido_id ∉ l1) /\
    resto ≡ₚ l1 ++ l2 /\
    (reoptimize = false -> resto = l1 ++ l2) /\
    (reoptimize = true ->
     length (l1 ++ l2) <> 1%nat /\
     (l1 ++ l2 <> [] ->
      exists machine objs ag,
        machine_info = Some machine /\
        ordenes_de (orders_dict schedulable_orders) (l1 ++ l2) = Ok objs /\
        Optimizer.__init__ objs machine = Ok ag /\
        optimizar hall_of_fame ag 100 200 = Ok resto /\
        Forall2 (fun idx k => (l1 ++ l2) !! idx = Some k)
          (hall_of_fame ag 100 200) resto)) /\
    Forall2 (fun u k => exists row, queue_item_de current_queue_items k = Some row
                                    /\ u.1 = QueueItem.id row)
      updates (pedido_id :: resto) /\
    snd <$> updates = seqZ 1 (Z.of_nat (length updates)).
Proof.
  unfold prioritize_pedido. intros Hres.
  destruct item_to_prioritize as [item|]; [|discriminate Hres].
  destruct (QueueItem.order_production item =? 1)%Z; [discriminate Hres|].
  destruct machine_info as [machine|]; [|discriminate Hres].
  destruct (bool_decide (estatus machine ≠ "activa")); [discriminate Hres|].
  destruct (negb (existsb (fun order => (id order =? pedido_id)%Z) schedulable_orders));
    [discriminate Hres|].
  cbv zeta in Hres.
  pose proof (GestorProps.gestor_init_secuencia (QueueItem.order_id <$> current_queue_items)
                (orders_dict schedulable_orders) machine) as Hsec.
  destruct (GestorProps.gestor_init_campos (QueueItem.order_id <$> current_queue_items)
              (orders_dict schedulable_orders) machine) as (Hdic & Hblo).
  assert (Hmaq : maquina_info
                   (GestorPrioridades.__init__ (QueueItem.order_id <$> current_queue_items)
                      (orders_dict schedulable_orders) machine) = machine).
  { unfold GestorPrioridades.__init__, _validar_consistencia_inicial.
    case_bool_decide; reflexivity. }
  assert (Hcons : gestor_consistente
                    (GestorPrioridades.__init__ (QueueItem.order_id <$> current_queue_items)
                       (orders_dict schedulable_orders) machine)).
  { unfold gestor_consistente. rewrite Hsec, Hdic. apply Forall_forall.
    intros k Hk. apply list_elem_of_filter in Hk as [Hk _]. exact Hk. }
  set (gestor := GestorPrioridades.__init__ (QueueItem.order_id <$> current_queue_items)
                   (orders_dict schedulable_orders) machine) in *.
  assert (Hfiltro : secuencia gestor
                    = filter (fun k => k ∈ id <$> schedulable_orders)
                        (QueueItem.order_id <$> current_queue_items)).
  { rewrite Hsec. apply list_filter_iff. intros k. apply orders_dict_is_Some. }
  assert (Hcola : forall k, k ∈ secuencia gestor ->
                            k ∈ QueueItem.order_id <$> current_queue_items).
  { intros k Hk. rewrite Hsec in Hk. apply list_elem_of_filter in Hk. tauto. }
  rewrite <- Hfiltro.
  destruct (decide (pedido_id ∈ secuencia gestor)) as [Hin|Hnot].
  - destruct reoptimize.
    + assert (Hdict : forall k o, ordenes_dict gestor !! k = Some o -> id o = k).
      { intros k o Hk. rewrite Hdic in Hk.
        exact (proj2 (ScheduleProps.orders_dict_lookup _ k o Hk)). }
      destruct (GestorProps.priorizar_con_reoptimizacion_forma hall_of_fame gestor
                  pedido_id Hcons Hdict Hin)
        as (l1 & l2 & objs & Hsplit & Hnot1 & Hobjs & Hids & Heq).
      rewrite Heq in Hres. rewrite Hblo, Hdic in Hobjs. rewrite Hblo in Hids, Hres.
      rewrite Hmaq in Hres.
      rewrite GestorProps.filter_nil_Forall in Hres
        by (apply Forall_forall; intros k _ [[b Hb] _]; rewrite lookup_empty in Hb;
            discriminate Hb).
      rewrite GestorProps.filter_id_Forall in Hobjs, Hids
        by (apply Forall_forall; intros k _; apply lookup_empty).
      destruct (match objs with
                | [] => Ok []
                | _ :: _ => ag ← Optimizer.__init__ objs machine;
                            optimizar_libres hall_of_fame ag
                end) as [opt| |] eqn:Ebusqueda; try discriminate Hres.
      cbn [mbind res_bind Py.bind secuencia app] in Hres.
      destruct (GestorProps.busqueda_Ok hall_of_fame Hperm objs machine opt Ebusqueda)
        as (Hlen & _ & Hsearch & Hoptperm).
      rewrite Hids in Hsearch, Hoptperm.
      exists l1, l2, opt. split; [exact Hsplit|]. split; [exact Hnot1|].
      split; [exact Hoptperm|]. split; [discriminate|]. split.
      * intros _. split.
        -- rewrite <- Hids, length_fmap. exact Hlen.
        -- intros Hne. destruct Hsearch as (ag & Hinit & Hopt & Hf).
           { intros ->. apply Hne. rewrite <- Hids. reflexivity. }
           exists machine, objs, ag. split; [reflexivity|]. split; [exact Hobjs|].
           split; [exact Hinit|]. split; [exact Hopt|exact Hf].
      * exact (cierre current_queue_items pedido_id opt l1 l2 (secuencia gestor) updates
                 Hsplit Hoptperm Hcola Hres).
    + destruct (proj2 (GestorProps.priorizar_sin_reprogramar_forma gestor pedido_id Hcons) Hin)
        as (l1 & l2 & Hsplit & Hnot1 & Hok).
      rewrite Hok in Hres. cbn [secuencia] in Hres.
      exists l1, l2, (l1 ++ l2). split; [exact Hsplit|]. split; [exact Hnot1|].
      split; [reflexivity|]. split; [reflexivity|]. split; [discriminate|].
      exact (cierre current_queue_items pedido_id (l1 ++ l2) l1 l2 (secuencia gestor) updates
               Hsplit (reflexivity _) Hcola Hres).
  - exfalso. destruct reoptimize.
    + rewrite (GestorProps.priorizar_con_reoptimizacion_ausente hall_of_fame gestor pedido_id
                 Hnot) in Hres.
      rewrite bool_decide_eq_true_2 in Hres by exact Hnot. discriminate Hres.
    + rewrite (proj1 (GestorProps.priorizar_sin_reprogramar_forma gestor pedido_id Hcons) Hnot)
        in Hres.
      rewrite bool_decide_eq_true_2 in Hres by exact Hnot. discriminate Hres.
Qed.

End Servicio.

Lemma prioritize_pedido_updates_witness :
  (exists updates,
     prioritize_pedido Ejemplos.hall_of_fame_inverso (queue_item_de Ejemplos.cola 103)
       (Some Ejemplos.maquina_1) Ejemplos.cola
       [Ejemplos.orden_A; Ejemplos.orden_B; Ejemplos.orden_C] 103 true
     = Actualizado updates /\
     updates = [(13, 1); (12, 2); (11, 3)]%Z /\
     snd <$> updates = seqZ 1 (Z.of_nat (length updates))) /\
  (exists updates,
     prioritize_pedido Ejemplos.hall_of_fame_inverso (queue_item_de Ejemplos.cola 103)
       (Some Ejemplos.maquina_1) Ejemplos.cola
       [Ejemplos.orden_A; Ejemplos.orden_B; Ejemplos.orden_C] 103 false
     = Actualizado updates /\
     updates = [(13, 1); (11, 2); (12, 3)]%Z /\
     snd <$> updates = seqZ 1 (Z.of_nat (length updates))) /\
  prioritize_pedido Ejemplos.hall_of_fame_inverso (queue_item_de Ejemplos.cola 102)
    (Some Ejemplos.maquina_1) Ejemplos.cola
    [Ejemplos.orden_A; Ejemplos.orden_B] 102 true
  = Rechazado.
Proof.
  assert (Hperm : forall ag p g,
             Ejemplos.hall_of_fame_inverso ag p g ≡ₚ seq 0 (length (idx_to_order_id ag))).
  { intros ag p g. unfold Ejemplos.hall_of_fame_inverso. apply reverse_Permutation. }
  split; [|split].
  - exists [(13, 1); (12, 2); (11, 3)]%Z.
    assert (E : prioritize_pedido Ejemplos.hall_of_fame_inverso
                  (queue_item_de Ejemplos.cola 103)
                  (Some Ejemplos.maquina_1) Ejemplos.cola
                  [Ejemplos.orden_A; Ejemplos.orden_B; Ejemplos.orden_C] 103 true
                = Actualizado [(13, 1); (12, 2); (11, 3)]%Z)
      by (vm_compute; reflexivity).
    split; [exact E|]. split; [reflexivity|].
    destruct (prioritize_pedido_updates Ejemplos.hall_of_fame_inverso Hperm
                (queue_item_de Ejemplos.cola 103) (Some Ejemplos.maquina_1) Ejemplos.cola
                [Ejemplos.orden_A; Ejemplos.orden_B; Ejemplos.orden_C] 103 true
                [(13, 1); (12, 2); (11, 3)]%Z E)
      as (l1 & l2 & resto & _ & _ & _ & _ & _ & _ & Hs).
    exact Hs.
  - exists [(13, 1); (11, 2); (12, 3)]%Z.
    assert (E : prioritize_pedido Ejemplos.hall_of_fame_inverso
                  (queue_item_de Ejemplos.cola 103)
                  (Some Ejemplos.maquina_1) Ejemplos.cola
                  [Ejemplos.orden_A; Ejemplos.orden_B; Ejemplos.orden_C] 103 false
                = Actualizado [(13, 1); (11, 2); (12, 3)]%Z)
      by (vm_compute; reflexivity).
    split; [exact E|]. split; [reflexivity|].
    destruct (prioritize_pedido_updates Ejemplos.hall_of_fame_inverso Hperm
                (queue_item_de Ejemplos.cola 103) (Some Ejemplos.maquina_1) Ejemplos.cola
                [Ejemplos.orden_A; Ejemplos.orden_B; Ejemplos.orden_C] 103 false
                [(13, 1); (11, 2); (12, 3)]%Z E)
      as (l1 & l2 & resto & _ & _ & _ & _ & _ & _ & Hs).
    exact Hs.
  - destruct (prioritize_pedido Ejemplos.hall_of_fame_inverso
                (queue_item_de Ejemplos.cola 102)
                (Some Ejemplos.maquina_1) Ejemplos.cola
                [Ejemplos.orden_A; Ejemplos.orden_B] 102 true) as [| |updates] eqn:E;
      [reflexivity|vm_compute in E; discriminate E|].
    exfalso.
    destruct (prioritize_pedido_updates Ejemplos.hall_of_fame_inverso Hperm
                (queue_item_de Ejemplos.cola 102) (Some Ejemplos.maquina_1) Ejemplos.cola
                [Ejemplos.orden_A; Ejemplos.orden_B] 102 true updates E)
      as (l1 & l2 & resto & Hsplit & Hnot & _ & _ & Hre & _).
    destruct (Hre eq_refl) as [Hlen _]. apply Hlen.
    assert (Hf : filter (fun k => k ∈ id <$> [Ejemplos.orden_A; Ejemplos.orden_B])
                   (QueueItem.order_id <$> Ejemplos.cola) = [101; 102]%Z)
      by (vm_compute; reflexivity).
    rewrite Hf in Hsplit.
    destruct l1 as [|a [|b l1]]; cbn in Hsplit.
    + injection Hsplit as Hx _. discriminate Hx.
    + injection Hsplit as _ Hl. subst l2. reflexivity.
    + injection Hsplit as _ Hb Hrest. subst b. exfalso. apply Hnot. right. left.
Defined.

End PrioritizeProps.

(** ** The start of the next working day *)

Module NextWorkingDay.

Import Calculators PyFacts DatetimeFacts Condiciones.

Lemma microsecond_part_bounds (t : datetime) :
  0 <= microsecond_part t /\ microsecond_part t < 1 # 60.
Proof.
  unfold microsecond_part.
  pose proof (Qfloor_le (subminute t * 60)) as Hlo.
  pose proof (Qlt_floor (subminute t * 60)) as Hhi.
  rewrite inject_Z_plus in Hhi. change (inject_Z 1) with 1 in Hhi.
  set (f := inject_Z (Qfloor (subminute t * 60))) in *.
  assert (E : f / 60 == f * (1 # 60)) by field.
  rewrite E. split; lra.
Qed.

Lemma subminute_plus_one_day (t : datetime) : subminute (plus_one_day t) == subminute t.
Proof.
  unfold subminute, plus_one_day.
  assert (Hf : Qfloor (t + 1440) = (Qfloor t + 1440)%Z).
  { pose proof (Qfloor_le t) as Hlo. pose proof (Qlt_floor t) as Hhi.
    apply Qfloor_unique; rewrite !inject_Z_plus in *;
      change (inject_Z 1440) with 1440; change (inject_Z 1) with 1 in *; lra. }
  rewrite Hf, inject_Z_plus. change (inject_Z 1440) with 1440. ring.
Qed.

Lemma microsecond_part_plus_one_day (t : datetime) :
  microsecond_part (plus_one_day t) == microsecond_part t.
Proof.
  unfold microsecond_part.
  pose proof (subminute_plus_one_day t) as Hs.
  assert (Hf : Qfloor (subminute (plus_one_day t) * 60) = Qfloor (subminute t * 60)).
  { apply Qfloor_comp. rewrite Hs. reflexivity. }
  rewrite Hf, Hs. reflexivity.
Qed.

Lemma iter_plus_one_day_value (j : nat) (t : datetime) :
  Nat.iter j plus_one_day t == t + inject_Z (1440 * Z.of_nat j).
Proof.
  induction j as [|j IH].
  - change (Nat.iter 0 plus_one_day t) with t.
    change (inject_Z (1440 * Z.of_nat 0)) with 0. ring.
  - rewrite Nat.iter_succ. unfold plus_one_day at 1. rewrite IH.
    rewrite Nat2Z.inj_succ, !inject_Z_mult. unfold Z.succ. rewrite inject_Z_plus.
    change (inject_Z 1440) with 1440. change (inject_Z 1) with 1. ring.
Qed.

Lemma iter_plus_one_day_day_of (j : nat) (t : datetime) :
  day_of (Nat.iter j plus_one_day t) = (day_of t + Z.of_nat j)%Z.
Proof.
  induction j as [|j IH].
  - change (Nat.iter 0 plus_one_day t) with t. lia.
  - rewrite Nat.iter_succ, day_of_plus_one_day, IH. lia.
Qed.

Section Siguiente.

Variable config : PlannerConfig.

Lemma saltar_no_laborales_spec (n : nat) :
  forall (t : datetime) (fuel : nat),
    (exists j, (j <= n)%nat /\ ((weekday t + Z.of_nat j) mod 7)%Z ∈ dias_laborales config) ->
    (n <= fuel)%nat ->
    exists j, (j <= n)%nat /\
      saltar_no_laborales config fuel t = Ok (Nat.iter j plus_one_day t) /\
      ((weekday t + Z.of_nat j) mod 7)%Z ∈ dias_laborales config /\
      forall i, (i < j)%nat -> ((weekday t + Z.of_nat i) mod 7)%Z ∉ dias_laborales config.
Proof.
  assert (Hhoy : forall t fuel,
             weekday t ∈ dias_laborales config ->
             saltar_no_laborales config fuel t = Ok t).
  { intros t fuel Hin. destruct fuel; cbn [saltar_no_laborales];
      rewrite bool_decide_eq_true_2 by exact Hin; reflexivity. }
  assert (Hcero : forall t, ((weekday t + Z.of_nat 0) mod 7)%Z = weekday t).
  { intros t. pose proof (CalendarTotal.weekday_bounds t).
    rewrite Z.add_0_r, Z.mod_small by lia. reflexivity. }
  induction n as [|n IH]; intros t fuel (j0 & Hj0 & Hw) Hfuel.
  - assert (j0 = 0%nat) by lia. subst j0. rewrite Hcero in Hw.
    exists 0%nat. split; [lia|]. split; [exact (Hhoy t fuel Hw)|].
    split; [rewrite Hcero; exact Hw|]. intros i Hi. lia.
  - destruct (decide (weekday t ∈ dias_laborales config)) as [Hin|Hnot].
    + exists 0%nat. split; [lia|]. split; [exact (Hhoy t fuel Hin)|].
      split; [rewrite Hcero; exact Hin|]. intros i Hi. lia.
    + destruct j0 as [|j1]; [rewrite Hcero in Hw; contradiction|].
      destruct fuel as [|fuel]; [lia|].
      assert (Hshift : forall k : nat,
                 ((weekday (plus_one_day t) + Z.of_nat k) mod 7
                  = (weekday t + Z.of_nat (S k)) mod 7)%Z).
      { intros k. rewrite CalendarTotal.weekday_plus_one_day, Zplus_mod_idemp_l.
        f_equal. lia. }
      destruct (IH (plus_one_day t) fuel) as (j & Hj & Hok & Hwj & Hmin).
      { exists j1. split; [lia|]. rewrite Hshift. exact Hw. }
      { lia. }
      exists (S j). split; [lia|]. split.
      * cbn [saltar_no_laborales]. rewrite bool_decide_eq_false_2 by exact Hnot.
        rewrite Hok. rewrite Nat.iter_succ_r. reflexivity.
      * split; [rewrite <- Hshift; exact Hwj|].
        intros [|i] Hi; [rewrite Hcero; exact Hnot|].
        rewrite <- Hshift. apply Hmin. lia.
Qed.

(** X16. [_siguiente_dia_laboral], for a day-start hour of 0..23, a
    calendar with some working weekday, and a date that a [datetime] can
    hold and lies at least 8 days before 9999-12-31: the loop ends within
    six iterations and returns the day-start hour, at minute 0 and second
    0 (the microseconds of the argument are kept), of the first working
    day after the day of the argument; no working day in between is
    skipped and the result is strictly later than the argument.  The
    result is at most 7 days after the day of the argument: the day
    after the argument and the result are in the range of [datetime]. *)
Theorem siguiente_dia_laboral_spec (fecha : datetime) (fuel : nat) :
  (0 <= hora_inicio_turno1 config <= 23)%Z ->
  (exists w, (0 <= w < 7)%Z /\ w ∈ dias_laborales config) ->
  (6 <= fuel)%nat ->
  en_rango fecha ->
  (day_of fecha + 8 <= dia_maximo)%Z ->
  exists (f : datetime) (j : nat),
    _siguiente_dia_laboral config fuel fecha = Ok f /\ (j <= 6)%nat /\
    f == at_day (day_of fecha + 1 + Z.of_nat j) (hora_inicio_turno1 config) 0
         + microsecond_part fecha /\
    day_of f = (day_of fecha + 1 + Z.of_nat j)%Z /\
    weekday f ∈ dias_laborales config /\
    fecha < f /\
    en_rango (plus_one_day fecha) /\
    en_rango f /\
    forall i, (i < j)%nat ->
      ((weekday fecha + 1 + Z.of_nat i) mod 7)%Z ∉ dias_laborales config.
Proof.
  intros Hh (w & Hw & Hwork) Hfuel [Hfecha0 Hfechamax] Hdias.
  unfold _siguiente_dia_laboral, replace_hour_minute_second.
  destruct (0 <=? hora_inicio_turno1 config)%Z eqn:E1; [|lia].
  destruct (hora_inicio_turno1 config <=? 23)%Z eqn:E2; [|lia].
  cbn [andb Z.leb Z.compare mbind res_bind Py.bind].
  set (h := hora_inicio_turno1 config) in *.
  set (f0 := inject_Z (1440 * day_of (plus_one_day fecha) + 60 * h + 0) + inject_Z 0 / 60
             + microsecond_part (plus_one_day fecha)).
  pose proof (microsecond_part_bounds (plus_one_day fecha)) as [Hm0 Hm1].
  pose proof (microsecond_part_plus_one_day fecha) as Hmp.
  pose proof (day_of_bounds fecha) as [Hlo Hhi].
  assert (Hf0 : f0 == inject_Z (1440 * (day_of fecha + 1) + 60 * h)
                      + microsecond_part fecha).
  { unfold f0. rewrite day_of_plus_one_day, Hmp, Z.add_0_r.
    change (inject_Z 0) with 0. field. }
  assert (Hday0 : day_of f0 = (day_of fecha + 1)%Z).
  { rewrite Hmp in Hm0, Hm1.
    apply day_of_unique; rewrite Hf0.
    - assert (inject_Z (1440 * (day_of fecha + 1))
              <= inject_Z (1440 * (day_of fecha + 1) + 60 * h))
        by (rewrite <- Zle_Qle; lia).
      lra.
    - assert (inject_Z (1440 * (day_of fecha + 1) + 60 * h) + 1
              <= inject_Z (1440 * (day_of fecha + 1 + 1))).
      { change 1 with (inject_Z 1). rewrite <- inject_Z_plus, <- Zle_Qle. lia. }
      lra. }
  assert (Hwd0 : weekday f0 = ((weekday fecha + 1) mod 7)%Z).
  { unfold weekday. rewrite Hday0, Zplus_mod_idemp_l. reflexivity. }
  pose proof (CalendarTotal.weekday_bounds f0) as Hb0.
  destruct (saltar_no_laborales_spec 6 f0 fuel) as (j & Hj & Hok & Hwj & Hmin).
  { exists (Z.to_nat ((w - weekday f0) mod 7)).
    pose proof (Z.mod_pos_bound (w - weekday f0) 7 ltac:(lia)) as Hmod.
    split; [lia|]. rewrite Z2Nat.id by lia. rewrite Zplus_mod_idemp_r.
    replace (weekday f0 + (w - weekday f0))%Z with w by lia.
    rewrite Z.mod_small by lia. exact Hwork. }
  { exact Hfuel. }
  exists (Nat.iter j plus_one_day f0), j.
  pose proof (iter_plus_one_day_value j f0) as Hval.
  pose proof (iter_plus_one_day_day_of j f0) as Hdayj.
  split; [exact Hok|]. split; [exact Hj|]. split.
  { rewrite Hval, Hf0. unfold at_day.
    rewrite !inject_Z_plus, !inject_Z_mult, !inject_Z_plus.
    change (inject_Z 0) with 0. ring. }
  split; [rewrite Hdayj, Hday0; reflexivity|]. split.
  { unfold weekday at 1. rewrite Hdayj, <- Zplus_mod_idemp_l. exact Hwj. }
  assert (Hlater : fecha < Nat.iter j plus_one_day f0).
  { rewrite Hval, Hf0. rewrite Hmp in Hm0.
    assert (inject_Z (1440 * (day_of fecha + 1))
            <= inject_Z (1440 * (day_of fecha + 1) + 60 * h))
      by (rewrite <- Zle_Qle; lia).
    assert (0 <= inject_Z (1440 * Z.of_nat j)).
    { change 0 with (inject_Z 0). rewrite <- Zle_Qle. lia. }
    lra. }
  split; [exact Hlater|]. split.
  { apply CalendarTotal.en_rango_antes_del_ultimo_dia.
    - unfold plus_one_day. lra.
    - rewrite day_of_plus_one_day. lia. }
  split.
  { apply CalendarTotal.en_rango_antes_del_ultimo_dia; [lra|].
    rewrite Hdayj, Hday0. lia. }
  intros i Hi. specialize (Hmin i Hi). rewrite Hwd0, Zplus_mod_idemp_l in Hmin. exact Hmin.
Qed.

End Siguiente.

Lemma siguiente_dia_laboral_spec_witness :
  exists (f : datetime) (j : nat),
    _siguiente_dia_laboral PlannerConfig_default 6 (at_day (Ejemplos.lunes + 5) 18 30) = Ok f /\
    j = 1%nat /\ f == at_day (Ejemplos.lunes + 7) 7 0 /\ en_rango f.
Proof.
  destruct (siguiente_dia_laboral_spec PlannerConfig_default
              (at_day (Ejemplos.lunes + 5) 18 30) 6)
    as (f & j & Hok & Hj & Hf & _ & _ & _ & _ & Hrango & _).
  - vm_compute. split; discriminate.
  - exists 0%Z. split; [lia|]. apply (bool_decide_unpack _). vm_compute. exact I.
  - lia.
  - split; vm_compute; discriminate.
  - vm_compute. discriminate.
  - exists f, 1%nat. split; [exact Hok|]. split; [reflexivity|]. split; [|exact Hrango].
    vm_compute in Hok. injection Hok as <-. reflexivity.
Defined.

End NextWorkingDay.

(** ** The compatibility graph of the machines *)

Module GraphProps.

Import OptimizadorTotal Condiciones.

#[local] Set Warnings "-clear-no-such-hyp".

Section Grafo.

Variable int_of_str : string -> option Z.

Lemma enteros_cases (cids : list json) :
  (exists ids, enteros int_of_str cids = Ok ids)
  \/ enteros int_of_str cids = Raise TypeError
  \/ enteros int_of_str cids = Raise ValueError.
Proof.
  induction cids as [|cid cids IH]; [left; eexists; reflexivity|].
  cbn [enteros].
  assert (Hcid : (exists z, int_of_json int_of_str cid = Ok z)
                 \/ int_of_json int_of_str cid = Raise TypeError
                 \/ int_of_json int_of_str cid = Raise ValueError).
  { destruct cid; cbn [int_of_json]; eauto. destruct (int_of_str s); eauto. }
  destruct Hcid as [[z ->]|[-> | ->]]; cbn [mbind res_bind Py.bind]; auto.
  destruct IH as [[ids ->]|[-> | ->]]; cbn [mbind res_bind Py.bind]; eauto.
Qed.

Lemma compatible_ids_cases (share_rolls : json_text) :
  (exists ids, compatible_ids int_of_str share_rolls = Ok ids)
  \/ compatible_ids int_of_str share_rolls = Raise TypeError
  \/ compatible_ids int_of_str share_rolls = Raise ValueError
  \/ compatible_ids int_of_str share_rolls = Raise JSONDecodeError.
Proof.
  unfold compatible_ids.
  destruct (JsonErrorProps.loads_cases share_rolls) as [[v ->]| ->];
    cbn [mbind res_bind Py.bind]; [|auto].
  destruct v; cbn [iterar mbind res_bind Py.bind]; auto;
    match goal with
    | |- context [enteros int_of_str ?l] =>
        destruct (enteros_cases l) as [[ids ->]|[-> | ->]]; eauto
    end.
Qed.

Lemma foldl_conectar_vuelta (m_id : Z) (l : list Z) :
  forall (graph : gmap Z (gset Z)) (k : Z),
    foldl (conectar_vuelta m_id) graph l !! k
    = (fun s => if decide (k ∈ l) then s ∪ {[ m_id ]} else s) <$> (graph !! k).
Proof.
  induction l as [|c l IH]; intros graph k; cbn [foldl].
  - destruct (graph !! k) as [s|]; cbn; [|reflexivity].
    rewrite decide_False by apply not_elem_of_nil. reflexivity.
  - rewrite IH. unfold conectar_vuelta.
    destruct (decide (k = c)) as [->|Hne].
    + destruct (graph !! c) as [s|] eqn:Ec.
      * rewrite lookup_insert_eq. cbn. rewrite (decide_True (P := c ∈ c :: l)) by left.
        f_equal. destruct (decide (c ∈ l)); set_solver.
      * rewrite Ec. reflexivity.
    + assert (Hk : match graph !! c with
                   | Some s => <[c := s ∪ {[ m_id ]}]> graph
                   | None => graph
                   end !! k = graph !! k).
      { destruct (graph !! c); [apply lookup_insert_ne; congruence|reflexivity]. }
      rewrite Hk. destruct (graph !! k) as [s|]; cbn; [|reflexivity].
      f_equal. destruct (decide (k ∈ l)) as [Hin|Hnot].
      * rewrite decide_True by (right; exact Hin). reflexivity.
      * rewrite decide_False; [reflexivity|].
        intros Hin. apply elem_of_cons in Hin as [?|?]; contradiction.
Qed.

Lemma conectar_elem (graph : gmap Z (gset Z)) (m_id : Z) (ids : gset Z) :
  is_Some (graph !! m_id) ->
  exists graph',
    conectar graph m_id ids = Ok graph' /\
    (forall k, is_Some (graph' !! k) <-> is_Some (graph !! k)) /\
    (forall k s', graph' !! k = Some s' ->
       exists s, graph !! k = Some s /\
         forall b, b ∈ s' <-> b ∈ s \/ (k = m_id /\ b ∈ ids) \/ (k ∈ ids /\ b = m_id)).
Proof.
  intros [s0 Hs0]. unfold conectar. rewrite Hs0. eexists. split; [reflexivity|].
  assert (Hins : forall k, <[m_id := s0 ∪ ids]> graph !! k
                           = (fun s => if decide (k = m_id) then s ∪ ids else s)
                               <$> (graph !! k)).
  { intros k. destruct (decide (k = m_id)) as [->|Hne].
    - rewrite lookup_insert_eq, Hs0. reflexivity.
    - rewrite lookup_insert_ne by congruence. destruct (graph !! k); reflexivity. }
  split.
  - intros k. rewrite foldl_conectar_vuelta, Hins, !fmap_is_Some. reflexivity.
  - intros k s'. rewrite foldl_conectar_vuelta, Hins.
    destruct (graph !! k) as [s|]; cbn; [|discriminate].
    intros Hs'. injection Hs' as <-. exists s. split; [reflexivity|]. intros b.
    destruct (decide (k ∈ elements ids)) as [Hin|Hnot];
      destruct (decide (k = m_id)) as [Hk|Hk];
      rewrite ?elem_of_elements in *; set_solver.
Qed.

(** The state of the graph after the machines [hechas]: its keys are
    [keys] and its connections are the declared ones, in both directions. *)
Let invariante (keys : list Z) (hechas : list (MachineModel * option json_text))
  (graph : gmap Z (gset Z)) : Prop :=
  (forall k, is_Some (graph !! k) <-> k ∈ keys) /\
  (forall a s, graph !! a = Some s ->
     forall b, b ∈ s <->
       (exists m, m ∈ hechas /\ machine_id m.1 = a /\ b ∈ declaradas int_of_str m)
       \/ (exists m, m ∈ hechas /\ machine_id m.1 = b /\ a ∈ declaradas int_of_str m)).

Lemma invariante_sin_declaradas (keys : list Z) (hechas : list (MachineModel * option json_text))
  (graph : gmap Z (gset Z)) (m : MachineModel * option json_text) :
  declaradas int_of_str m = ∅ -> invariante keys hechas graph ->
  invariante keys (hechas ++ [m]) graph.
Proof.
  intros Hd [Hkeys Hedges]. split; [exact Hkeys|].
  intros a s Ha b. rewrite (Hedges a s Ha b).
  split; (intros [(m' & Hin & Hid & Hb)|(m' & Hin & Hid & Hb)]; [left|right]; exists m').
  - split; [apply elem_of_app; left; exact Hin|tauto].
  - split; [apply elem_of_app; left; exact Hin|tauto].
  - apply elem_of_app in Hin as [Hin|Hin]; [tauto|].
    apply list_elem_of_singleton in Hin. subst m'. rewrite Hd in Hb. set_solver.
  - apply elem_of_app in Hin as [Hin|Hin]; [tauto|].
    apply list_elem_of_singleton in Hin. subst m'. rewrite Hd in Hb. set_solver.
Qed.

Lemma conectar_maquina_spec (keys : list Z) (hechas : list (MachineModel * option json_text))
  (graph : gmap Z (gset Z)) (m : MachineModel * option json_text) :
  invariante keys hechas graph -> machine_id m.1 ∈ keys ->
  (rodillos_no_iterables int_of_str m /\ conectar_maquina int_of_str graph m = Raise TypeError)
  \/ (~ rodillos_no_iterables int_of_str m /\
      exists graph', conectar_maquina int_of_str graph m = Ok graph' /\
                     invariante keys (hechas ++ [m]) graph').
Proof.
  intros Hinv Hkey. unfold conectar_maquina, rodillos_no_iterables.
  destruct m as [maq [share_rolls|]]; cbn [fst snd] in *.
  2: { right. split; [intros (s & Hs & _); discriminate Hs|].
       eexists. split; [reflexivity|].
       apply invariante_sin_declaradas; [reflexivity|exact Hinv]. }
  destruct (truthy_text share_rolls) eqn:Et.
  2: { right. split; [intros (s & Hs & Ht & _); injection Hs as <-; congruence|].
       eexists. split; [reflexivity|].
       apply invariante_sin_declaradas; [|exact Hinv].
       unfold declaradas. cbn [snd]. rewrite Et. reflexivity. }
  destruct (compatible_ids_cases share_rolls) as [[ids Hids]|[Hc|[Hc|Hc]]].
  - right. split; [intros (s & Hs & _ & Hraise); injection Hs as <-; congruence|].
    rewrite Hids. cbn [mbind res_bind Py.bind].
    destruct Hinv as [Hkeys Hedges].
    destruct (conectar_elem graph (machine_id maq) ids (proj2 (Hkeys _) Hkey))
      as (graph' & Hok & Hsome & Helem).
    rewrite Hok. cbn [try_json_value]. exists graph'. split; [reflexivity|].
    assert (Hd : declaradas int_of_str (maq, Some share_rolls) = ids).
    { unfold declaradas. cbn [snd]. rewrite Et, Hids. reflexivity. }
    split.
    + intros k. rewrite Hsome. apply Hkeys.
    + intros a s' Ha b. destruct (Helem a s' Ha) as (s & Hs & Hb).
      rewrite Hb, (Hedges a s Hs b). split.
      * intros [[(m' & Hin & Hm')|(m' & Hin & Hm')]|[[Hk Hbi]|[Hk Hbi]]].
        -- left. exists m'. split; [apply elem_of_app; left; exact Hin|exact Hm'].
        -- right. exists m'. split; [apply elem_of_app; left; exact Hin|exact Hm'].
        -- left. exists (maq, Some share_rolls).
           split; [apply elem_of_app; right; left|]. rewrite Hd. cbn [fst]. auto.
        -- right. exists (maq, Some share_rolls).
           split; [apply elem_of_app; right; left|]. rewrite Hd. cbn [fst]. auto.
      * intros [(m' & Hin & Hid & Hbm)|(m' & Hin & Hid & Hbm)];
          apply elem_of_app in Hin as [Hin|Hin].
        -- left. left. eauto.
        -- apply list_elem_of_singleton in Hin. subst m'. rewrite Hd in Hbm.
           cbn [fst] in Hid. right. left. auto.
        -- left. right. eauto.
        -- apply list_elem_of_singleton in Hin. subst m'. rewrite Hd in Hbm.
           cbn [fst] in Hid. right. right. auto.
  - left. split; [exists share_rolls; auto|]. rewrite Hc. reflexivity.
  - right. split; [intros (s & Hs & _ & Hraise); injection Hs as <-; congruence|].
    rewrite Hc. cbn [mbind res_bind Py.bind try_json_value].
    eexists. split; [reflexivity|].
    apply invariante_sin_declaradas; [|exact Hinv].
    unfold declaradas. cbn [snd]. rewrite Et, Hc. reflexivity.
  - right. split; [intros (s & Hs & _ & Hraise); injection Hs as <-; congruence|].
    rewrite Hc. cbn [mbind res_bind Py.bind try_json_value].
    eexists. split; [reflexivity|].
    apply invariante_sin_declaradas; [|exact Hinv].
    unfold declaradas. cbn [snd]. rewrite Et, Hc. reflexivity.
Qed.

Lemma conectar_maquinas_spec (keys : list Z) (machines : list (MachineModel * option json_text)) :
  forall (hechas : list (MachineModel * option json_text)) (graph : gmap Z (gset Z)),
    invariante keys hechas graph ->
    Forall (fun m => machine_id m.1 ∈ keys) machines ->
    (Exists (rodillos_no_iterables int_of_str) machines /\
     conectar_maquinas int_of_str graph machines = Raise TypeError)
    \/ (~ Exists (rodillos_no_iterables int_of_str) machines /\
        exists graph', conectar_maquinas int_of_str graph machines = Ok graph' /\
                       invariante keys (hechas ++ machines) graph').
Proof.
  induction machines as [|m machines IH]; intros hechas graph Hinv Hkeys.
  - right. split; [intros Hex; inversion Hex|].
    exists graph. split; [reflexivity|]. rewrite app_nil_r. exact Hinv.
  - apply Forall_cons in Hkeys as [Hkey Hkeys]. cbn [conectar_maquinas].
    destruct (conectar_maquina_spec keys hechas graph m Hinv Hkey)
      as [[Hbad Hraise]|[Hgood (graph1 & Hok & Hinv1)]].
    + left. split; [left; exact Hbad|]. rewrite Hraise. reflexivity.
    + rewrite Hok. cbn [mbind res_bind Py.bind].
      destruct (IH (hechas ++ [m]) graph1 Hinv1 Hkeys)
        as [[Hbad Hraise]|[Hgood' (graph' & Hok' & Hinv')]].
      * left. split; [right; exact Hbad|exact Hraise].
      * right. split.
        -- intros Hex. apply Exists_cons in Hex as [?|?]; contradiction.
        -- exists graph'. split; [exact Hok'|]. rewrite <- app_assoc in Hinv'. exact Hinv'.
Qed.

Lemma grafo_vacio_lookup (machines : list (MachineModel * option json_text)) (k : Z) :
  (is_Some (grafo_vacio machines !! k) <-> k ∈ (fun m => machine_id m.1) <$> machines) /\
  (forall s, grafo_vacio machines !! k = Some s -> s = ∅).
Proof.
  unfold grafo_vacio.
  assert (H : forall acc : gmap Z (gset Z),
             (is_Some (foldl (fun graph m => <[machine_id m.1 := ∅]> graph) acc machines !! k)
              <-> k ∈ (fun m => machine_id m.1) <$> machines \/ is_Some (acc !! k)) /\
             (forall s, foldl (fun graph m => <[machine_id m.1 := ∅]> graph) acc machines !! k
                        = Some s ->
                        s = ∅ \/ acc !! k = Some s)).
  { induction machines as [|m machines IH]; intros acc; cbn [foldl].
    - split; [|auto]. rewrite fmap_nil. split; [auto|].
      intros [Hin|Hacc]; [inversion Hin|exact Hacc].
    - destruct (IH (<[machine_id m.1 := ∅]> acc)) as [IH1 IH2]. split.
      + rewrite IH1, fmap_cons, elem_of_cons.
        destruct (decide (machine_id m.1 = k)) as [<-|Hne].
        * rewrite lookup_insert_eq. split; [auto|]. intros _. right. eauto.
        * rewrite lookup_insert_ne by exact Hne. split.
          -- intros [?|?]; auto.
          -- intros [[?|?]|?]; auto. congruence.
      + intros s Hs. destruct (IH2 s Hs) as [?|Hacc]; [auto|].
        destruct (decide (machine_id m.1 = k)) as [<-|Hne].
        * rewrite lookup_insert_eq in Hacc. injection Hacc as <-. auto.
        * rewrite lookup_insert_ne in Hacc by exact Hne. auto. }
  destruct (H ∅) as [H1 H2]. split.
  - rewrite H1. split; [intros [?|Hempty]; [assumption|]|auto].
    rewrite lookup_empty in Hempty. destruct Hempty as [? Hempty]. discriminate Hempty.
  - intros s Hs. destruct (H2 s Hs) as [?|Hempty]; [assumption|].
    rewrite lookup_empty in Hempty. discriminate Hempty.
Qed.

Lemma build_graph_forma (machines : list (MachineModel * option json_text)) :
  (Exists (rodillos_no_iterables int_of_str) machines /\
   _build_machine_compatibility_graph int_of_str machines = Raise TypeError)
  \/ (~ Exists (rodillos_no_iterables int_of_str) machines /\
      exists graph,
        _build_machine_compatibility_graph int_of_str machines = Ok graph /\
        (forall a, is_Some (graph !! a) <-> a ∈ (fun m => machine_id m.1) <$> machines) /\
        (forall a s, graph !! a = Some s ->
           forall b, b ∈ s <->
             a ≠ b /\
             ((exists m, m ∈ machines /\ machine_id m.1 = a /\ b ∈ declaradas int_of_str m)
              \/ (exists m, m ∈ machines /\ machine_id m.1 = b
                            /\ a ∈ declaradas int_of_str m)))).
Proof.
  unfold _build_machine_compatibility_graph.
  set (keys := (fun m : MachineModel * option json_text => machine_id m.1) <$> machines).
  assert (Hinv0 : invariante keys [] (grafo_vacio machines)).
  { split.
    - intros k. apply grafo_vacio_lookup.
    - intros a s Ha b. apply (proj2 (grafo_vacio_lookup machines a)) in Ha. subst s.
      split; [set_solver|].
      intros [(m & Hin & _)|(m & Hin & _)]; inversion Hin. }
  assert (Hkeys : Forall (fun m => machine_id m.1 ∈ keys) machines).
  { apply Forall_forall. intros m Hm. unfold keys. apply list_elem_of_fmap. eauto. }
  destruct (conectar_maquinas_spec keys machines [] (grafo_vacio machines) Hinv0 Hkeys)
    as [[Hbad Hraise]|[Hgood (graph & Hok & [Hdom Hedges])]].
  - left. split; [exact Hbad|]. rewrite Hraise. reflexivity.
  - right. split; [exact Hgood|]. rewrite Hok. cbn [mbind res_bind Py.bind app] in *.
    eexists. split; [reflexivity|]. unfold descartar_propia. split.
    + intros a. rewrite map_lookup_imap, <- Hdom.
      destruct (graph !! a); cbn; split; intros [? ?]; eauto; discriminate.
    + intros a s. rewrite map_lookup_imap.
      destruct (graph !! a) as [s0|] eqn:Ea; cbn; [|discriminate].
      intros Hs. injection Hs as <-. intros b.
      rewrite elem_of_difference, (Hedges a s0 Ea b), elem_of_singleton.
      split; intros [? ?]; split; auto.
Qed.

(** X17. When [_build_machine_compatibility_graph] returns, the graph has
    one key per machine id; the connections of a machine [a] are the ids it
    declares and the machines that declare [a], without [a] itself (a
    column that is empty, not JSON, or holds a text that is not a number
    declares nothing).  So no machine is connected to itself, and between
    machines of the list the relation is symmetric. *)
Theorem compatibility_graph_edges (machines : list (MachineModel * option json_text))
  (graph : gmap Z (gset Z)) :
  _build_machine_compatibility_graph int_of_str machines = Ok graph ->
  (forall a, is_Some (graph !! a) <-> a ∈ (fun m => machine_id m.1) <$> machines) /\
  (forall a s, graph !! a = Some s ->
     forall b, b ∈ s <->
       a ≠ b /\
       ((exists m, m ∈ machines /\ machine_id m.1 = a /\ b ∈ declaradas int_of_str m)
        \/ (exists m, m ∈ machines /\ machine_id m.1 = b /\ a ∈ declaradas int_of_str m))) /\
  (forall a s, graph !! a = Some s -> a ∉ s) /\
  (forall a b sa sb, graph !! a = Some sa -> graph !! b = Some sb -> b ∈ sa -> a ∈ sb).
Proof.
  intros Hok.
  destruct (build_graph_forma machines) as [[_ Hraise]|[_ (graph' & Hok' & Hdom & Hedges)]];
    [congruence|].
  assert (graph' = graph) by congruence. subst graph'.
  split; [exact Hdom|]. split; [exact Hedges|]. split.
  - intros a s Ha Hin. apply (Hedges a s Ha a) in Hin as [Hne _]. contradiction.
  - intros a b sa sb Ha Hb Hin. apply (Hedges a sa Ha b) in Hin as [Hne Hd].
    apply (Hedges b sb Hb a). split; [congruence|]. tauto.
Qed.

End Grafo.

Lemma compatibility_graph_edges_witness :
  exists graph,
    _build_machine_compatibility_graph Ejemplos.int_decimal Ejemplos.maquinas_con_rodillos
    = Ok graph /\
    graph = {[ 1%Z := {[ 2%Z; 7%Z ]}; 2%Z := {[ 1%Z ]}; 3%Z := ∅ ]} /\
    forall a s, graph !! a = Some s -> a ∉ s.
Proof.
  assert (E : _build_machine_compatibility_graph Ejemplos.int_decimal
                Ejemplos.maquinas_con_rodillos
              = Ok {[ 1%Z := {[ 2%Z; 7%Z ]}; 2%Z := {[ 1%Z ]}; 3%Z := ∅ ]})
    by (vm_compute; reflexivity).
  eexists. split; [exact E|]. split; [reflexivity|].
  exact (proj1 (proj2 (proj2 (compatibility_graph_edges Ejemplos.int_decimal
                                Ejemplos.maquinas_con_rodillos _ E)))).
Defined.

End GraphProps.

(** ** Delivery dates on a calendar without closed hours *)

Module ExactDates.

Import Calculators Spec.

Lemma suma_Permutation (l l' : list Q) : l ≡ₚ l' -> suma l == suma l'.
Proof.
  induction 1 as [|x l l' Hp IH|x y l|l l' l'' Hp IH Hp' IH']; cbn [suma foldr].
  - reflexivity.
  - fold (suma l). fold (suma l'). rewrite IH. reflexivity.
  - ring.
  - fold (suma l) in *. fold (suma l') in *. fold (suma l'') in *.
    rewrite IH. exact IH'.
Qed.

Section Calendario.

Variable config : PlannerConfig.
Variable fuel : nat.
Variable machine : MachineModel.

Hypothesis H247 : trabaja_24_7 config = true.

Lemma calcular_orden_24_7 (ordenes : list SchedulableOrderModel) (i : nat)
  (o : SchedulableOrderModel) (fecha : datetime) (r : orden_con_fecha) (fecha' : datetime) :
  calcular_orden config fuel ordenes machine i o fecha = Ok (r, fecha') ->
  probable_fecha_entrega r = fecha' /\
  fecha' == fecha + duracion_en_calendario config machine o.
Proof.
  intros Hpaso.
  destruct (DateCalculatorProps.calcular_orden_total _ _ _ _ _ _ _ _ _ Hpaso)
    as (real & Hreal & _ & _ & _ & Hadv).
  split.
  - revert Hpaso. unfold calcular_orden.
    match goal with
    | |- (?c ≫= _) = _ -> _ => destruct c as [setup| |]; try discriminate
    end.
    cbn [mbind res_bind Py.bind]. rewrite Hreal. cbn [mbind res_bind Py.bind].
    rewrite Hadv. cbn [mbind res_bind Py.bind].
    intros Hok. injection Hok as <-. reflexivity.
  - unfold _ajustar_horario_laboral in Hadv. rewrite H247 in Hadv.
    injection Hadv as <-. unfold duracion_en_calendario. rewrite Hreal.
    unfold plus_minutes. ring.
Qed.

Lemma recorrer_ordenes_24_7 (ordenes pendientes : list SchedulableOrderModel) :
  forall (i : nat) (fecha : datetime) (rs : list orden_con_fecha),
    recorrer_ordenes config fuel ordenes machine i pendientes fecha = Ok rs ->
    forall (j : nat) (r : orden_con_fecha),
      rs !! j = Some r ->
      probable_fecha_entrega r
      == fecha + suma (duracion_en_calendario config machine <$> take (S j) pendientes).
Proof.
  induction pendientes as [|o pendientes IH]; intros i fecha rs Hrec j r Hj.
  - cbn in Hrec. injection Hrec as <-. rewrite lookup_nil in Hj. discriminate Hj.
  - cbn [recorrer_ordenes] in Hrec.
    destruct (calcular_orden config fuel ordenes machine i o fecha) as [[r0 fecha']| |] eqn:E;
      try discriminate Hrec.
    cbn [mbind res_bind Py.bind fst snd] in Hrec.
    destruct (recorrer_ordenes config fuel ordenes machine (S i) pendientes fecha')
      as [resto| |] eqn:Eresto; try discriminate Hrec.
    cbn [mbind res_bind Py.bind] in Hrec. injection Hrec as <-.
    destruct (calcular_orden_24_7 ordenes i o fecha r0 fecha' E) as [Hr0 Hfecha'].
    destruct j as [|j].
    + cbn in Hj. injection Hj as <-. rewrite Hr0, Hfecha'.
      change (take 1 (o :: pendientes)) with [o].
      rewrite fmap_cons, fmap_nil. unfold suma. cbn [foldr]. ring.
    + cbn in Hj. rewrite (IH (S i) fecha' resto Eresto j r Hj), Hfecha'.
      change (take (S (S j)) (o :: pendientes)) with (o :: take (S j) pendientes).
      rewrite fmap_cons. unfold suma. cbn [foldr]. ring.
Qed.

(** X19. On a calendar without closed hours (the test [trabaja_24_7] of the
    code, which the configuration of the service passes), the probable
    delivery date of the order at position [j] is the start date plus, for
    each order up to [j], its real print time and the buffer on it: setup
    times and label changes move no date.  Hence the date of the last
    order is the same for every sequence of the same orders. *)
Theorem dates_without_closed_hours (ordenes : list SchedulableOrderModel)
  (fecha_inicio : datetime) (rs : list orden_con_fecha) :
  calcular_fechas_probables config fuel ordenes fecha_inicio machine = Ok rs ->
  (forall j r, rs !! j = Some r ->
     probable_fecha_entrega r
     == fecha_inicio
        + suma (duracion_en_calendario config machine <$> take (S j) ordenes)) /\
  (forall ordenes' rs' r r',
     ordenes' ≡ₚ ordenes ->
     calcular_fechas_probables config fuel ordenes' fecha_inicio machine = Ok rs' ->
     last rs = Some r -> last rs' = Some r' ->
     probable_fecha_entrega r == probable_fecha_entrega r').
Proof.
  intros Hok.
  assert (Hultima : forall os qs q,
             calcular_fechas_probables config fuel os fecha_inicio machine = Ok qs ->
             last qs = Some q ->
             probable_fecha_entrega q
             == fecha_inicio + suma (duracion_en_calendario config machine <$> os)).
  { intros os qs q Hqs Hq.
    pose proof (ScheduleProps.calcular_fechas_probables_orden fuel config os fecha_inicio
                  machine qs Hqs) as Hlen.
    apply (f_equal length) in Hlen. rewrite length_fmap in Hlen.
    rewrite last_lookup in Hq. unfold calcular_fechas_probables in Hqs.
    rewrite (recorrer_ordenes_24_7 os os 0%nat fecha_inicio qs Hqs _ q Hq).
    destruct qs as [|q0 qs]; [rewrite lookup_nil in Hq; discriminate Hq|].
    cbn [length Nat.pred] in *. rewrite firstn_all2 by lia. reflexivity. }
  split.
  - unfold calcular_fechas_probables in Hok.
    exact (recorrer_ordenes_24_7 ordenes ordenes 0%nat fecha_inicio rs Hok).
  - intros ordenes' rs' r r' Hperm Hok' Hr Hr'.
    rewrite (Hultima ordenes rs r Hok Hr), (Hultima ordenes' rs' r' Hok' Hr').
    rewrite (suma_Permutation _ _ (fmap_Permutation _ _ _ Hperm)). reflexivity.
Qed.

End Calendario.

Lemma dates_without_closed_hours_witness :
  exists rs rs' r r',
    calcular_fechas_probables SchedulingService.planner_config 0
      [Ejemplos.orden_A; Ejemplos.orden_B] (at_day Ejemplos.lunes 8 0) Ejemplos.maquina_1
    = Ok rs /\
    calcular_fechas_probables SchedulingService.planner_config 0
      [Ejemplos.orden_B; Ejemplos.orden_A] (at_day Ejemplos.lunes 8 0) Ejemplos.maquina_1
    = Ok rs' /\
    last rs = Some r /\ last rs' = Some r' /\
    probable_fecha_entrega r == probable_fecha_entrega r'.
Proof.
  destruct (calcular_fechas_probables SchedulingService.planner_config 0
              [Ejemplos.orden_A; Ejemplos.orden_B] (at_day Ejemplos.lunes 8 0)
              Ejemplos.maquina_1) as [rs| |] eqn:E; [|vm_compute in E; discriminate..].
  destruct (calcular_fechas_probables SchedulingService.planner_config 0
              [Ejemplos.orden_B; Ejemplos.orden_A] (at_day Ejemplos.lunes 8 0)
              Ejemplos.maquina_1) as [rs'| |] eqn:E'; [|vm_compute in E'; discriminate..].
  destruct (last rs) as [r|] eqn:Er;
    [|vm_compute in E; injection E as <-; discriminate Er].
  destruct (last rs') as [r'|] eqn:Er';
    [|vm_compute in E'; injection E' as <-; discriminate Er'].
  exists rs, rs', r, r'.
  split; [reflexivity|]. split; [reflexivity|]. split; [exact Er|]. split; [exact Er'|].
  apply (proj2 (dates_without_closed_hours SchedulingService.planner_config 0
                  Ejemplos.maquina_1 ltac:(vm_compute; reflexivity)
                  [Ejemplos.orden_A; Ejemplos.orden_B] (at_day Ejemplos.lunes 8 0) rs E)
           [Ejemplos.orden_B; Ejemplos.orden_A] rs' r r' (perm_swap _ _ _) E' Er Er').
Defined.

End ExactDates.

(** ** Reassigning orders between compatible machines *)

Module ReassignProps.

Import OptimizadorTotal Condiciones.

Lemma num_colores_json_Ok (orden : SchedulableOrderModel) :
  exists n, num_colores_json orden = Ok n.
Proof.
  unfold num_colores_json. destruct (colores orden) as [c|]; [|eexists; reflexivity].
  destruct (truthy_text c && is_not_null_literal c); [|eexists; reflexivity].
  destruct (JsonErrorProps.loads_cases c) as [[v ->]| ->];
    cbn [mbind res_bind Py.bind try_json_type]; [|eexists; reflexivity].
  destruct v; cbn [py_len try_json_type]; eexists; reflexivity.
Qed.

Lemma loads_set_is_Some (machine_loads : list (Z * Z)) (k m_id carga : Z) :
  is_Some (loads_get machine_loads k) ->
  is_Some (loads_get (loads_set machine_loads m_id carga) k).
Proof.
  induction machine_loads as [|[k' c] resto IH]; cbn [loads_get loads_set]; intros Hk.
  - destruct Hk as [? Hk]. discriminate Hk.
  - destruct (k' =? m_id)%Z eqn:Em; cbn [loads_get];
      destruct (k' =? k)%Z; eauto.
Qed.

Lemma loads_get_elem (machine_loads : list (Z * Z)) (k : Z) :
  k ∈ fst <$> machine_loads -> is_Some (loads_get machine_loads k).
Proof.
  induction machine_loads as [|[k' c] resto IH]; intros Hk; [inversion Hk|].
  cbn [loads_get]. destruct (k' =? k)%Z eqn:E; [eauto|].
  apply Z.eqb_neq in E. rewrite fmap_cons in Hk. cbn [fst] in Hk.
  apply elem_of_cons in Hk as [Hk|Hk]; [congruence|]. exact (IH Hk).
Qed.

Lemma insertar_desc_Permutation (x : Z * Z) (l : list (Z * Z)) : insertar_desc x l ≡ₚ x :: l.
Proof.
  induction l as [|y l IH]; cbn [insertar_desc]; [reflexivity|].
  destruct (y.2 <? x.2)%Z; [reflexivity|]. rewrite IH. apply perm_swap.
Qed.

Lemma claves_por_carga_elem (machine_loads : list (Z * Z)) (k : Z) :
  k ∈ claves_por_carga machine_loads -> is_Some (loads_get machine_loads k).
Proof.
  assert (Hperm : forall acc,
             foldl (fun acc x => insertar_desc x acc) acc machine_loads
             ≡ₚ acc ++ machine_loads).
  { induction machine_loads as [|x l IH]; intros acc; cbn [foldl].
    - rewrite app_nil_r. reflexivity.
    - rewrite IH, insertar_desc_Permutation. apply Permutation_middle. }
  unfold claves_por_carga. intros Hk. apply loads_get_elem.
  rewrite (Hperm []) in Hk. exact Hk.
Qed.

Lemma ordenes_de_maquina_elem (orders_by_machine : list (Z * list SchedulableOrderModel))
  (m_id : Z) (orden : SchedulableOrderModel) :
  orden ∈ ordenes_de_maquina orders_by_machine m_id ->
  (m_id, ordenes_de_maquina orders_by_machine m_id) ∈ orders_by_machine.
Proof.
  induction orders_by_machine as [|[k ordenes] resto IH]; cbn [ordenes_de_maquina];
    intros Hin; [inversion Hin|].
  destruct (k =? m_id)%Z eqn:E.
  - apply Z.eqb_eq in E. subst k. left.
  - right. exact (IH Hin).
Qed.

Section Reasignar.

Variable iterar : gset Z -> list Z.
Variable machines : list MachineModel.
Variable machine_graph : gmap Z (gset Z).
Variable orders_by_machine : list (Z * list SchedulableOrderModel).

Hypothesis Hiterar : forall (s : gset Z) (x : Z), x ∈ iterar s -> x ∈ s.

Lemma mejor_por_capacidad_spec (machine_loads : list (Z * Z)) (n : Z)
  (compatible_machines : list Z) :
  forall mejor,
    mejor_por_capacidad machines machine_loads n compatible_machines mejor = mejor
    \/ exists c m,
         mejor_por_capacidad machines machine_loads n compatible_machines mejor
         = (Some c, tintas m) /\
         c ∈ compatible_machines /\ machines_dict_get machines c = Some m /\
         (n <= tintas m)%Z /\ (mejor.2 < tintas m)%Z.
Proof.
  induction compatible_machines as [|comp_id resto IH]; intros mejor;
    cbn [mejor_por_capacidad]; [left; reflexivity|].
  assert (Hresto : forall mejor',
             mejor_por_capacidad machines machine_loads n resto mejor' = mejor'
             \/ exists c m,
                  mejor_por_capacidad machines machine_loads n resto mejor' = (Some c, tintas m) /\
                  c ∈ comp_id :: resto /\ machines_dict_get machines c = Some m /\
                  (n <= tintas m)%Z /\ (mejor'.2 < tintas m)%Z).
  { intros mejor'. destruct (IH mejor') as [Heq|(c & m & Heq & Hc & Hrest)]; [left; exact Heq|].
    right. exists c, m. split; [exact Heq|]. split; [right; exact Hc|exact Hrest]. }
  destruct (machines_dict_get machines comp_id) as [comp_machine|] eqn:Eget; [|apply Hresto].
  cbv zeta.
  destruct (n <=? tintas comp_machine)%Z eqn:E1; cbn [andb]; [|apply Hresto].
  destruct (mejor.2 <? tintas comp_machine)%Z eqn:E2; [|apply Hresto].
  destruct (default 0%Z (loads_get machine_loads comp_id) <? 50)%Z; [|apply Hresto].
  apply Z.leb_le in E1. apply Z.ltb_lt in E2. right.
  destruct (Hresto (Some comp_id, tintas comp_machine)) as [Heq|(c & m & Heq & Hc & Hm & Hn & Hlt)].
  - exists comp_id, comp_machine. rewrite Heq. split; [reflexivity|]. split; [left|]. auto.
  - exists c, m. rewrite Heq. split; [reflexivity|]. split; [exact Hc|].
    split; [exact Hm|]. split; [exact Hn|]. cbn [snd] in Hlt. lia.
Qed.

Lemma mejor_por_carga_spec (machine_loads : list (Z * Z)) (n carga_actual : Z)
  (compatible_machines : list Z) :
  forall mejor,
    mejor_por_carga machines machine_loads n carga_actual compatible_machines mejor = mejor
    \/ exists c m carga,
         mejor_por_carga machines machine_loads n carga_actual compatible_machines mejor
         = (Some c, carga) /\
         c ∈ compatible_machines /\ machines_dict_get machines c = Some m /\
         (n <= tintas m)%Z /\ (carga < mejor.2)%Z /\ (5 <= carga_actual - carga)%Z.
Proof.
  induction compatible_machines as [|comp_id resto IH]; intros mejor;
    cbn [mejor_por_carga]; [left; reflexivity|].
  assert (Hresto : forall mejor',
             mejor_por_carga machines machine_loads n carga_actual resto mejor' = mejor'
             \/ exists c m carga,
                  mejor_por_carga machines machine_loads n carga_actual resto mejor'
                  = (Some c, carga) /\
                  c ∈ comp_id :: resto /\ machines_dict_get machines c = Some m /\
                  (n <= tintas m)%Z /\ (carga < mejor'.2)%Z /\ (5 <= carga_actual - carga)%Z).
  { intros mejor'. destruct (IH mejor') as [Heq|(c & m & carga & Heq & Hc & Hrest)];
      [left; exact Heq|].
    right. exists c, m, carga. split; [exact Heq|]. split; [right; exact Hc|exact Hrest]. }
  destruct (machines_dict_get machines comp_id) as [comp_machine|] eqn:Eget; [|apply Hresto].
  cbv zeta. set (comp_load := default 0%Z (loads_get machine_loads comp_id)).
  destruct (n <=? tintas comp_machine)%Z eqn:E1; cbn [andb]; [|apply Hresto].
  destruct (comp_load <? mejor.2)%Z eqn:E2; cbn [andb]; [|apply Hresto].
  destruct (5 <=? carga_actual - comp_load)%Z eqn:E3; [|apply Hresto].
  apply Z.leb_le in E1, E3. apply Z.ltb_lt in E2. right.
  destruct (Hresto (Some comp_id, comp_load))
    as [Heq|(c & m & carga & Heq & Hc & Hm & Hn & Hlt & Hdif)].
  - exists comp_id, comp_machine, comp_load. rewrite Heq. split; [reflexivity|].
    split; [left|]. auto.
  - exists c, m, carga. rewrite Heq. split; [reflexivity|]. split; [exact Hc|].
    split; [exact Hm|]. split; [exact Hn|]. cbn [snd] in Hlt. split; [lia|exact Hdif].
Qed.

(** What the loops keep: the reassignments made so far are sound, no order
    id occurs twice among them, and their ids are recorded as reassigned. *)
Let invariante (st : estado) : Prop :=
  Forall (reasignacion_valida machines machine_graph orders_by_machine) (reasignaciones st) /\
  NoDup ((fun r => r.1.1) <$> reasignaciones st) /\
  (forall o_id, o_id ∈ (fun r : Z * Z * razon => r.1.1) <$> reasignaciones st ->
                o_id ∈ ordenes_ya_reasignadas st).

Let con_claves (claves : list Z) (st : estado) : Prop :=
  forall k, k ∈ claves -> is_Some (loads_get (machine_loads st) k).

Lemma invariante_mover (st : estado) (r : Z * Z * razon) (loads : list (Z * Z)) :
  invariante st ->
  reasignacion_valida machines machine_graph orders_by_machine r ->
  r.1.1 ∉ ordenes_ya_reasignadas st ->
  invariante {| reasignaciones := reasignaciones st ++ [r];
                ordenes_ya_reasignadas := {[ r.1.1 ]} ∪ ordenes_ya_reasignadas st;
                machine_loads := loads |}.
Proof.
  intros (Hval & Hnd & Hya) Hr Hnot. unfold invariante. cbn [reasignaciones ordenes_ya_reasignadas].
  split; [|split].
  - apply Forall_app. split; [exact Hval|]. constructor; [exact Hr|constructor].
  - rewrite fmap_app. apply NoDup_app. split; [exact Hnd|]. split.
    + intros o_id Hin Hin'. cbn in Hin'. apply list_elem_of_singleton in Hin'. subst o_id.
      apply Hnot, Hya, Hin.
    + cbn. apply NoDup_singleton.
  - intros o_id Hin. rewrite fmap_app in Hin. apply elem_of_app in Hin as [Hin|Hin].
    + apply elem_of_union. right. exact (Hya o_id Hin).
    + cbn in Hin. apply list_elem_of_singleton in Hin. subst o_id.
      apply elem_of_union. left. apply elem_of_singleton. reflexivity.
Qed.

Lemma revisar_capacidad_spec (claves : list Z) (current : Z)
  (ordenes : list SchedulableOrderModel) (compatible : gset Z) (current_machine : MachineModel)
  (st : estado) (orden : SchedulableOrderModel) :
  (current, ordenes) ∈ orders_by_machine -> orden ∈ ordenes ->
  machine_graph !! current = Some compatible ->
  machines_dict_get machines current = Some current_machine ->
  invariante st -> con_claves claves st ->
  exists st',
    revisar_capacidad iterar machines current (tintas current_machine) compatible st orden
    = Ok st' /\ invariante st' /\ con_claves claves st'.
Proof.
  intros Hitem Horden Hgraph Hcurrent Hinv Hclaves. unfold revisar_capacidad.
  case_bool_decide as Hya; [eauto|].
  destruct (num_colores_json_Ok orden) as [n Hn]. rewrite Hn. cbn [mbind res_bind Py.bind].
  destruct (tintas current_machine <? n)%Z eqn:Ecap; [|eauto].
  apply Z.ltb_lt in Ecap.
  destruct (mejor_por_capacidad_spec (machine_loads st) n (iterar compatible)
              (None, tintas current_machine)) as [->|(c & m & -> & Hc & Hm & Hnm & Hlt)];
    cbn [fst snd]; [eauto|].
  destruct (c =? 0)%Z eqn:Ec; [eauto|]. apply Z.eqb_neq in Ec.
  eexists. split; [reflexivity|]. split.
  - apply (invariante_mover st (id orden, c, Requiere n (tintas current_machine) (tintas m)));
      [exact Hinv| |exact Hya].
    exists current, ordenes, orden, compatible, current_machine, m, n. cbn [fst snd].
    repeat split; auto.
  - intros k Hk. cbn [machine_loads]. apply loads_set_is_Some, loads_set_is_Some.
    exact (Hclaves k Hk).
Qed.

Lemma revisar_ordenes_spec (claves : list Z) (current : Z)
  (ordenes : list SchedulableOrderModel) (compatible : gset Z) (current_machine : MachineModel)
  (pendientes : list SchedulableOrderModel) :
  (current, ordenes) ∈ orders_by_machine ->
  machine_graph !! current = Some compatible ->
  machines_dict_get machines current = Some current_machine ->
  Forall (fun o => o ∈ ordenes) pendientes ->
  forall st,
    invariante st -> con_claves claves st ->
    exists st',
      revisar_ordenes iterar machines current (tintas current_machine) compatible pendientes st
      = Ok st' /\ invariante st' /\ con_claves claves st'.
Proof.
  intros Hitem Hgraph Hcurrent. induction 1 as [|orden pendientes Horden Hpend IH];
    intros st Hinv Hclaves; cbn [revisar_ordenes]; [eauto|].
  destruct (revisar_capacidad_spec claves current ordenes compatible current_machine st orden
              Hitem Horden Hgraph Hcurrent Hinv Hclaves) as (st1 & -> & Hinv1 & Hclaves1).
  cbn [mbind res_bind Py.bind]. exact (IH st1 Hinv1 Hclaves1).
Qed.

Lemma default_graph (current : Z) :
  default ∅ (machine_graph !! current) ≠ ∅ ->
  machine_graph !! current = Some (default ∅ (machine_graph !! current)).
Proof. destruct (machine_graph !! current); [reflexivity|]. intros H. contradiction. Qed.

Lemma fase_capacidad_spec (claves : list Z) (items : list (Z * list SchedulableOrderModel)) :
  Forall (fun item => item ∈ orders_by_machine) items ->
  forall st,
    invariante st -> con_claves claves st ->
    exists st',
      fase_capacidad iterar machines machine_graph items st = Ok st' /\
      invariante st' /\ con_claves claves st'.
Proof.
  induction 1 as [|[current ordenes] items Hitem Hitems IH]; intros st Hinv Hclaves;
    cbn [fase_capacidad]; [eauto|].
  destruct (machines_dict_get machines current) as [current_machine|] eqn:Ecur; [|auto].
  cbv zeta. case_bool_decide as Hvacio; [auto|].
  destruct (revisar_ordenes_spec claves current ordenes _ current_machine ordenes Hitem
              (default_graph current Hvacio) Ecur
              ltac:(apply Forall_forall; auto) st Hinv Hclaves)
    as (st1 & -> & Hinv1 & Hclaves1).
  cbn [mbind res_bind Py.bind]. exact (IH st1 Hinv1 Hclaves1).
Qed.

Lemma balancear_ordenes_spec (claves : list Z) (current max_mover : Z)
  (ordenes : list SchedulableOrderModel) (compatible : gset Z) (current_machine : MachineModel)
  (pendientes : list SchedulableOrderModel) :
  (current, ordenes) ∈ orders_by_machine ->
  machine_graph !! current = Some compatible ->
  machines_dict_get machines current = Some current_machine ->
  current ∈ claves ->
  Forall (fun o => o ∈ ordenes) pendientes ->
  forall st carga_actual movidas,
    invariante st -> con_claves claves st ->
    (max_mover - movidas <= carga_actual - 15)%Z ->
    exists st',
      balancear_ordenes iterar machines current max_mover compatible pendientes st
        carga_actual movidas = Ok st' /\
      invariante st' /\ con_claves claves st'.
Proof.
  intros Hitem Hgraph Hcurrent Hclave. induction 1 as [|orden pendientes Horden Hpend IH];
    intros st carga_actual movidas Hinv Hclaves Hcarga; cbn [balancear_ordenes]; [eauto|].
  case_bool_decide as Hya; [exact (IH st carga_actual movidas Hinv Hclaves Hcarga)|].
  destruct (max_mover <=? movidas)%Z eqn:Emax; [eauto|]. apply Z.leb_gt in Emax.
  destruct (num_colores_json_Ok orden) as [n Hn]. rewrite Hn. cbn [mbind res_bind Py.bind].
  destruct (mejor_por_carga_spec (machine_loads st) n carga_actual (iterar compatible)
              (None, carga_actual)) as [->|(c & m & carga & -> & Hc & Hm & Hnm & Hlt & Hdif)];
    cbn [fst snd]; [exact (IH st carga_actual movidas Hinv Hclaves Hcarga)|].
  destruct (c =? 0)%Z eqn:Ec; [exact (IH st carga_actual movidas Hinv Hclaves Hcarga)|].
  apply Z.eqb_neq in Ec.
  destruct (Hclaves current Hclave) as [carga0 ->].
  apply IH.
  - apply (invariante_mover st (id orden, c, Balanceo carga_actual carga));
      [exact Hinv| |exact Hya].
    exists current, ordenes, orden, compatible, current_machine, m, n. cbn [fst snd].
    repeat split; auto; lia.
  - intros k Hk. cbn [machine_loads]. apply loads_set_is_Some, loads_set_is_Some.
    exact (Hclaves k Hk).
  - lia.
Qed.

Lemma fase_balanceo_spec (claves : list Z) (pendientes : list Z) :
  Forall (fun k => k ∈ claves) pendientes ->
  forall st,
    invariante st -> con_claves claves st ->
    exists st',
      fase_balanceo iterar machines machine_graph orders_by_machine pendientes st = Ok st' /\
      invariante st' /\ con_claves claves st'.
Proof.
  induction 1 as [|current pendientes Hclave Hpend IH]; intros st Hinv Hclaves;
    cbn [fase_balanceo]; [eauto|].
  cbv zeta. set (carga_actual := default 0%Z (loads_get (machine_loads st) current)).
  destruct (carga_actual <=? 20)%Z; [auto|].
  destruct (machines_dict_get machines current) as [current_machine|] eqn:Ecur; [|auto].
  case_bool_decide as Hvacio; [auto|].
  set (ordenes := ordenes_de_maquina orders_by_machine current).
  assert (Hstep : exists st1,
             balancear_ordenes iterar machines current
               (Z.min (py_int (inject_Z carga_actual * (3 # 10))) (carga_actual - 15))
               (default ∅ (machine_graph !! current)) ordenes st carga_actual 0 = Ok st1 /\
             invariante st1 /\ con_claves claves st1).
  { destruct ordenes as [|o ordenes'] eqn:Eord; [cbn [balancear_ordenes]; eauto|].
    rewrite <- Eord.
    apply (balancear_ordenes_spec claves current _ ordenes _ current_machine ordenes);
      try assumption.
    - apply (ordenes_de_maquina_elem orders_by_machine current o).
      fold ordenes. rewrite Eord. left.
    - exact (default_graph current Hvacio).
    - apply Forall_forall. auto.
    - lia. }
  destruct Hstep as (st1 & -> & Hinv1 & Hclaves1).
  cbn [mbind res_bind Py.bind]. exact (IH st1 Hinv1 Hclaves1).
Qed.

(** X20. [_reasignar_ordenes_inteligente] raises nothing, whatever the
    colours of the orders decode to, and returns reassignments that are
    sound for its input: each one moves an order of the list of a known
    machine to a machine that the graph gives as compatible with it, that
    is known, is not machine 0 and has inks for the colours of the order
    (with strictly more inks than the source for a capacity reason; from a
    source of at least 16 orders to a target with at least 5 fewer for a
    balance reason); and no order id is reassigned twice. *)
Theorem reassignments_sound :
  exists rs,
    _reasignar_ordenes_inteligente iterar machines machine_graph orders_by_machine = Ok rs /\
    Forall (reasignacion_valida machines machine_graph orders_by_machine) rs /\
    NoDup ((fun r => r.1.1) <$> rs).
Proof.
  unfold _reasignar_ordenes_inteligente.
  set (st0 := {| reasignaciones := []; ordenes_ya_reasignadas := ∅;
                 machine_loads := (fun item => (item.1, Z.of_nat (length item.2)))
                                    <$> orders_by_machine |}).
  assert (Hinv0 : invariante st0).
  { split; [constructor|]. split; [constructor|]. intros o_id Hin. inversion Hin. }
  destruct (fase_capacidad_spec [] orders_by_machine ltac:(apply Forall_forall; auto) st0 Hinv0)
    as (st1 & -> & Hinv1 & _).
  { intros k Hk. inversion Hk. }
  cbn [mbind res_bind Py.bind].
  destruct (fase_balanceo_spec (claves_por_carga (machine_loads st1))
              (claves_por_carga (machine_loads st1)) ltac:(apply Forall_forall; auto) st1 Hinv1)
    as (st2 & -> & (Hval & Hnd & _) & _).
  { intros k Hk. exact (claves_por_carga_elem _ k Hk). }
  cbn [mbind res_bind Py.bind]. exists (reasignaciones st2). auto.
Qed.

End Reasignar.

Lemma reassignments_sound_witness :
  exists rs,
    _reasignar_ordenes_inteligente elements
      [Ejemplos.maquina_dos_tintas; Ejemplos.maquina_n 2] Ejemplos.grafo_1_2
      Ejemplos.ordenes_por_maquina = Ok rs /\
    rs = [(102, 2, Requiere 4 2 6)]%Z /\
    Forall (reasignacion_valida [Ejemplos.maquina_dos_tintas; Ejemplos.maquina_n 2]
              Ejemplos.grafo_1_2 Ejemplos.ordenes_por_maquina) rs.
Proof.
  destruct (reassignments_sound elements
              [Ejemplos.maquina_dos_tintas; Ejemplos.maquina_n 2] Ejemplos.grafo_1_2
              Ejemplos.ordenes_por_maquina) as (rs & Hok & Hval & _).
  - intros s x Hx. apply elem_of_elements. exact Hx.
  - exists rs. split; [exact Hok|]. split; [|exact Hval].
    assert (E : _reasignar_ordenes_inteligente elements
                  [Ejemplos.maquina_dos_tintas; Ejemplos.maquina_n 2] Ejemplos.grafo_1_2
                  Ejemplos.ordenes_por_maquina = Ok [(102, 2, Requiere 4 2 6)]%Z)
      by (vm_compute; reflexivity).
    rewrite E in Hok. injection Hok as <-. reflexivity.
Defined.

End ReassignProps.

(** ** The schedules of all the machines *)

Module AllMachinesProps.

Import Optimizer SchedulingService.

Section Servicio.

Variable hall_of_fame : AlgoritmoGeneticoFlexo -> nat -> nat -> list nat.
Variable fuel : nat.

Hypothesis Hperm :
  forall ag p g, hall_of_fame ag p g ≡ₚ seq 0 (length (idx_to_order_id ag)).

(** X21. Step 6 of [generate_optimal_schedule_all_machines], when the
    search returns a permutation of the indices: the rows are made machine
    by machine, in the order of [orders_by_machine].  The orders held by a
    machine id that is not among the active machines get no row at all;
    for every other machine each of its orders gets exactly one row, with
    the id of that machine and the ranks 1, 2, ..., n. *)
Theorem all_schedules_blocks (active_machines : list MachineModel)
  (orders_by_machine : list (Z * list SchedulableOrderModel)) (now : datetime)
  (filas : list fila) :
  all_schedules hall_of_fame fuel active_machines orders_by_machine now = Ok filas ->
  exists bloques,
    filas = concat bloques /\
    Forall2
      (fun item bloque =>
         match machines_dict_get active_machines item.1 with
         | None => bloque = []
         | Some _ =>
             order_id <$> bloque ≡ₚ id <$> item.2 /\
             order_production <$> bloque = seqZ 1 (Z.of_nat (length item.2)) /\
             Forall (fun f => fila_machine_id f = item.1) bloque
         end)
      orders_by_machine bloques.
Proof.
  revert filas. induction orders_by_machine as [|[m_id ordenes] resto IH]; intros filas Hall.
  - cbn in Hall. injection Hall as <-. exists []. split; [reflexivity|constructor].
  - cbn [all_schedules] in Hall.
    destruct (planificar_maquina hall_of_fame fuel active_machines m_id ordenes now)
      as [bloque| |] eqn:Ebloque; try discriminate Hall.
    cbn [mbind res_bind Py.bind] in Hall.
    destruct (all_schedules hall_of_fame fuel active_machines resto now)
      as [siguientes| |] eqn:Eresto; try discriminate Hall.
    cbn [mbind res_bind Py.bind] in Hall. injection Hall as <-.
    destruct (IH siguientes eq_refl) as (bloques & -> & Hbloques).
    exists (bloque :: bloques). split; [reflexivity|]. constructor; [|exact Hbloques].
    cbn [fst snd]. unfold planificar_maquina in Ebloque.
    destruct (machines_dict_get active_machines m_id) as [machine_info|].
    + case_bool_decide as Hvacio.
      * injection Ebloque as <-. subst ordenes. split; [reflexivity|].
        split; [reflexivity|constructor].
      * exact (ScheduleContents.planificar_Permutation hall_of_fame fuel Hperm _ m_id ordenes
                 machine_info now bloque Ebloque).
    + destruct (bool_decide (ordenes = [])); injection Ebloque as <-; reflexivity.
Qed.

End Servicio.

Lemma all_schedules_blocks_witness :
  exists filas,
    all_schedules Ejemplos.hall_of_fame_inverso 0 [Ejemplos.maquina_1]
      Ejemplos.ordenes_por_maquina (at_day Ejemplos.lunes 8 0) = Ok filas /\
    order_id <$> filas = [102; 101]%Z /\
    exists bloques, filas = concat bloques /\ length bloques = 2%nat.
Proof.
  destruct (all_schedules Ejemplos.hall_of_fame_inverso 0 [Ejemplos.maquina_1]
              Ejemplos.ordenes_por_maquina (at_day Ejemplos.lunes 8 0))
    as [filas| |] eqn:E; [|vm_compute in E; discriminate..].
  exists filas. split; [reflexivity|].
  destruct (all_schedules_blocks Ejemplos.hall_of_fame_inverso 0
              ltac:(intros ag p g; unfold Ejemplos.hall_of_fame_inverso;
                    apply reverse_Permutation)
              [Ejemplos.maquina_1] Ejemplos.ordenes_por_maquina (at_day Ejemplos.lunes 8 0)
              filas E) as (bloques & Hfilas & Hbloques).
  split.
  - vm_compute in E. injection E as <-. reflexivity.
  - exists bloques. split; [exact Hfilas|].
    apply Forall2_length in Hbloques. symmetry. exact Hbloques.
Defined.

End AllMachinesProps.
